(** * nsx-install.py: flat key-value files, the variables document and the
      playbook sequence

    A shallow embedding of [nsx-install.py].  Text is modelled with
    [string]; a character stands for a code point below 256 and the
    built-in string methods follow Python 3 ([str.strip], [str.split],
    [str.lower], [int], text-mode file iteration).  The dictionaries
    returned by [txt_to_json] are [gmap string string]; the nested document
    handed to [json.dump] is a tree whose objects keep the insertion order
    of their keys.  [sys.exit] and uncaught exceptions are the two abnormal
    outcomes of a call. *)

From Stdlib Require Import ZArith Ascii String DecimalString.
From stdpp Require Import base option list strings gmap.

Local Open Scope Z_scope.

(** ** Characters *)

Definition LF : ascii := "010"%char.
Definition CR : ascii := "013"%char.
Definition dquote : ascii := "034"%char.
Definition hash : ascii := "035"%char.
Definition comma : ascii := ","%char.
Definition equals : ascii := "="%char.

Definition code (c : ascii) : N := N_of_ascii c.

(** [str.isspace] on the code points below 256. *)
Definition is_space (c : ascii) : bool :=
  let n := code c in
  ((9 <=? n) && (n <=? 13) || (28 <=? n) && (n <=? 32)
   || (n =? 133) || (n =? 160))%N.

(** The white space [int] tolerates around a literal. *)
Definition is_int_space (c : ascii) : bool :=
  let n := code c in
  ((9 <=? n) && (n <=? 13) || (n =? 32) || (n =? 133) || (n =? 160))%N.

Definition is_digit (c : ascii) : bool :=
  let n := code c in ((48 <=? n) && (n <=? 57))%N.

Definition digit_val (c : ascii) : Z := Z.of_N (code c) - 48.

(** [str.lower] on one character: A-Z and the Latin-1 capitals. *)
Definition lower_char (c : ascii) : ascii :=
  let n := code c in
  if ((65 <=? n) && (n <=? 90)
      || (192 <=? n) && (n <=? 222) && negb (n =? 215))%N
  then ascii_of_N (n + 32) else c.

(** ** String methods *)

Fixpoint lstrip_by (p : ascii -> bool) (s : string) : string :=
  match s with
  | EmptyString => EmptyString
  | String c r => if p c then lstrip_by p r else s
  end.

Fixpoint rstrip_by (p : ascii -> bool) (s : string) : string :=
  match s with
  | EmptyString => EmptyString
  | String c r =>
      match rstrip_by p r with
      | EmptyString => if p c then EmptyString else String c EmptyString
      | r' => String c r'
      end
  end.

Definition strip_by (p : ascii -> bool) (s : string) : string :=
  rstrip_by p (lstrip_by p s).

(** [s.strip()] *)
Definition strip (s : string) : string := strip_by is_space s.

(** [s.strip(c)] for a one-character argument. *)
Definition strip_char (c : ascii) (s : string) : string :=
  strip_by (Ascii.eqb c) s.

(** [s.split(sep)] for a one-character separator: never the empty list. *)
Fixpoint str_split (sep : ascii) (s : string) : list string :=
  match s with
  | EmptyString => [EmptyString]
  | String c r =>
      if Ascii.eqb c sep then EmptyString :: str_split sep r
      else match str_split sep r with
           | p :: ps => String c p :: ps
           | [] => [String c EmptyString]
           end
  end.

(** [s.startswith(c)] for a one-character argument. *)
Definition startswith (c : ascii) (s : string) : bool :=
  match s with
  | String c' _ => Ascii.eqb c' c
  | EmptyString => false
  end.

Fixpoint lower (s : string) : string :=
  match s with
  | EmptyString => EmptyString
  | String c r => String (lower_char c) (lower r)
  end.

(** The digits of a decimal literal: single underscores may separate
    digits, [seen] tells whether the previous character was a digit. *)
Fixpoint int_digits (acc : Z) (seen : bool) (s : string) : option Z :=
  match s with
  | EmptyString => if seen then Some acc else None
  | String c r =>
      if is_digit c then int_digits (10 * acc + digit_val c) true r
      else if Ascii.eqb c "_"%char
           then (if seen then int_digits acc false r else None)
           else None
  end.

(** [int(s)]: [None] stands for [ValueError]. *)
Definition py_int (s : string) : option Z :=
  match strip_by is_int_space s with
  | String "+"%char r => int_digits 0 false r
  | String "-"%char r => Z.opp <$> int_digits 0 false r
  | t => int_digits 0 false t
  end.

(** [range(n)] *)
Definition py_range (n : Z) : list Z := Z.of_nat <$> seq 0 (Z.to_nat n).

(** ["%s" % n] for an integer. *)
Definition str_of_int (n : Z) : string := NilZero.string_of_int (Z.to_int n).

(** Iterating over a file opened in text mode: the lines, each with its
    terminator; [CR] and [CR LF] are read as [LF]. *)
Fixpoint readlines (s : string) : list string :=
  match s with
  | EmptyString => []
  | String c r =>
      if Ascii.eqb c LF then String LF EmptyString :: readlines r
      else if Ascii.eqb c CR then
        String LF EmptyString ::
          match r with
          | String c' r' => if Ascii.eqb c' LF then readlines r' else readlines r
          | EmptyString => []
          end
      else match readlines r with
           | l :: ls => String c l :: ls
           | [] => [String c EmptyString]
           end
  end.

(** ** Outcomes of a call *)

Inductive exn : Type :=
| KeyError (key : string)
| ValueError (text : string)
| IndexError
| OtherError.

(** [Exit code msg]: [msg] was printed and [sys.exit (code)] called. *)
Inductive outcome (A : Type) : Type :=
| Return (a : A)
| Exit (status : Z) (msg : string)
| Raise (e : exn).

Arguments Return {A} a.
Arguments Exit {A} status msg.
Arguments Raise {A} e.

Definition bind {A B : Type} (m : outcome A) (k : A -> outcome B) : outcome B :=
  match m with
  | Return a => k a
  | Exit st msg => Exit st msg
  | Raise e => Raise e
  end.

Notation "x <-- m ;; k" := (bind m (fun x => k))
  (at level 100, m at next level, right associativity,
   format "'[v' x  <--  m  ;;  '/' k ']'").

(** [d [k]] on a dictionary. *)
Definition getitem (d : gmap string string) (k : string) : outcome string :=
  match d !! k with
  | Some v => Return v
  | None => Raise (KeyError k)
  end.

(** [int (s)] as a call. *)
Definition int_of (s : string) : outcome Z :=
  match py_int s with
  | Some n => Return n
  | None => Raise (ValueError s)
  end.

(** ** Helper functions of the script *)

Definition g_logfile : string := "./nsx-install.log".

Definition text_line (s : string) : string := s +:+ String LF EmptyString.

Definition quoted (s : string) : string :=
  String dquote (s +:+ String dquote EmptyString).

(** [writeln]: the text written to [fd]. *)
Definition writeln (key value comment example : string) : string :=
  (String LF (text_line ("# " +:+ comment)))
  +:+ (if String.eqb example "" then "" else text_line ("# Example: " +:+ example))
  +:+ (if String.eqb key "" then "" else text_line (key +:+ " = " +:+ quoted value)).

(** The loop body of [txt_to_json]. *)
Definition txt_to_json_step (jsondict : gmap string string) (ln : string)
  : outcome (gmap string string) :=
  let ln := strip ln in
  if negb (startswith hash ln) && negb (String.eqb ln "") then
    let items := str_split equals ln in
    match items !! 1%nat, items !! 0%nat with
    | Some i1, Some i0 =>
        Return (<[strip i0 := strip_char dquote (strip i1)]> jsondict)
    | _, _ => Raise IndexError
    end
  else Return jsondict.

Fixpoint txt_to_json_loop (jsondict : gmap string string) (lns : list string)
  : outcome (gmap string string) :=
  match lns with
  | [] => Return jsondict
  | ln :: rest =>
      d <-- txt_to_json_step jsondict ln ;;
      txt_to_json_loop d rest
  end.

(** [txt_to_json], applied to the contents of the file it opens. *)
Definition txt_to_json (contents : string) : outcome (gmap string string) :=
  txt_to_json_loop ∅ (readlines contents).

(** The calls [writeln (f, key, value, comment)] of [reset_defaults], in
    order, after the first one, which writes the heading only. *)
Definition reset_defaults_calls : list (string * string * string) :=
  [ ("nsx_username", "admin",
     "NSX Username");
    ("validate_certs", "false",
     "Accept self-signed certs");
    ("nsx_vcenter", "vSphere_NSX_deploy",
     "Display name of vCenter on which NSX will be deployed");
    ("compute_manager_name", "vcenter",
     "Display Name on NSX Manager for the registered vCenter Server");
    ("overlay_tz_name", "Overlay-TZ",
     "Overlay Transport Zone display name");
    ("vlan_tz_name", "VLAN-TZ",
     "VLAN Transport Zone display name");
    ("ip_pool_1_name", "Edge-TEP-IP-Pool",
     "IP Pool used by Edge Transport Nodes");
    ("ip_pool_2_name", "Host-TEP-IP-Pool",
     "IP Pool used by Host Transport Nodes.");
    ("edge_form_factor", "LARGE",
     "VM form factor for Edge Node deployments. Defaults to LARGE. Other choices are SMALL and MEDIUM");
    ("edge1_host_switch_name", "nvds1",
     "Host Switch Name on Edge1");
    ("edge1_display_name", "edge-01",
     "Display Name of Edge1 on NSX Manager");
    ("edge2_host_switch_name", "nvds1",
     "Host Switch Name on Edge2");
    ("edge2_display_name", "edge-02",
     "Display Name of Edge2 on NSX Manager");
    ("edge_cluster_display_name", "Edge-Cluster",
     "Display name of the Edge Cluster");
    ("edge_cluster_profile_binding", "nsx-default-edge-high-availability-profile",
     "Edge Cluster Profile Binding");
    ("tier0_display_name", "vSphereK8sT0",
     "Tier0 display name");
    ("host_switch_profile_name", "vSphereK8_uplink_profile",
     "Name of the Host Switch Uplink Profile");
    ("host_switch_uplink1_name", "uplink-1",
     "Uplink1 Name used for Host switch teaming");
    ("host_switch_uplink2_name", "uplink-2",
     "Uplink1 Name used for Host switch teaming");
    ("host_switch_teaming_policy", "FAILOVER_ORDER",
     "Teaming policy. Choices are FAILOVER_ORDER, LOADBALANCE_SRCID or LOADBALANCE_SRC_MAC");
    ("host_tnp_display_name", "vSphereK8_TNP",
     "Name of the Transport Node Profile configured on the Compute Clusters");
    ("host_default_host_switch_profile", "nsx-default-uplink-hostswitch-profile",
     "Host Switch Profile used for Host Transport Node config") ].

Fixpoint write_calls (calls : list (string * string * string)) : string :=
  match calls with
  | [] => ""
  | (key, value, comment) :: rest =>
      writeln key value comment "" +:+ write_calls rest
  end.

(** [reset_defaults]: the text written to the defaults file, which is opened
    for writing and so holds nothing else. *)
Definition reset_defaults : string :=
  writeln "" "" (text_line "Defaults") "" +:+ write_calls reset_defaults_calls.

(** The keys and values [reset_defaults] passes to [writeln], in order. *)
Definition reset_defaults_bindings : list (string * string) :=
  (fun call => (call.1.1, call.1.2)) <$> reset_defaults_calls.

(** ** The document handed to [json.dump]

    A [JDict] lists its keys in insertion order, which is the order
    [json.dump] writes them in.  Where the script stores a list or a
    dictionary in its parent before it has finished filling it, the parent
    shares the object, so the tree below holds the filled one. *)

#[local] Set Warnings "-register-all".

Inductive json : Type :=
| JStr (s : string)
| JInt (n : Z)
| JBool (b : bool)
| JList (items : list json)
| JDict (fields : list (string * json)).

(** [d [k]] on a document. *)
Fixpoint assoc (k : string) (fields : list (string * json)) : option json :=
  match fields with
  | [] => None
  | (k', v) :: rest => if String.eqb k' k then Some v else assoc k rest
  end.

Definition jget (k : string) (j : json) : option json :=
  match j with
  | JDict fields => assoc k fields
  | _ => None
  end.

Definition jitems (j : json) : option (list json) :=
  match j with
  | JList items => Some items
  | _ => None
  end.

(** ** Looking up the distributed switch *)

Record dvswitch : Type := { dvs_name : string; dvs_uuid : string }.

(** What [SmartConnectNoSSL] and [RetrieveContent] come back with: a
    [vmodl.MethodFault], some other exception, or the switches of the
    container view. *)
Inductive vcenter_reply : Type :=
| MethodFault (msg : string)
| ConnectError
| Connected (view : list dvswitch).

(** The vCenter servers, by host, user and password. *)
Definition vcenter : Type := string -> string -> string -> vcenter_reply.

Fixpoint get_obj (view : list dvswitch) (name : string) : option dvswitch :=
  match view with
  | [] => None
  | c :: rest => if String.eqb (dvs_name c) name then Some c else get_obj rest name
  end.

Definition get_vds_uuid (vc : vcenter) (vds_name host user pwd : string)
  : outcome string :=
  match vc host user pwd with
  | Connected view =>
      match get_obj view vds_name with
      | None =>
          Exit 2 ("ERROR: Distributed Switch: " +:+ vds_name +:+ " Not found in vCenter.")
      | Some vds => Return (dvs_uuid vds)
      end
  | MethodFault msg =>
      Exit 2 ("Unable to connect to vCenter: Caught vmodl fault: " +:+ msg)
  | ConnectError => Raise OtherError
  end.

(** ** [generate_vars_file], block by block in source order *)

Section Blocks.

Variable vc : vcenter.
Variables defaults config : gmap string string.

(** Lines 349-363. *)
Definition top_level_vars : outcome (list (string * json)) :=
  nsx_username <-- getitem defaults "nsx_username" ;;
  nsx_password <-- getitem config "nsx_password" ;;
  nsx_ova_path <-- getitem config "nsx_ova_path" ;;
  nsx_ova <-- getitem config "nsx_ova" ;;
  domain <-- getitem config "domain" ;;
  netmask <-- getitem config "netmask" ;;
  gateway <-- getitem config "gateway" ;;
  dns_server <-- getitem config "dns_server" ;;
  ntp_server <-- getitem config "ntp_server" ;;
  nsx_vcenter_fqdn <-- getitem config "nsx_vcenter_fqdn" ;;
  nsx_vcenter_username <-- getitem config "nsx_vcenter_username" ;;
  nsx_vcenter_password <-- getitem config "nsx_vcenter_password" ;;
  Return
    [ ("state", JStr "present");
      ("nsx_username", JStr nsx_username);
      ("nsx_password", JStr nsx_password);
      ("validate_certs", JStr "False");
      ("nsx_ova_path", JStr nsx_ova_path);
      ("nsx_ova", JStr nsx_ova);
      ("domain", JStr domain);
      ("netmask", JStr netmask);
      ("gateway", JStr gateway);
      ("dns_server", JStr dns_server);
      ("ntp_server", JStr ntp_server);
      ("nsx_vcenter_fqdn", JStr nsx_vcenter_fqdn);
      ("nsx_vcenter_username", JStr nsx_vcenter_username);
      ("nsx_vcenter_password", JStr nsx_vcenter_password) ].

(** Lines 365-372. *)
Definition nsx_node1 : outcome json :=
  hostname <-- getitem config "node1_hostname" ;;
  mgmt_ip <-- getitem config "node1_mgmt_ip" ;;
  datacenter <-- getitem config "node1_datacenter" ;;
  cluster <-- getitem config "node1_cluster" ;;
  datastore <-- getitem config "node1_datastore" ;;
  portgroup <-- getitem config "node1_portgroup" ;;
  Return (JDict
    [ ("hostname", JStr hostname); ("mgmt_ip", JStr mgmt_ip);
      ("datacenter", JStr datacenter); ("cluster", JStr cluster);
      ("datastore", JStr datastore); ("portgroup", JStr portgroup) ]).

(** Lines 375-385 and 387-397: one more manager node, [node] being
    ["node2"] or ["node3"]. *)
Definition additional_node (node : string) : outcome json :=
  hostname <-- getitem config (node +:+ "_hostname") ;;
  mgmt_ip <-- getitem config (node +:+ "_mgmt_ip") ;;
  prefix <-- getitem config (node +:+ "_netmask_prefix") ;;
  datacenter <-- getitem config (node +:+ "_datacenter") ;;
  cluster <-- getitem config (node +:+ "_cluster") ;;
  datastore <-- getitem config (node +:+ "_datastore") ;;
  portgroup <-- getitem config (node +:+ "_portgroup") ;;
  vcenter <-- getitem defaults "nsx_vcenter" ;;
  vcenter_user <-- getitem config "nsx_vcenter_username" ;;
  vcenter_pass <-- getitem config "nsx_vcenter_password" ;;
  Return (JDict
    [ ("hostname", JStr hostname); ("mgmt_ip", JStr mgmt_ip);
      ("prefix", JStr prefix); ("datacenter", JStr datacenter);
      ("cluster", JStr cluster); ("datastore", JStr datastore);
      ("portgroup", JStr portgroup); ("vcenter", JStr vcenter);
      ("vcenter_user", JStr vcenter_user);
      ("vcenter_pass", JStr vcenter_pass) ]).

(** Lines 374-399. *)
Definition additional_nodes : outcome json :=
  node2 <-- additional_node "node2" ;;
  node3 <-- additional_node "node3" ;;
  Return (JList [node2; node3]).

(** Lines 401-423: the list, and [defaults] as the [else] branch leaves it. *)
Definition compute_managers : outcome (json * gmap string string) :=
  display_name <-- getitem defaults "compute_manager_name" ;;
  mgmt_ip <-- getitem config "vcenter_fqdn" ;;
  username <-- getitem config "vcenter_username" ;;
  password <-- getitem config "vcenter_password" ;;
  let cm1 := JDict
    [ ("display_name", JStr display_name); ("mgmt_ip", JStr mgmt_ip);
      ("origin_type", JStr "vCenter");
      ("credential_type", JStr "UsernamePasswordLoginCredential");
      ("username", JStr username); ("password", JStr password);
      ("set_as_oidc_provider", JStr "true") ] in
  nsx_vcenter_fqdn <-- getitem config "nsx_vcenter_fqdn" ;;
  vcenter_fqdn <-- getitem config "vcenter_fqdn" ;;
  if negb (String.eqb nsx_vcenter_fqdn vcenter_fqdn) then
    display_name2 <-- getitem defaults "nsx_vcenter" ;;
    mgmt_ip2 <-- getitem config "nsx_vcenter_fqdn" ;;
    username2 <-- getitem config "nsx_vcenter_username" ;;
    password2 <-- getitem config "nsx_vcenter_password" ;;
    let cm2 := JDict
      [ ("display_name", JStr display_name2); ("mgmt_ip", JStr mgmt_ip2);
        ("origin_type", JStr "vCenter");
        ("credential_type", JStr "UsernamePasswordLoginCredential");
        ("username", JStr username2); ("password", JStr password2);
        ("set_as_oidc_provider", JStr "false") ] in
    Return (JList [cm1; cm2], defaults)
  else
    name <-- getitem defaults "compute_manager_name" ;;
    Return (JList [cm1], <["nsx_vcenter" := name]> defaults).

(** Lines 425-429. *)
Definition nsxt_licenses : outcome json :=
  license_key <-- getitem config "nsx_license_key" ;;
  Return (JList [JDict [("license_key", JStr license_key)]]).

(** Lines 431-440. *)
Definition transport_zones : outcome json :=
  overlay <-- getitem defaults "overlay_tz_name" ;;
  vlan <-- getitem defaults "vlan_tz_name" ;;
  Return (JList
    [ JDict [("display_name", JStr overlay); ("transport_type", JStr "OVERLAY")];
      JDict [("display_name", JStr vlan); ("transport_type", JStr "VLAN")] ]).

(** Lines 443-459 and 461-477: one pool, [pool] being ["ip_pool_1"] or
    ["ip_pool_2"]. *)
Definition ip_pool (pool : string) : outcome json :=
  display_name <-- getitem defaults (pool +:+ "_name") ;;
  id <-- getitem defaults (pool +:+ "_name") ;;
  range_start <-- getitem config (pool +:+ "_start") ;;
  range_end <-- getitem config (pool +:+ "_end") ;;
  gateway_ip <-- getitem config (pool +:+ "_gateway") ;;
  cidr <-- getitem config (pool +:+ "_cidr") ;;
  Return (JDict
    [ ("display_name", JStr display_name);
      ("pool_static_subnets", JList
        [ JDict
            [ ("state", JStr "present");
              ("id", JStr (id +:+ "_subnets"));
              ("allocation_ranges", JList
                [ JDict [("start", JStr range_start); ("end", JStr range_end)] ]);
              ("gateway_ip", JStr gateway_ip);
              ("cidr", JStr cidr) ] ]) ]).

(** Lines 442-478. *)
Definition ip_pools : outcome json :=
  edge_pool <-- ip_pool "ip_pool_1" ;;
  host_pool <-- ip_pool "ip_pool_2" ;;
  Return (JList [edge_pool; host_pool]).

(** The body of the loops at lines 499-507 and 586-594. *)
Definition edge_pnic (i : Z) : json :=
  JDict
    (if i =? 0 then
       [("device_name", JStr "fp-eth0"); ("uplink_name", JStr "uplink-1")]
     else if i =? 1 then
       [("device_name", JStr "fp-eth1"); ("uplink_name", JStr "uplink-2")]
     else []).

(** The check and the loop at lines 495-507 and 582-594. *)
Definition edge_pnics (edge : string) : outcome (list json) :=
  configured <-- getitem config (edge +:+ "_number_of_uplinks") ;;
  n <-- int_of configured ;;
  if n >? 2 then
    shown <-- getitem config (edge +:+ "_number_of_uplinks") ;;
    Exit 2 ("ERROR: Max allowed Edge Uplinks: 2. Configured: " +:+ shown)
  else
    configured' <-- getitem config (edge +:+ "_number_of_uplinks") ;;
    n' <-- int_of configured' ;;
    Return (edge_pnic <$> py_range (n' - 1)).

(** Lines 481-566 and 568-653: one edge transport node, [edge] being
    ["edge1"] or ["edge2"]; both read [data_networks] from
    [edge2_data_network]. *)
Definition edge_transport_node (edge : string) : outcome json :=
  host_switch_name <-- getitem defaults (edge +:+ "_host_switch_name") ;;
  profile_name <-- getitem config (edge +:+ "_host_switch_profile_name") ;;
  pnics <-- edge_pnics edge ;;
  ip_pool_name <-- getitem defaults "ip_pool_1_name" ;;
  transport_zone_name <-- getitem defaults "overlay_tz_name" ;;
  vc_name <-- getitem defaults "nsx_vcenter" ;;
  vc_username <-- getitem config "nsx_vcenter_username" ;;
  vc_password <-- getitem config "nsx_vcenter_password" ;;
  compute <-- getitem config (edge +:+ "_cluster") ;;
  storage <-- getitem config (edge +:+ "_storage") ;;
  management_network <-- getitem config (edge +:+ "_mgmt_network") ;;
  hostname <-- getitem config (edge +:+ "_fqdn") ;;
  mgmt_ip <-- getitem config (edge +:+ "_mgmt_ip") ;;
  prefix <-- getitem config (edge +:+ "_mgmt_netmask_prefix") ;;
  prefix_length <-- int_of prefix ;;
  default_gateway <-- getitem config (edge +:+ "_default_gateway") ;;
  data_network <-- getitem config "edge2_data_network" ;;
  form_factor <-- getitem defaults "edge_form_factor" ;;
  cli_password <-- getitem config (edge +:+ "_system_password") ;;
  root_password <-- getitem config (edge +:+ "_system_password") ;;
  audit_password <-- getitem config (edge +:+ "_system_password") ;;
  settings_hostname <-- getitem config (edge +:+ "_fqdn") ;;
  node_display_name <-- getitem defaults (edge +:+ "_display_name") ;;
  display_name <-- getitem defaults (edge +:+ "_display_name") ;;
  let host_switch_profile := JDict
    [ ("name", JStr profile_name); ("type", JStr "UplinkHostSwitchProfile") ] in
  let host_switch := JDict
    [ ("host_switch_name", JStr host_switch_name);
      ("host_switch_type", JStr "NVDS");
      ("host_switch_mode", JStr "STANDARD");
      ("host_switch_profiles", JList [host_switch_profile]);
      ("pnics", JList pnics);
      ("ip_assignment_spec", JDict
        [ ("resource_type", JStr "StaticIpPoolSpec");
          ("ip_pool_name", JStr ip_pool_name) ]);
      ("transport_zone_endpoints", JList
        [ JDict [("transport_zone_name", JStr transport_zone_name)] ]) ] in
  let vm_dep_config := JDict
    [ ("vc_name", JStr vc_name);
      ("vc_username", JStr vc_username);
      ("vc_password", JStr vc_password);
      ("compute", JStr compute);
      ("storage", JStr storage);
      ("management_network", JStr management_network);
      ("hostname", JStr hostname);
      ("management_port_subnets", JList
        [ JDict [ ("ip_addresses", JList [JStr mgmt_ip]);
                  ("prefix_length", JInt prefix_length) ] ]);
      ("default_gateway_addresses", JList [JStr default_gateway]);
      ("data_networks", JList [JStr data_network]);
      ("enable_ssh", JBool true);
      ("allow_ssh_root_login", JBool true);
      ("placement_type", JStr "VsphereDeploymentConfig") ] in
  let dep_config := JDict
    [ ("vm_deployment_config", vm_dep_config);
      ("form_factor", JStr form_factor);
      ("node_user_settings", JDict
        [ ("cli_username", JStr "admin");
          ("cli_password", JStr cli_password);
          ("root_password", JStr root_password);
          ("audit_username", JStr "audit");
          ("audit_password", JStr audit_password) ]) ] in
  let node_dep_info := JDict
    [ ("deployment_type", JStr "VIRTUAL_MACHINE");
      ("deployment_config", dep_config);
      ("node_settings", JDict
        [ ("hostname", JStr settings_hostname);
          ("enable_ssh", JBool true);
          ("allow_ssh_root_login", JBool true) ]);
      ("resource_type", JStr "EdgeNode");
      ("display_name", JStr node_display_name) ] in
  Return (JDict
    [ ("host_switch_spec", JDict
        [ ("resource_type", JStr "StandardHostSwitchSpec");
          ("host_switches", JList [host_switch]) ]);
      ("node_deployment_info", node_dep_info);
      ("display_name", JStr display_name);
      ("resource_type", JStr "TransportNode") ]).

(** Lines 480-654. *)
Definition edge_transport_nodes : outcome json :=
  edge1 <-- edge_transport_node "edge1" ;;
  edge2 <-- edge_transport_node "edge2" ;;
  Return (JList [edge1; edge2]).

(** Lines 656-671. *)
Definition edge_clusters : outcome json :=
  display_name <-- getitem defaults "edge_cluster_display_name" ;;
  tn1 <-- getitem defaults "edge1_display_name" ;;
  tn2 <-- getitem defaults "edge2_display_name" ;;
  Return (JList
    [ JDict
        [ ("display_name", JStr display_name);
          ("cluster_profile_bindings", JList
            [ JDict [("profile_name", JStr "nsx-default-edge-high-availability-profile")] ]);
          ("members", JList
            [ JDict [("transport_node_name", JStr tn1)];
              JDict [("transport_node_name", JStr tn2)] ]) ] ]).

(** Lines 673-692. *)
Definition tier0_gateways : outcome json :=
  display_name <-- getitem defaults "tier0_display_name" ;;
  id <-- getitem defaults "tier0_display_name" ;;
  edge_cluster <-- getitem defaults "edge_cluster_display_name" ;;
  Return (JList
    [ JDict
        [ ("display_name", JStr display_name);
          ("ha_mode", JStr "ACTIVE_STANDBY");
          ("locale_services", JList
            [ JDict
                [ ("state", JStr "present");
                  ("id", JStr (id +:+ "_service"));
                  ("route_redistribution_types", JList
                    [JStr "TIER0_STATIC"; JStr "TIER0_NAT"]);
                  ("edge_cluster_info", JDict
                    [("edge_cluster_display_name", JStr edge_cluster)]);
                  ("BGP", JDict
                    [ ("state", JStr "present");
                      ("local_as_num", JStr "1121") ]) ] ]) ] ]).

(** Lines 694-714. *)
Definition host_switch_profiles : outcome json :=
  display_name <-- getitem defaults "host_switch_profile_name" ;;
  mtu <-- getitem config "host_switch_mtu" ;;
  uplink1 <-- getitem defaults "host_switch_uplink1_name" ;;
  uplink2 <-- getitem defaults "host_switch_uplink2_name" ;;
  policy <-- getitem defaults "host_switch_teaming_policy" ;;
  transport_vlan <-- getitem config "transport_vlan" ;;
  Return (JList
    [ JDict
        [ ("display_name", JStr display_name);
          ("resource_type", JStr "UplinkHostSwitchProfile");
          ("mtu", JStr mtu);
          ("teaming", JDict
            [ ("standby_list", JList []);
              ("active_list", JList
                [ JDict [("uplink_name", JStr uplink1); ("uplink_type", JStr "PNIC")];
                  JDict [("uplink_name", JStr uplink2); ("uplink_type", JStr "PNIC")] ]);
              ("policy", JStr policy) ]);
          ("transport_vlan", JStr transport_vlan) ] ]).

(** The body of the loop at lines 738-746. *)
Definition host_uplink (i : Z) : json :=
  JDict
    (if i =? 0 then
       [("vds_uplink_name", JStr "Uplink 1"); ("uplink_name", JStr "uplink-1")]
     else
       [("vds_uplink_name", JStr "Uplink 2"); ("uplink_name", JStr "uplink-2")]).

(** The check and the loop at lines 734-746. *)
Definition host_uplinks : outcome (list json) :=
  configured <-- getitem config "host_number_of_uplinks" ;;
  n <-- int_of configured ;;
  if n >? 2 then
    shown <-- getitem config "host_number_of_uplinks" ;;
    Exit 2 ("ERROR: Max allowed Host Uplinks: 2. Configured: " +:+ shown)
  else
    configured' <-- getitem config "host_number_of_uplinks" ;;
    n' <-- int_of configured' ;;
    Return (host_uplink <$> py_range n').

(** Lines 716-762. *)
Definition transport_node_profiles : outcome json :=
  display_name <-- getitem defaults "host_tnp_display_name" ;;
  vds_name <-- getitem config "host_vds_name" ;;
  host <-- getitem config "vcenter_fqdn" ;;
  user <-- getitem config "vcenter_username" ;;
  pwd <-- getitem config "vcenter_password" ;;
  host_switch_id <-- get_vds_uuid vc vds_name host user pwd ;;
  profile_name <-- getitem defaults "host_default_host_switch_profile" ;;
  uplinks <-- host_uplinks ;;
  ip_pool_name <-- getitem defaults "ip_pool_2_name" ;;
  transport_zone_name <-- getitem defaults "overlay_tz_name" ;;
  description <-- getitem defaults "host_tnp_display_name" ;;
  let host_switch := JDict
    [ ("host_switch_id", JStr host_switch_id);
      ("host_switch_type", JStr "VDS");
      ("host_switch_mode", JStr "STANDARD");
      ("host_switch_profiles", JList
        [ JDict [ ("type", JStr "UplinkHostSwitchProfile");
                  ("name", JStr profile_name) ] ]);
      ("pnics", JList []);
      ("uplinks", JList uplinks);
      ("ip_assignment_spec", JDict
        [ ("resource_type", JStr "StaticIpPoolSpec");
          ("ip_pool_name", JStr ip_pool_name) ]);
      ("transport_zone_endpoints", JList
        [ JDict [("transport_zone_name", JStr transport_zone_name)] ]) ] in
  Return (JList
    [ JDict
        [ ("resource_type", JStr "TransportNodeProfile");
          ("display_name", JStr display_name);
          ("host_switch_spec", JDict
            [ ("host_switches", JList [host_switch]);
              ("resource_type", JStr "StandardHostSwitchSpec") ]);
          ("description", JStr description) ] ]).

(** The body of the loop at lines 766-775. *)
Definition tn_collection (cluster : string) : outcome json :=
  let cluster := strip cluster in
  compute_manager_name <-- getitem defaults "compute_manager_name" ;;
  transport_node_profile_name <-- getitem defaults "host_tnp_display_name" ;;
  Return (JDict
    [ ("state", JStr "present");
      ("display_name", JStr ("TNP" +:+ "_" +:+ cluster));
      ("description", JStr ("TNP" +:+ "_" +:+ cluster));
      ("resource_type", JStr "TransportNodeCollection");
      ("compute_manager_name", JStr compute_manager_name);
      ("cluster_name", JStr cluster);
      ("transport_node_profile_name", JStr transport_node_profile_name) ]).

Fixpoint tn_collections_loop (clusters : list string) : outcome (list json) :=
  match clusters with
  | [] => Return []
  | cluster :: rest =>
      record <-- tn_collection cluster ;;
      records <-- tn_collections_loop rest ;;
      Return (record :: records)
  end.

(** Lines 764-776. *)
Definition transport_node_collections : outcome json :=
  clusters <-- getitem config "compute_clusters_for_prep" ;;
  records <-- tn_collections_loop (str_split comma clusters) ;;
  Return (JList records).

End Blocks.

(** Lines 347-776: the dictionary [nsx_vars] built from the two parsed
    files. *)
Definition nsx_vars (vc : vcenter) (defaults config : gmap string string)
  : outcome json :=
  top <-- top_level_vars defaults config ;;
  node1 <-- nsx_node1 config ;;
  nodes <-- additional_nodes defaults config ;;
  cm <-- compute_managers defaults config ;;
  let defaults := cm.2 in
  licenses <-- nsxt_licenses config ;;
  tzs <-- transport_zones defaults ;;
  pools <-- ip_pools defaults config ;;
  edge_tnp <-- edge_transport_nodes defaults config ;;
  clusters <-- edge_clusters defaults ;;
  tier0s <-- tier0_gateways defaults ;;
  hostsps <-- host_switch_profiles defaults config ;;
  host_tnps <-- transport_node_profiles vc defaults config ;;
  collections <-- transport_node_collections defaults config ;;
  Return (JDict
    (top ++
     [ ("nsx_node1", node1);
       ("additional_nodes", nodes);
       ("compute_managers", cm.1);
       ("nsxt_licenses", licenses);
       ("transport_zones", tzs);
       ("ip_pools", pools);
       ("edge_transport_nodes", edge_tnp);
       ("edge_clusters", clusters);
       ("tier0_gateways", tier0s);
       ("host_switch_profiles", hostsps);
       ("transport_node_profiles", host_tnps);
       ("transport_node_collections", collections) ])).

(** The three files of the script; [vars_file] is [None] until written. *)
Record files : Type := {
  defaults_file : string;
  config_file : string;
  vars_file : option json
}.

(** Lines 339-776: the document [generate_vars_file] builds from the two
    files it reads. *)
Definition vars_document (vc : vcenter) (fs : files) : outcome json :=
  defaults <-- txt_to_json (defaults_file fs) ;;
  config <-- txt_to_json (config_file fs) ;;
  nsx_vars vc defaults config.

(** [generate_vars_file]: the variables file is opened and written last. *)
Definition generate_vars_file (vc : vcenter) (fs : files) : outcome unit * files :=
  match vars_document vc fs with
  | Return doc =>
      (Return tt,
       {| defaults_file := defaults_file fs;
          config_file := config_file fs;
          vars_file := Some doc |})
  | Exit st msg => (Exit st msg, fs)
  | Raise e => (Raise e, fs)
  end.

(** ** Running the playbooks

    [os.system] is the outside world: given the commands run so far and the
    next command, it gives the status returned.  A call threads the list of
    commands run so far. *)

Definition shell : Type := list string -> string -> Z.

Definition run (A : Type) : Type := list string -> outcome A * list string.

Definition seq_run {A B : Type} (m : run A) (k : A -> run B) : run B :=
  fun trace =>
    match m trace with
    | (Return a, trace') => k a trace'
    | (Exit st msg, trace') => (Exit st msg, trace')
    | (Raise e, trace') => (Raise e, trace')
    end.

Definition pure_run {A : Type} (m : outcome A) : run A :=
  fun trace => (m, trace).

Notation "x <~~ m ;; k" := (seq_run m (fun x => k))
  (at level 100, m at next level, right associativity,
   format "'[v' x  <~~  m  ;;  '/' k ']'").
Notation "m ;;; k" := (seq_run m (fun _ => k))
  (at level 100, right associativity,
   format "'[v' m  ;;;  '/' k ']'").

(** The command line [run_playbook] builds. *)
Definition playbook_cmd (playbook : string) (wait : Z) : string :=
  if wait =? 0 then
    "ansible-playbook -vvvv " +:+ playbook +:+ " >> " +:+ g_logfile +:+ " 2>&1"
  else
    "ansible-playbook -vvvv " +:+ playbook +:+ " >> " +:+ g_logfile
      +:+ " 2>&1 && sleep " +:+ str_of_int wait.

Definition deployment_error : string :=
  "Deployment exited with Error. Please check " +:+ g_logfile.

Section Playbooks.

Variable os_system : shell.

Definition run_playbook (playbook : string) (wait : Z) : run unit :=
  fun trace =>
    let cmd := playbook_cmd playbook wait in
    let ret := os_system trace cmd in
    if negb (ret =? 0) then (Exit 1 deployment_error, trace ++ [cmd])
    else (Return tt, trace ++ [cmd]).

(** The condition at lines 796-797. *)
Definition cluster_requested (config : gmap string string) : outcome bool :=
  answer <-- getitem config "nsx_manager_cluster" ;;
  if String.eqb (lower answer) "yes" then Return true
  else
    answer' <-- getitem config "nsx_manager_cluster" ;;
    Return (String.eqb (lower answer') "y").

(** [call_ansible_to_install], applied to the contents of the config file. *)
Definition call_ansible_to_install (config_contents : string) : run unit :=
  run_playbook "01_deploy_first_node.yml" 300 ;;;
  run_playbook "02_add_nsx_license_accept_eula.yml" 0 ;;;
  run_playbook "03_configure_compute_manager.yml" 0 ;;;
  config <~~ pure_run (txt_to_json config_contents) ;;
  cluster <~~ pure_run (cluster_requested config) ;;
  (if cluster then run_playbook "04_deploy_second_third_node.yml" 300
   else pure_run (Return tt)) ;;;
  run_playbook "05_setup_transport_zones.yml" 0 ;;;
  run_playbook "06_create_tunnel_ip_pools.yml" 0 ;;;
  run_playbook "07_create_edge_transport_nodes.yml" 300 ;;;
  run_playbook "08_setup_edge_cluster.yml" 0 ;;;
  run_playbook "09_configure_t0_gateway.yml" 0 ;;;
  run_playbook "10_create_host_switch_profile.yml" 0 ;;;
  run_playbook "11_create_transport_node_profiles.yml" 0 ;;;
  run_playbook "12_configure_nsx_on_cluster.yml" 0.

(** [install_nsx] *)
Definition install_nsx (vc : vcenter) (fs : files)
  : list string -> (outcome unit * files) * list string :=
  fun trace =>
    match generate_vars_file vc fs with
    | (Return _, fs') =>
        let r := call_ansible_to_install (config_file fs') trace in
        ((r.1, fs'), r.2)
    | (other, fs') => ((other, fs'), trace)
    end.

End Playbooks.

(** The twelve playbooks with their waits, in the order of the calls in
    [call_ansible_to_install]. *)
Definition playbooks : list (string * Z) :=
  [ ("01_deploy_first_node.yml", 300);
    ("02_add_nsx_license_accept_eula.yml", 0);
    ("03_configure_compute_manager.yml", 0);
    ("04_deploy_second_third_node.yml", 300);
    ("05_setup_transport_zones.yml", 0);
    ("06_create_tunnel_ip_pools.yml", 0);
    ("07_create_edge_transport_nodes.yml", 300);
    ("08_setup_edge_cluster.yml", 0);
    ("09_configure_t0_gateway.yml", 0);
    ("10_create_host_switch_profile.yml", 0);
    ("11_create_transport_node_profiles.yml", 0);
    ("12_configure_nsx_on_cluster.yml", 0) ].

Definition commands (plan : list (string * Z)) : list string :=
  (fun p => playbook_cmd p.1 p.2) <$> plan.

(** The plan of a run: all twelve, or all but the fourth. *)
Definition plan (cluster : bool) : list (string * Z) :=
  if cluster then playbooks
  else filter (fun p => p.1 ≠ "04_deploy_second_third_node.yml") playbooks.

(** ** Sample inputs

    A filled-in config file, written the way [reset_config] writes it, and a
    vCenter with one distributed switch. *)

Definition sample_bindings : list (string * string) :=
  [ ("nsx_ova_path", "/home/user/nsx_bits");
    ("nsx_ova", "nsx-unified-appliance-3.0.ova");
    ("nsx_manager_cluster", "yes");
    ("nsx_password", "myPassword1!myPassword1!");
    ("domain", "mylab.net");
    ("netmask", "255.255.255.224");
    ("gateway", "192.168.1.1");
    ("dns_server", "8.8.8.8");
    ("ntp_server", "216.239.35.0");
    ("nsx_vcenter_fqdn", "10.10.10.2");
    ("nsx_vcenter_username", "administrator@vsphere.local");
    ("nsx_vcenter_password", "myPassword1!");
    ("node1_hostname", "nsx1.mylab.net");
    ("node1_mgmt_ip", "192.168.1.10");
    ("node1_datacenter", "Palo-Alto-Datacenter");
    ("node1_cluster", "Mgmt-Cluster");
    ("node1_datastore", "datastore5");
    ("node1_portgroup", "VM Network");
    ("node2_hostname", "nsx2.mylab.net");
    ("node2_mgmt_ip", "192.168.1.20");
    ("node2_netmask_prefix", "24");
    ("node2_datacenter", "Palo-Alto-Datacenter");
    ("node2_cluster", "Mgmt-Cluster");
    ("node2_datastore", "datastore6");
    ("node2_portgroup", "VM Network");
    ("node3_hostname", "nsx3.mylab.net");
    ("node3_mgmt_ip", "192.168.1.30");
    ("node3_netmask_prefix", "24");
    ("node3_datacenter", "Palo-Alto-Datacenter");
    ("node3_cluster", "Mgmt-Cluster");
    ("node3_datastore", "datastore5");
    ("node3_portgroup", "VM Network");
    ("vcenter_fqdn", "vcenter.mylab.net");
    ("vcenter_username", "administrator@vsphere.local");
    ("vcenter_password", "myPassword1!");
    ("nsx_license_key", "XXXX-YYYY-ZZZZ-1111-2222-3333-4444");
    ("ip_pool_1_start", "172.16.227.20");
    ("ip_pool_1_end", "172.16.227.29");
    ("ip_pool_1_gateway", "172.16.227.1");
    ("ip_pool_1_cidr", "172.16.227.0/27");
    ("ip_pool_2_start", "172.16.228.20");
    ("ip_pool_2_end", "172.16.228.29");
    ("ip_pool_2_gateway", "172.16.228.1");
    ("ip_pool_2_cidr", "172.16.228.0/27");
    ("edge1_host_switch_profile_name", "nsx-edge-single-nic-uplink-profile");
    ("edge1_number_of_uplinks", "2");
    ("edge1_cluster", "Management");
    ("edge1_storage", "datastore5");
    ("edge1_mgmt_network", "VM Network");
    ("edge1_mgmt_ip", "192.168.1.50");
    ("edge1_mgmt_netmask_prefix", "24");
    ("edge1_default_gateway", "192.168.1.1");
    ("edge1_fqdn", "edge1.mylab.net");
    ("edge1_data_network", "lab-dvpg-1");
    ("edge1_system_password", "myPassword1!myPassword1!");
    ("edge2_host_switch_profile_name", "nsx-edge-single-nic-uplink-profile");
    ("edge2_number_of_uplinks", "2");
    ("edge2_cluster", "Management");
    ("edge2_storage", "datastore6");
    ("edge2_mgmt_network", "VM Network");
    ("edge2_mgmt_ip", "192.168.1.51");
    ("edge2_mgmt_netmask_prefix", "24");
    ("edge2_default_gateway", "192.168.1.1");
    ("edge2_fqdn", "edge2.mylab.net");
    ("edge2_data_network", "lab-dvpg-2");
    ("edge2_system_password", "myPassword1!myPassword1!");
    ("Tier0_BGP_AS_Number", "1211");
    ("host_switch_mtu", "1600");
    ("transport_vlan", "0");
    ("host_vds_name", "vds1");
    ("host_number_of_uplinks", "2");
    ("compute_clusters_for_prep", "Cluster-A, Cluster-B, Cluster-C") ].

(** The file holding the given bindings, each written by [writeln]. *)
Fixpoint config_text (bindings : list (string * string)) : string :=
  match bindings with
  | [] => ""
  | (k, v) :: rest => writeln k v "" "" +:+ config_text rest
  end.

Definition sample_config : string := config_text sample_bindings.

(** The sample with some bindings written again at the end of the file. *)
Definition sample_config_with (changes : list (string * string)) : string :=
  config_text (sample_bindings ++ changes).

Definition sample_vc : vcenter :=
  fun _ _ _ => Connected [ {| dvs_name := "vds1"; dvs_uuid := "50 2f 01 7c" |} ].

(** The same switch, followed by a second one of the same name. *)
Definition sample_vc' : vcenter :=
  fun _ _ _ =>
    Connected [ {| dvs_name := "vds1"; dvs_uuid := "50 2f 01 7c" |};
                {| dvs_name := "vds1"; dvs_uuid := "50 2f 01 7d" |} ].

Definition sample_files (config : string) : files :=
  {| defaults_file := reset_defaults; config_file := config; vars_file := None |}.

(** A shell on which every command succeeds. *)
Definition shell_ok : shell := fun _ _ => 0.

(** The sample with three uplinks on the second edge. *)
Definition sample_config_three_uplinks : string :=
  sample_config_with [("edge2_number_of_uplinks", "3")].

(** The same, with the netmask prefix of the first edge left empty, as
    [reset_config] writes it. *)
Definition sample_config_no_prefix : string :=
  sample_config_with
    [("edge2_number_of_uplinks", "3"); ("edge1_mgmt_netmask_prefix", "")].

(** A shell on which the second playbook fails. *)
Definition shell_fail_02 : shell :=
  fun _ cmd =>
    if String.eqb cmd (playbook_cmd "02_add_nsx_license_accept_eula.yml" 0)
    then 256 else 0.

(** ** Notions used to state the properties *)

(** Running a list of playbooks in order, as the calls of
    [call_ansible_to_install] do one after the other. *)
Fixpoint run_all (os_system : shell) (todo : list (string * Z)) : run unit :=
  match todo with
  | [] => pure_run (Return tt)
  | p :: rest => run_playbook os_system p.1 p.2 ;;; run_all os_system rest
  end.

(** Whether the answer stored under [nsx_manager_cluster] asks for a
    cluster. *)
Definition cluster_answer (answer : string) : bool :=
  String.eqb (lower answer) "yes" || String.eqb (lower answer) "y".

(** A path into a document: keys of dictionaries and positions in lists. *)
Inductive step : Type :=
| Key (k : string)
| Idx (i : nat).

Fixpoint jpath (p : list step) (j : json) : option json :=
  match p with
  | [] => Some j
  | Key k :: p' =>
      match jget k j with
      | Some j' => jpath p' j'
      | None => None
      end
  | Idx i :: p' =>
      match j with
      | JList items =>
          match items !! i with
          | Some j' => jpath p' j'
          | None => None
          end
      | _ => None
      end
  end.

(** [sep.join (parts)] for a one-character separator. *)
Fixpoint join (sep : ascii) (parts : list string) : string :=
  match parts with
  | [] => ""
  | [p] => p
  | p :: rest => p +:+ String sep (join sep rest)
  end.

(** [c in s] *)
Fixpoint contains (c : ascii) (s : string) : bool :=
  match s with
  | EmptyString => false
  | String c' r => Ascii.eqb c' c || contains c r
  end.

Fixpoint count_char (c : ascii) (s : string) : nat :=
  match s with
  | EmptyString => O
  | String c' r => ((if Ascii.eqb c' c then 1 else 0) + count_char c r)%nat
  end.

(** The keys [generate_vars_file] reads from the config file. *)
Definition config_keys : list string :=
  [ "nsx_password";
    "nsx_ova_path";
    "nsx_ova";
    "domain";
    "netmask";
    "gateway";
    "dns_server";
    "ntp_server";
    "nsx_vcenter_fqdn";
    "nsx_vcenter_username";
    "nsx_vcenter_password";
    "node1_hostname";
    "node1_mgmt_ip";
    "node1_datacenter";
    "node1_cluster";
    "node1_datastore";
    "node1_portgroup";
    "node2_hostname";
    "node3_hostname";
    "node2_mgmt_ip";
    "node3_mgmt_ip";
    "node2_netmask_prefix";
    "node3_netmask_prefix";
    "node2_datacenter";
    "node3_datacenter";
    "node2_cluster";
    "node3_cluster";
    "node2_datastore";
    "node3_datastore";
    "node2_portgroup";
    "node3_portgroup";
    "vcenter_fqdn";
    "vcenter_username";
    "vcenter_password";
    "nsx_license_key";
    "ip_pool_1_start";
    "ip_pool_2_start";
    "ip_pool_1_end";
    "ip_pool_2_end";
    "ip_pool_1_gateway";
    "ip_pool_2_gateway";
    "ip_pool_1_cidr";
    "ip_pool_2_cidr";
    "edge1_number_of_uplinks";
    "edge2_number_of_uplinks";
    "edge1_host_switch_profile_name";
    "edge2_host_switch_profile_name";
    "edge1_cluster";
    "edge2_cluster";
    "edge1_storage";
    "edge2_storage";
    "edge1_mgmt_network";
    "edge2_mgmt_network";
    "edge1_fqdn";
    "edge2_fqdn";
    "edge1_mgmt_ip";
    "edge2_mgmt_ip";
    "edge1_mgmt_netmask_prefix";
    "edge2_mgmt_netmask_prefix";
    "edge1_default_gateway";
    "edge2_default_gateway";
    "edge2_data_network";
    "edge1_system_password";
    "edge2_system_password";
    "host_switch_mtu";
    "transport_vlan";
    "host_number_of_uplinks";
    "host_vds_name";
    "compute_clusters_for_prep" ].

(** The keys [generate_vars_file] reads from the defaults file. *)
Definition defaults_keys : list string :=
  [ "nsx_username";
    "nsx_vcenter";
    "compute_manager_name";
    "overlay_tz_name";
    "vlan_tz_name";
    "ip_pool_1_name";
    "ip_pool_2_name";
    "edge1_host_switch_name";
    "edge2_host_switch_name";
    "edge_form_factor";
    "edge1_display_name";
    "edge2_display_name";
    "edge_cluster_display_name";
    "tier0_display_name";
    "host_switch_profile_name";
    "host_switch_uplink1_name";
    "host_switch_uplink2_name";
    "host_switch_teaming_policy";
    "host_tnp_display_name";
    "host_default_host_switch_profile" ].

(** The dictionary a file parses to, empty when parsing fails. *)
Definition parsed (contents : string) : gmap string string :=
  match txt_to_json contents with
  | Return d => d
  | _ => ∅
  end.

(** The document generated from the sample files. *)
Definition sample_doc : json :=
  Eval vm_compute in
    match vars_document sample_vc (sample_files sample_config) with
    | Return doc => doc
    | _ => JDict []
    end.

(** The record of one cluster as the loop at lines 766-775 fills it, given
    the two names read from the defaults. *)
Definition tn_record (compute_manager_name transport_node_profile_name : string)
    (cluster : string) : json :=
  JDict
    [ ("state", JStr "present");
      ("display_name", JStr ("TNP_" +:+ strip cluster));
      ("description", JStr ("TNP_" +:+ strip cluster));
      ("resource_type", JStr "TransportNodeCollection");
      ("compute_manager_name", JStr compute_manager_name);
      ("cluster_name", JStr (strip cluster));
      ("transport_node_profile_name", JStr transport_node_profile_name) ].

(** The pnics of an edge configured with [n] uplinks: [n - 1] of them,
    the single pnic [uplink-1] for two uplinks and none for one or less. *)
Definition pnics_for (n : Z) (pnics : list json) : Prop :=
  length pnics = Z.to_nat (n - 1)
  /\ (n = 2 ->
      pnics = [ JDict [ ("device_name", JStr "fp-eth0");
                        ("uplink_name", JStr "uplink-1") ] ])
  /\ (n <= 1 -> pnics = []).

(** The three keys holding an uplink count. *)
Definition uplink_keys : list string :=
  [ "edge1_number_of_uplinks"; "edge2_number_of_uplinks";
    "host_number_of_uplinks" ].

(** What the check on the uplink count under key [k] prints when the
    configured text is [s]. *)
Definition uplink_error (k s : string) : string :=
  if String.eqb k "host_number_of_uplinks"
  then "ERROR: Max allowed Host Uplinks: 2. Configured: " +:+ s
  else "ERROR: Max allowed Edge Uplinks: 2. Configured: " +:+ s.

(** Every key of [keys] is bound in [m]. *)
Definition present (keys : list string) (m : gmap string string) : Prop :=
  forall k, k ∈ keys -> is_Some (m !! k).

(** The text under [k] is an integer for [int]. *)
Definition is_int (m : gmap string string) (k : string) : Prop :=
  exists s n, m !! k = Some s /\ py_int s = Some n.

(** A pair of parsed files on which nothing but the uplink checks can stop
    the run: every key read is there, the two netmask prefixes and the three
    uplink counts are integers, and the switch is found. *)
Definition well_formed (vc : vcenter) (d c : gmap string string) : Prop :=
  present defaults_keys d
  /\ present config_keys c
  /\ is_int c "edge1_mgmt_netmask_prefix"
  /\ is_int c "edge2_mgmt_netmask_prefix"
  /\ (forall k, k ∈ uplink_keys -> is_int c k)
  /\ (forall n h u p,
        c !! "host_vds_name" = Some n -> c !! "vcenter_fqdn" = Some h ->
        c !! "vcenter_username" = Some u -> c !! "vcenter_password" = Some p ->
        exists uuid, get_vds_uuid vc n h u p = Return uuid).

(** An exit of the check on [k]: the count is above 2 and the message names
    the configured text. *)
Definition uplink_exit (c : gmap string string) (k : string) st msg : Prop :=
  st = 2 /\ exists s n, c !! k = Some s /\ py_int s = Some n /\ 2 < n
                        /\ msg = uplink_error k s.

(** *** The flat files, in the words of the specification *)

(** The text before the first [sep] of [s], all of [s] when it has none. *)
Fixpoint text_before (sep : ascii) (s : string) : string :=
  match s with
  | EmptyString => EmptyString
  | String c r => if Ascii.eqb c sep then EmptyString else String c (text_before sep r)
  end.

(** The text after the first [sep] of [s], when it has one. *)
Fixpoint text_after (sep : ascii) (s : string) : option string :=
  match s with
  | EmptyString => None
  | String c r => if Ascii.eqb c sep then Some r else text_after sep r
  end.

(** A line that is neither blank nor a comment once stripped. *)
Definition key_value_line (ln : string) : bool :=
  negb (startswith hash (strip ln)) && negb (String.eqb (strip ln) "").

(** The stripped text before the first [=]. *)
Definition spec_key (ln : string) : string :=
  strip (text_before equals (strip ln)).

(** The stripped, quote-stripped text between the first and the second
    [=]. *)
Definition spec_value (ln : string) : string :=
  match text_after equals (strip ln) with
  | Some r => strip_char dquote (strip (text_before equals r))
  | None => ""
  end.

(** The bindings the key-value lines contribute, one after the other. *)
Definition spec_bindings (m : gmap string string) (lns : list string)
  : gmap string string :=
  foldl (fun m ln =>
           if key_value_line ln then <[spec_key ln := spec_value ln]> m else m)
        m lns.

(** A line that is empty, a comment, or holds an [=], once stripped. *)
Definition well_formed_line (ln : string) : Prop :=
  strip ln = "" \/ startswith hash (strip ln) = true
  \/ contains equals (strip ln) = true.

(** No line break in [s]. *)
Definition single_line (s : string) : Prop :=
  contains LF s = false /\ contains CR s = false.

(** A key [writeln] can write and [txt_to_json] reads back as it is. *)
Definition writable_key (k : string) : Prop :=
  k <> "" /\ strip k = k /\ startswith hash k = false
  /\ contains equals k = false /\ single_line k.

(** A value [writeln] can write and [txt_to_json] reads back as it is. *)
Definition writable_value (v : string) : Prop :=
  strip v = v /\ contains equals v = false /\ contains dquote v = false
  /\ single_line v.

(** Every character of [s] satisfies [p]. *)
Fixpoint all_chars (p : ascii -> bool) (s : string) : bool :=
  match s with
  | EmptyString => true
  | String c r => p c && all_chars p r
  end.

(** Whether a call returned. *)
Definition is_Return {A : Type} (m : outcome A) : bool :=
  match m with
  | Return _ => true
  | _ => false
  end.

(** Every command run by [m] that returned a nonzero status is the last one
    run, and [m] ended by [sys.exit (1)]. *)
Definition fail_stop (os_system : shell) {A : Type} (m : run A) : Prop :=
  forall trace0, exists suffix,
    (m trace0).2 = trace0 ++ suffix /\
    forall (i : nat) cmd,
      suffix !! i = Some cmd ->
      os_system (trace0 ++ take i suffix) cmd <> 0 ->
      S i = length suffix /\ (m trace0).1 = Exit 1 deployment_error.

(** The blocks of a successful run and where the document holds them. *)
Inductive blocks (vc : vcenter) (d c : gmap string string) (doc : json) : Prop :=
| Blocks (d' : gmap string string)
    (nodes cm edges tier0s host_tnps collections : json)
    (bl_additional_nodes : additional_nodes d c = Return nodes)
    (bl_compute_managers : compute_managers d c = Return (cm, d'))
    (bl_edge_transport_nodes : edge_transport_nodes d' c = Return edges)
    (bl_tier0_gateways : tier0_gateways d' = Return tier0s)
    (bl_transport_node_profiles :
       transport_node_profiles vc d' c = Return host_tnps)
    (bl_transport_node_collections :
       transport_node_collections d' c = Return collections)
    (bl_get_nodes : jget "additional_nodes" doc = Some nodes)
    (bl_get_cm : jget "compute_managers" doc = Some cm)
    (bl_get_edges : jget "edge_transport_nodes" doc = Some edges)
    (bl_get_tier0s : jget "tier0_gateways" doc = Some tier0s)
    (bl_get_host_tnps : jget "transport_node_profiles" doc = Some host_tnps)
    (bl_get_collections :
       jget "transport_node_collections" doc = Some collections).

(** Paths to the lists the properties are about. *)
Definition pnics_path : list step :=
  [Key "host_switch_spec"; Key "host_switches"; Idx 0; Key "pnics"].

Definition data_networks_path : list step :=
  [Key "node_deployment_info"; Key "deployment_config";
   Key "vm_deployment_config"; Key "data_networks"].

Definition local_as_num_path : list step :=
  [Idx 0; Key "locale_services"; Idx 0; Key "BGP"; Key "local_as_num"].

Definition uplinks_path : list step :=
  [Idx 0; Key "host_switch_spec"; Key "host_switches"; Idx 0; Key "uplinks"].

(** A call of [reset_defaults] whose key and value are read back. *)
Definition writable_call (call : string * string * string) : Prop :=
  writable_key call.1.1 /\ writable_value call.1.2 /\ single_line call.2.

(** ** The rest of the script *)

Definition rule : string :=
  "#-------------------------------------------------------------------------------".

(** [writeheader]: the text written to [fd]. *)
Definition writeheader (msg : string) : string :=
  String LF (text_line rule) +:+ text_line ("# " +:+ msg) +:+ text_line rule.

(** A call of [reset_config]: [writeheader (f, msg)] or
    [writeln (f, key, value, comment, example)]. *)
Inductive config_item : Type :=
| Header (msg : string)
| Entry (key value comment example : string).

(** The calls of [reset_config], in order, after the first one, which
    writes the heading only. *)
Definition reset_config_items : list config_item :=
  [ Header "NSX OVA details";
    Entry "nsx_ova_path" ""
      "Path where NSX OVA can be found on the local system"
      "/home/user/nsx_bits";
    Entry "nsx_ova" ""
      "NSX OVA file name"
      "nsx-unified-appliance-3.0.ova";
    Header "NSX Manager Cluster or Standalone deployment";
    Entry "nsx_manager_cluster" "yes"
      "Deploy NSX Manager 3 node cluster. To deploy just 1 node, change to 'no'"
      "";
    Header "Details applicable to all 3 NSX nodes";
    Entry "nsx_password" ""
      "Password for admin and root accounts"
      "myPassword1!myPassword1!";
    Entry "domain" ""
      "Domain name for NSX Manager cluster"
      "mylab.net";
    Entry "netmask" ""
      "NSX Manager network netmask"
      "255.255.255.224";
    Entry "gateway" ""
      "Gateway to be configured on NSX Manager"
      "192.168.1.1";
    Entry "dns_server" ""
      "DNS Server to be configured on NSX Manager"
      "8.8.8.8";
    Entry "ntp_server" ""
      "NTP Server to be configured on NSX Manager"
      "216.239. 35.0";
    Entry "nsx_vcenter_fqdn" ""
      "vCenter where NSX Manager and Edges will be deployed"
      "10.10.10.2";
    Entry "nsx_vcenter_username" ""
      "vCenter Username for NSX deployment"
      "administrator@vsphere.local";
    Entry "nsx_vcenter_password" ""
      "vCenter Password for NSX deployment"
      "myPassword1!";
    Header "First NSX Manager node deployment details";
    Entry "node1_hostname" ""
      "FQDN of the first NSX Manager"
      "nsx1.mylab.net";
    Entry "node1_mgmt_ip" ""
      "IP Address to be configured on the first NSX Manager"
      "192.168.1.10";
    Entry "node1_datacenter" ""
      "vCenter Datacenter name where NSX Manager will be deployed"
      "Palo-Alto-Datacenter";
    Entry "node1_cluster" ""
      "vCenter Cluster name where NSX Manager will be deployed"
      "Mgmt-Cluster";
    Entry "node1_datastore" ""
      "vCenter Datastore where NSX Manager will be deployed"
      "datastore5";
    Entry "node1_portgroup" ""
      "vCenter Network for the management interface of NSX Manager. This can be a standard portgroup or a distributed port group"
      "VM Network";
    Header "Second NSX Manager deployment details";
    Entry "node2_hostname" ""
      "FQDN of the second NSX Manager node"
      "nsx2.mylab.net";
    Entry "node2_mgmt_ip" ""
      "Management IP Address to be configured on the second NSX Manager"
      "192.168.1.20";
    Entry "node2_netmask_prefix" ""
      "Network prefix for the second NSX Manager"
      "24";
    Entry "node2_datacenter" ""
      "vCenter Datacenter name where the second NSX Manager will be deployed"
      "Palo-Alto-Datacenter";
    Entry "node2_cluster" ""
      "vCenter Cluster name where the second NSX Manager will be deployed"
      "Mgmt-Cluster";
    Entry "node2_datastore" ""
      "vCenter Datastore where the second NSX Manager will be deployed"
      "datastore6";
    Entry "node2_portgroup" ""
      "vCenter Network for the management interface of the second NSX Manager. This can be a standard portgroup or a distributed port group"
      "VM Network";
    Header "Third NSX Manager deployment details";
    Entry "node3_hostname" ""
      "FQDN of the third NSX Manager node"
      "nsx3.mylab.net";
    Entry "node3_mgmt_ip" ""
      "Management IP Address to be configured on the third NSX Manager"
      "192.168.1.30";
    Entry "node3_netmask_prefix" ""
      "Network prefix for the third NSX Manager"
      "24";
    Entry "node3_datacenter" ""
      "vCenter Datacenter name where the third NSX Manager will be deployed"
      "Palo-Alto-Datacenter";
    Entry "node3_cluster" ""
      "vCenter Cluster name where the third NSX Manager will be deployed"
      "Mgmt-Cluster";
    Entry "node3_datastore" ""
      "vCenter Datastore where the third NSX Manager will be deployed"
      "datastore5";
    Entry "node3_portgroup" ""
      "vCenter Network for the management interface of the third NSX Manager. This can be a standard portgroup or a distributed port group"
      "VM Network";
    Header "vCenter to be registered as Compute Manager";
    Entry "vcenter_fqdn" ""
      "FQDN or IP of the vCenter Server to be registered with NSX Manager"
      "vcenter.mylab.net";
    Entry "vcenter_username" ""
      "vCenter username for authentication"
      "administrator@vsphere.local";
    Entry "vcenter_password" ""
      "vCenter password for authentication"
      "myPassword1!";
    Header "NSX License key";
    Entry "nsx_license_key" ""
      "NSX License Key"
      "XXXX-YYYY-ZZZZ-1111-2222-3333-4444";
    Header "TEP IP Pool for the Edge";
    Entry "ip_pool_1_start" ""
      "Start address of the Edge TEP IP Pool range"
      "172.16.227.20";
    Entry "ip_pool_1_end" ""
      "End address of the TEP IP Pool range"
      "172.16.226.29";
    Entry "ip_pool_1_gateway" ""
      "Gateway for the TEP IP Pool"
      "172.16.227.1";
    Entry "ip_pool_1_cidr" ""
      "TEP IP Pool Netmask in CIDR format"
      "172.16.227.0/27";
    Header "TEP IP Pool for Host Nodes";
    Entry "ip_pool_2_start" ""
      "Start address of the Host TEP IP Pool range"
      "172.16.227.20";
    Entry "ip_pool_2_end" ""
      "End address of the Host TEP IP Pool range"
      "172.16.226.29";
    Entry "ip_pool_2_gateway" ""
      "Gateway for the Host TEP IP Pool"
      "172.16.227.1";
    Entry "ip_pool_2_cidr" ""
      "Host TEP IP Pool Netmask in CIDR format"
      "172.16.227.0/27";
    Header "Edge 1 deployment details";
    Entry "edge1_host_switch_profile_name" ""
      "Host Switch Profile to be used on Edge1"
      "nsx-edge-single-nic-uplink-profile";
    Entry "edge1_number_of_uplinks" "2"
      "Number of Uplinks on the Edge Node. Max: 2"
      "2";
    Entry "edge1_cluster" ""
      "vCenter Cluster name where Edge1 will be deployed"
      "Management";
    Entry "edge1_storage" ""
      "Datastore name where Edge1 will be deployed"
      "";
    Entry "edge1_mgmt_network" ""
      "Port Group backing for the Management Cluster of Edge1"
      "VM Network";
    Entry "edge1_mgmt_ip" ""
      "Management IP Address for Edge1"
      "192.168.1.50";
    Entry "edge1_mgmt_netmask_prefix" ""
      "Network prefix on the Management Network"
      "24";
    Entry "edge1_default_gateway" ""
      "Default Gateway to be configured on Edge1 Management Network"
      "192.168.1.1";
    Entry "edge1_fqdn" ""
      "FQDN of Edge1"
      "edge1.mylab.net";
    Entry "edge1_data_network" ""
      "Port Group backing for the data network on Edge1"
      "lab-dvpg";
    Entry "edge1_system_password" ""
      "Edge1 CLI, root and audit user account passwords. The same password will be configured for all 3."
      "myPassword1!myPassword1!";
    Header "Edge 2 deployment details";
    Entry "edge2_host_switch_profile_name" ""
      "Host Switch Profile to be used on Edge2"
      "nsx-edge-single-nic-uplink-profile";
    Entry "edge2_number_of_uplinks" "2"
      "Number of Uplinks on the Edge Node. Max: 2"
      "2";
    Entry "edge2_cluster" ""
      "vCenter Cluster name where Edge2 will be deployed"
      "Management";
    Entry "edge2_storage" ""
      "Datastore name where Edge2 will be deployed"
      "";
    Entry "edge2_mgmt_network" ""
      "Port Group backing for the Management Cluster of Edge2"
      "VM Network";
    Entry "edge2_mgmt_ip" ""
      "Management IP Address for Edge2"
      "192.168.1.50";
    Entry "edge2_mgmt_netmask_prefix" ""
      "Network prefix on the Management Network"
      "24";
    Entry "edge2_default_gateway" ""
      "Default Gateway to be configured on Edge2 Management Network"
      "192.168.1.1";
    Entry "edge2_fqdn" ""
      "FQDN of Edge2"
      "edge1.mylab.net";
    Entry "edge2_data_network" ""
      "Port Group backing for the data network on Edge2"
      "lab-dvpg";
    Entry "edge2_system_password" ""
      "Edge2 CLI, root and audit user account passwords. The same password will be configured for all 3."
      "myPassword1!myPassword1!";
    Header "Tier0 Gateway Config";
    Entry "Tier0_BGP_AS_Number" ""
      "BGP Neighbor AS number tobe configured on Tier0 Gateway"
      "1211";
    Header "Host Switch Profile Settings";
    Entry "host_switch_mtu" ""
      "MTU used for uplinks"
      "";
    Entry "transport_vlan" ""
      "VLAN used for tagging Overlay traffic of associated HostSwitch"
      "";
    Header "Host Transport Node Profile configurations";
    Entry "host_vds_name" ""
      "VDS Name on vCenter server"
      "vds1";
    Entry "host_number_of_uplinks" "2"
      "Number of Uplinks on the Host Node. Max: 2"
      "2";
    Header "Compute Clusters to be Configured with NSX";
    Entry "compute_clusters_for_prep" ""
      "Comma separated vSphere Compute Clusters to be Configured with NSX"
      "Cluster-A, Cluster-B, Cluster-C" ].

Fixpoint write_items (items : list config_item) : string :=
  match items with
  | [] => ""
  | Header msg :: rest => writeheader msg +:+ write_items rest
  | Entry key value comment example :: rest =>
      writeln key value comment example +:+ write_items rest
  end.

(** [reset_config]: the text written to the config file, which is opened
    for writing and so holds nothing else. *)
Definition reset_config : string :=
  writeln "" "" (text_line "User Configuration") ""
  +:+ write_items reset_config_items.

(** The flags [argparse] hands to the last lines of the script. *)
Record args : Type := {
  start_install : bool;
  arg_reset_defaults : bool;
  arg_reset_config : bool;
  manual : bool
}.

(** Lines 884-891: the action the flags select. *)
Definition main (os_system : shell) (vc : vcenter) (a : args) (fs : files)
  : list string -> (outcome unit * files) * list string :=
  fun trace =>
    if start_install a then install_nsx os_system vc fs trace
    else if arg_reset_defaults a then
      ((Return tt,
        {| defaults_file := reset_defaults;
           config_file := config_file fs;
           vars_file := vars_file fs |}), trace)
    else if arg_reset_config a then
      ((Return tt,
        {| defaults_file := defaults_file fs;
           config_file := reset_config;
           vars_file := vars_file fs |}), trace)
    else if manual a then (generate_vars_file vc fs, trace)
    else ((Return tt, fs), trace).

(** The keys of the entries among [items], in order. *)
Fixpoint item_keys (items : list config_item) : list string :=
  match items with
  | [] => []
  | Header _ :: rest => item_keys rest
  | Entry key _ _ _ :: rest => key :: item_keys rest
  end.

(** The value [lns] bind [k] to: the one of the last key-value line whose
    key is [k]. *)
Fixpoint last_value (k : string) (lns : list string) : option string :=
  match lns with
  | [] => None
  | ln :: rest =>
      match last_value k rest with
      | Some v => Some v
      | None =>
          if key_value_line ln && String.eqb (spec_key ln) k
          then Some (spec_value ln) else None
      end
  end.

(** The keys of a document, in order. *)
Definition jkeys (j : json) : list string :=
  match j with
  | JDict fields => fields.*1
  | _ => []
  end.

(** Where an edge transport node names the vCenter it is deployed on. *)
Definition vc_name_path : list step :=
  [ Key "node_deployment_info"; Key "deployment_config";
    Key "vm_deployment_config"; Key "vc_name" ].

(** The keys of the config file whose text goes through [int]. *)
Definition int_keys : list string :=
  [ "edge1_number_of_uplinks"; "edge1_mgmt_netmask_prefix";
    "edge2_number_of_uplinks"; "edge2_mgmt_netmask_prefix";
    "host_number_of_uplinks" ].

(** What stands behind an exception of [generate_vars_file] on the parsed
    files [d] and [c]: a key it reads that its file does not bind, a text
    under one of the integer keys that [int] refuses, or an exception of the
    connection to vCenter. *)
Definition raise_cause (vc : vcenter) (d c : gmap string string) (e : exn)
  : Prop :=
  match e with
  | KeyError k =>
      (k ∈ config_keys /\ c !! k = None) \/ (k ∈ defaults_keys /\ d !! k = None)
  | ValueError s =>
      exists k, k ∈ int_keys /\ c !! k = Some s /\ py_int s = None
  | IndexError => False
  | OtherError => exists n h u p, get_vds_uuid vc n h u p = Raise OtherError
  end.

(** A call of [reset_config] whose text [txt_to_json] reads back: a heading
    of one line, or an entry with a key [writeln] can write, a value with no
    [=], no double quote and no line break, and a comment and an example of
    one line each. *)
Definition writable_item (it : config_item) : Prop :=
  match it with
  | Header msg => single_line msg
  | Entry key value comment example =>
      writable_key key
      /\ contains equals value = false /\ contains dquote value = false
      /\ single_line value /\ single_line comment /\ single_line example
  end.

(** The bindings of the entries, a later entry replacing an earlier one of
    the same key. *)
Definition item_bindings (m : gmap string string) (items : list config_item)
  : gmap string string :=
  foldl (fun m it =>
           match it with
           | Header _ => m
           | Entry key value _ _ => <[key := value]> m
           end) m items.

(** Where a transport node profile names the distributed switch. *)
Definition host_switch_id_path : list step :=
  [ Idx 0; Key "host_switch_spec"; Key "host_switches"; Idx 0;
    Key "host_switch_id" ].

(** * Properties *)

(** ** The error monad *)

Lemma bind_Return {A B : Type} (m : outcome A) (k : A -> outcome B) (b : B) :
  bind m k = Return b -> exists a, m = Return a /\ k a = Return b.
Proof. destruct m as [a| |]; simpl; [eauto | discriminate..]. Qed.

Lemma getitem_Return (d : gmap string string) (k v : string) :
  getitem d k = Return v <-> d !! k = Some v.
Proof.
  unfold getitem. destruct (d !! k); split; intros H; congruence.
Qed.

Lemma getitem_cases (d : gmap string string) (k : string) :
  (exists v, d !! k = Some v /\ getitem d k = Return v)
  \/ (d !! k = None /\ getitem d k = Raise (KeyError k)).
Proof. unfold getitem. destruct (d !! k); eauto. Qed.

Lemma int_of_Return (s : string) (n : Z) :
  int_of s = Return n <-> py_int s = Some n.
Proof. unfold int_of. destruct (py_int s); split; intros H; congruence. Qed.

Lemma parsed_Return (contents : string) :
  is_Return (txt_to_json contents) = true ->
  txt_to_json contents = Return (parsed contents).
Proof. unfold parsed. destruct (txt_to_json contents); done. Qed.

(** ** Playbooks: stopping at the first failure *)

Section FailStop.

Variable os_system : shell.

Lemma fail_stop_pure {A : Type} (r : outcome A) : fail_stop os_system (pure_run r).
Proof.
  intros trace0. exists []. split; [by rewrite app_nil_r |].
  intros i cmd Hi. by rewrite lookup_nil in Hi.
Qed.

Lemma fail_stop_run_playbook (playbook : string) (wait : Z) :
  fail_stop os_system (run_playbook os_system playbook wait).
Proof.
  intros trace0. exists [playbook_cmd playbook wait]. unfold run_playbook.
  destruct (os_system trace0 (playbook_cmd playbook wait) =? 0) eqn:E; simpl;
    (split; [done |]); intros [|i] cmd Hi Hne; simplify_eq/=.
  - rewrite app_nil_r in Hne. apply Z.eqb_eq in E. done.
  - done.
Qed.

Lemma fail_stop_seq {A B : Type} (m : run A) (k : A -> run B) :
  fail_stop os_system m -> (forall a, fail_stop os_system (k a)) ->
  fail_stop os_system (seq_run m k).
Proof.
  intros Hm Hk trace0. destruct (Hm trace0) as (s1 & E1 & P1).
  unfold seq_run. destruct (m trace0) as [[a|st msg|e] tr1]; simpl in *; subst tr1.
  - destruct (Hk a (trace0 ++ s1)) as (s2 & E2 & P2).
    exists (s1 ++ s2). split; [by rewrite E2, app_assoc |].
    intros i cmd Hi Hne.
    destruct (decide (i < length s1)%nat) as [Hlt|Hge].
    + rewrite lookup_app_l in Hi by done.
      rewrite take_app_le in Hne by lia.
      destruct (P1 i cmd Hi Hne) as [_ ?]. discriminate.
    + rewrite lookup_app_r in Hi by lia.
      rewrite take_app_ge, app_assoc in Hne by lia.
      destruct (P2 _ cmd Hi Hne) as [Hlen Hr].
      split; [rewrite length_app; lia | done].
  - exists s1. simpl. split; [done |]. intros i cmd Hi Hne.
    destruct (P1 i cmd Hi Hne) as [? [= -> ->]]. done.
  - exists s1. simpl. split; [done |]. intros i cmd Hi Hne.
    destruct (P1 i cmd Hi Hne) as [_ ?]. discriminate.
Qed.

Lemma fail_stop_call_ansible_to_install (config_contents : string) :
  fail_stop os_system (call_ansible_to_install os_system config_contents).
Proof.
  unfold call_ansible_to_install.
  repeat first
    [ apply fail_stop_run_playbook
    | apply fail_stop_pure
    | apply fail_stop_seq; [| intros ?]
    | match goal with |- fail_stop _ (if ?b then _ else _) => destruct b end ].
Qed.

End FailStop.

(** C4: [run_playbook] runs its command once; on a nonzero status it ends
    the program with status 1, on zero it returns.  In
    [call_ansible_to_install] a command that returned nonzero is the last
    command run: it is not run again and no later playbook is started. *)
Theorem run_playbook_no_retry
    (os_system : shell) (playbook : string) (wait : Z) (trace : list string)
    (config_contents : string) (trace0 : list string) :
  (os_system trace (playbook_cmd playbook wait) <> 0 ->
   run_playbook os_system playbook wait trace
   = (Exit 1 deployment_error, trace ++ [playbook_cmd playbook wait]))
  /\ (os_system trace (playbook_cmd playbook wait) = 0 ->
      run_playbook os_system playbook wait trace
      = (Return tt, trace ++ [playbook_cmd playbook wait]))
  /\ (forall pre cmd post,
        (call_ansible_to_install os_system config_contents trace0).2
        = trace0 ++ pre ++ cmd :: post ->
        os_system (trace0 ++ pre) cmd <> 0 ->
        post = []
        /\ (call_ansible_to_install os_system config_contents trace0).1
           = Exit 1 deployment_error).
Proof.
  split; [| split].
  - intros Hne. unfold run_playbook.
    destruct (Z.eqb_spec (os_system trace (playbook_cmd playbook wait)) 0);
      [done | reflexivity].
  - intros Heq. unfold run_playbook. rewrite Heq. reflexivity.
  - intros pre cmd post Htrace Hne.
    destruct (fail_stop_call_ansible_to_install os_system config_contents trace0)
      as (suffix & E & P).
    rewrite E in Htrace. apply app_inv_head in Htrace. subst suffix.
    destruct (P (length pre) cmd) as [Hlen Hr].
    + by rewrite list_lookup_middle.
    + by rewrite take_app_length.
    + split; [| done]. rewrite length_app in Hlen. simpl in Hlen.
      destruct post; [done | simpl in Hlen; lia].
Qed.

Lemma run_playbook_no_retry_witness :
  run_playbook shell_fail_02 "02_add_nsx_license_accept_eula.yml" 0
    [playbook_cmd "01_deploy_first_node.yml" 300]
  = (Exit 1 deployment_error,
     [playbook_cmd "01_deploy_first_node.yml" 300;
      playbook_cmd "02_add_nsx_license_accept_eula.yml" 0])
  /\ (call_ansible_to_install shell_fail_02 sample_config []).1
     = Exit 1 deployment_error.
Proof.
  destruct (run_playbook_no_retry shell_fail_02
              "02_add_nsx_license_accept_eula.yml" 0
              [playbook_cmd "01_deploy_first_node.yml" 300]
              sample_config []) as (H1 & _ & H3).
  split.
  - apply H1. vm_compute. discriminate.
  - apply (H3 [playbook_cmd "01_deploy_first_node.yml" 300]
              (playbook_cmd "02_add_nsx_license_accept_eula.yml" 0) []).
    + vm_compute. reflexivity.
    + vm_compute. discriminate.
Defined.

(** ** Playbooks: the order of the calls *)

Lemma cluster_requested_answer (config : gmap string string) (a : string) :
  config !! "nsx_manager_cluster" = Some a ->
  cluster_requested config = Return (cluster_answer a).
Proof.
  intros Ha. unfold cluster_requested, cluster_answer, getitem. rewrite Ha. simpl.
  destruct (String.eqb (lower a) "yes"); reflexivity.
Qed.

Lemma call_ansible_run_all (os_system : shell) (config_contents : string)
    (config : gmap string string) (a : string) (trace0 : list string) :
  txt_to_json config_contents = Return config ->
  config !! "nsx_manager_cluster" = Some a ->
  call_ansible_to_install os_system config_contents trace0
  = run_all os_system (plan (cluster_answer a)) trace0.
Proof.
  intros Hp Ha. unfold call_ansible_to_install. rewrite Hp.
  unfold seq_run, pure_run. cbn beta iota.
  rewrite (cluster_requested_answer config a Ha).
  destruct (cluster_answer a);
    [ change (plan true) with playbooks
    | let l := eval vm_compute in (plan false) in change (plan false) with l ];
    cbn [run_all playbooks fst snd];
    unfold seq_run, pure_run, run_playbook; simpl;
    repeat (match goal with
            | |- context [os_system ?h ?c =? 0] =>
                destruct (os_system h c =? 0); simpl; try reflexivity
            end).
Qed.

Lemma run_all_prefix (os_system : shell) (todo : list (string * Z))
    (trace0 : list string) :
  exists ran, (run_all os_system todo trace0).2 = trace0 ++ ran
              /\ ran `prefix_of` commands todo.
Proof.
  revert trace0. induction todo as [|p rest IH]; intros trace0; simpl.
  - exists []. split; [by rewrite app_nil_r | apply prefix_nil].
  - unfold seq_run, run_playbook.
    destruct (os_system trace0 (playbook_cmd p.1 p.2) =? 0); simpl.
    + destruct (IH (trace0 ++ [playbook_cmd p.1 p.2])) as (ran & E & P).
      exists (playbook_cmd p.1 p.2 :: ran). split.
      * rewrite E, <- app_assoc. done.
      * by apply prefix_cons.
    + exists [playbook_cmd p.1 p.2]. split; [done |].
      apply prefix_cons, prefix_nil.
Qed.

Lemma run_all_ok (os_system : shell) (todo : list (string * Z))
    (trace0 : list string) :
  (forall h cmd, os_system h cmd = 0) ->
  run_all os_system todo trace0 = (Return tt, trace0 ++ commands todo).
Proof.
  intros Hok. revert trace0. induction todo as [|p rest IH]; intros trace0; simpl.
  - unfold pure_run. by rewrite app_nil_r.
  - unfold seq_run, run_playbook. rewrite Hok. simpl.
    rewrite IH, <- app_assoc. done.
Qed.

(** ** The document depends on the config only through the keys read *)

Lemma getitem_agree (c1 c2 : gmap string string) (k : string) :
  c1 !! k = c2 !! k -> getitem c1 k = getitem c2 k.
Proof. unfold getitem. by intros ->. Qed.

Ltac solve_elem := apply (bool_decide_unpack _); vm_compute; exact I.

Ltac agree c1 c2 H :=
  cbn [String.append];
  repeat match goal with
         | |- context [getitem c1 ?k] =>
             rewrite (getitem_agree c1 c2 k) by (apply H; solve_elem)
         end;
  reflexivity.

Section Agree.

Variable vc : vcenter.
Variables d c1 c2 : gmap string string.
Hypothesis H : forall k, k ∈ config_keys -> c1 !! k = c2 !! k.

Lemma top_level_vars_agree : top_level_vars d c1 = top_level_vars d c2.
Proof. unfold top_level_vars. agree c1 c2 H. Qed.

Lemma nsx_node1_agree : nsx_node1 c1 = nsx_node1 c2.
Proof. unfold nsx_node1. agree c1 c2 H. Qed.

Lemma additional_nodes_agree : additional_nodes d c1 = additional_nodes d c2.
Proof. unfold additional_nodes, additional_node. agree c1 c2 H. Qed.

Lemma compute_managers_agree : compute_managers d c1 = compute_managers d c2.
Proof. unfold compute_managers. agree c1 c2 H. Qed.

Lemma nsxt_licenses_agree : nsxt_licenses c1 = nsxt_licenses c2.
Proof. unfold nsxt_licenses. agree c1 c2 H. Qed.

Lemma ip_pools_agree : ip_pools d c1 = ip_pools d c2.
Proof. unfold ip_pools, ip_pool. agree c1 c2 H. Qed.

Lemma edge_pnics_agree (edge : string) :
  edge = "edge1" \/ edge = "edge2" -> edge_pnics c1 edge = edge_pnics c2 edge.
Proof. intros [-> | ->]; unfold edge_pnics; agree c1 c2 H. Qed.

Lemma edge_transport_node_agree (edge : string) :
  edge = "edge1" \/ edge = "edge2" ->
  edge_transport_node d c1 edge = edge_transport_node d c2 edge.
Proof.
  intros He. unfold edge_transport_node. rewrite (edge_pnics_agree edge He).
  destruct He as [-> | ->]; agree c1 c2 H.
Qed.

Lemma edge_transport_nodes_agree :
  edge_transport_nodes d c1 = edge_transport_nodes d c2.
Proof.
  unfold edge_transport_nodes.
  rewrite !edge_transport_node_agree by auto. reflexivity.
Qed.

Lemma host_switch_profiles_agree :
  host_switch_profiles d c1 = host_switch_profiles d c2.
Proof. unfold host_switch_profiles. agree c1 c2 H. Qed.

Lemma transport_node_profiles_agree :
  transport_node_profiles vc d c1 = transport_node_profiles vc d c2.
Proof. unfold transport_node_profiles, host_uplinks. agree c1 c2 H. Qed.

Lemma transport_node_collections_agree :
  transport_node_collections d c1 = transport_node_collections d c2.
Proof. unfold transport_node_collections. agree c1 c2 H. Qed.

End Agree.

Lemma nsx_vars_agree (vc : vcenter) (d c1 c2 : gmap string string) :
  (forall k, k ∈ config_keys -> c1 !! k = c2 !! k) ->
  nsx_vars vc d c1 = nsx_vars vc d c2.
Proof.
  intros H. unfold nsx_vars.
  rewrite (top_level_vars_agree d c1 c2 H), (nsx_node1_agree c1 c2 H),
    (additional_nodes_agree d c1 c2 H), (compute_managers_agree d c1 c2 H),
    (nsxt_licenses_agree c1 c2 H).
  destruct (top_level_vars d c2); simpl; try reflexivity.
  destruct (nsx_node1 c2); simpl; try reflexivity.
  destruct (additional_nodes d c2); simpl; try reflexivity.
  destruct (compute_managers d c2) as [[cm d']| |]; simpl; try reflexivity.
  rewrite (ip_pools_agree d' c1 c2 H), (edge_transport_nodes_agree d' c1 c2 H),
    (host_switch_profiles_agree d' c1 c2 H),
    (transport_node_profiles_agree vc d' c1 c2 H),
    (transport_node_collections_agree d' c1 c2 H).
  reflexivity.
Qed.

(** ** What a successful run leaves in the document *)

Lemma vars_document_nsx_vars (vc : vcenter) (fs : files)
    (d c : gmap string string) :
  txt_to_json (defaults_file fs) = Return d ->
  txt_to_json (config_file fs) = Return c ->
  vars_document vc fs = nsx_vars vc d c.
Proof. intros Hd Hc. unfold vars_document. rewrite Hd, Hc. reflexivity. Qed.

Lemma generate_vars_file_writes (vc : vcenter) (fs : files) (doc : json) :
  vars_document vc fs = Return doc ->
  generate_vars_file vc fs
  = (Return tt,
     {| defaults_file := defaults_file fs;
        config_file := config_file fs;
        vars_file := Some doc |}).
Proof. intros H. unfold generate_vars_file. rewrite H. reflexivity. Qed.

Ltac inv_bind H :=
  repeat (let a := fresh "x" in
          let E := fresh "E" in
          apply bind_Return in H as (a & E & H); cbv beta zeta in H).

Lemma assoc_app_r (k : string) (l1 l2 : list (string * json)) :
  k ∉ l1.*1 -> assoc k (l1 ++ l2) = assoc k l2.
Proof.
  induction l1 as [|[k' v] l1 IH]; simpl; [done |].
  intros Hk. apply not_elem_of_cons in Hk as [Hne Hk].
  destruct (String.eqb_spec k' k); [congruence | auto].
Qed.

Lemma top_level_vars_keys (d c : gmap string string) top :
  top_level_vars d c = Return top ->
  top.*1 = [ "state"; "nsx_username"; "nsx_password"; "validate_certs";
             "nsx_ova_path"; "nsx_ova"; "domain"; "netmask"; "gateway";
             "dns_server"; "ntp_server"; "nsx_vcenter_fqdn";
             "nsx_vcenter_username"; "nsx_vcenter_password" ].
Proof.
  unfold top_level_vars. intros H. inv_bind H. injection H as <-. reflexivity.
Qed.

Lemma nsx_vars_blocks (vc : vcenter) (d c : gmap string string) (doc : json) :
  nsx_vars vc d c = Return doc -> blocks vc d c doc.
Proof.
  unfold nsx_vars. intros H. inv_bind H.
  match goal with E : compute_managers _ _ = Return ?p |- _ =>
    destruct p as [cm d'] end.
  simpl in *. injection H as <-.
  match goal with E : top_level_vars _ _ = Return _ |- _ =>
    apply top_level_vars_keys in E; rename E into Hkeys end.
  econstructor; try eassumption;
    (unfold jget; rewrite assoc_app_r;
     [reflexivity | rewrite Hkeys; apply (bool_decide_unpack _); vm_compute; exact I]).
Qed.

Lemma compute_managers_defaults (d c : gmap string string) cm d' :
  compute_managers d c = Return (cm, d') ->
  forall k, k <> "nsx_vcenter" -> d' !! k = d !! k.
Proof.
  unfold compute_managers. intros H k Hk. inv_bind H.
  destruct (negb _) in H; inv_bind H; injection H as <- <-; [done |].
  by rewrite lookup_insert_ne.
Qed.

(** ** Determinism *)

Lemma transport_node_profiles_lookup (vc1 vc2 : vcenter) (d c : gmap string string) :
  (forall n h u p,
     c !! "host_vds_name" = Some n -> c !! "vcenter_fqdn" = Some h ->
     c !! "vcenter_username" = Some u -> c !! "vcenter_password" = Some p ->
     get_vds_uuid vc1 n h u p = get_vds_uuid vc2 n h u p) ->
  transport_node_profiles vc1 d c = transport_node_profiles vc2 d c.
Proof.
  intros H. unfold transport_node_profiles.
  destruct (getitem d "host_tnp_display_name"); cbn [bind]; [| reflexivity..].
  destruct (getitem_cases c "host_vds_name") as [(n & Hn & ->) | [_ ->]];
    cbn [bind]; [| reflexivity].
  destruct (getitem_cases c "vcenter_fqdn") as [(h & Hh & ->) | [_ ->]];
    cbn [bind]; [| reflexivity].
  destruct (getitem_cases c "vcenter_username") as [(u & Hu & ->) | [_ ->]];
    cbn [bind]; [| reflexivity].
  destruct (getitem_cases c "vcenter_password") as [(p & Hp & ->) | [_ ->]];
    cbn [bind]; [| reflexivity].
  by rewrite (H n h u p Hn Hh Hu Hp).
Qed.

Lemma nsx_vars_lookup (vc1 vc2 : vcenter) (d c : gmap string string) :
  (forall n h u p,
     c !! "host_vds_name" = Some n -> c !! "vcenter_fqdn" = Some h ->
     c !! "vcenter_username" = Some u -> c !! "vcenter_password" = Some p ->
     get_vds_uuid vc1 n h u p = get_vds_uuid vc2 n h u p) ->
  nsx_vars vc1 d c = nsx_vars vc2 d c.
Proof.
  intros H. unfold nsx_vars.
  repeat match goal with
         | |- bind ?m _ = bind ?m _ => destruct m; cbn [bind]; [| reflexivity..]
         end.
  rewrite (transport_node_profiles_lookup vc1 vc2 _ _ H). reflexivity.
Qed.

(** C1: two runs of [generate_vars_file] on files with the same defaults
    and the same config contents, in which the one switch lookup the run
    makes (for [host_vds_name] at [vcenter_fqdn] with [vcenter_username]
    and [vcenter_password]) has the same result, end the same way and, when
    they write, write the same document.  Nothing else counts: neither what
    the vCenter servers answer to other lookups, nor what the variables file
    held before.  A second run on the files the first run left gives what
    the first run gave. *)
Theorem generate_vars_file_deterministic
    (vc1 vc2 : vcenter) (fs1 fs2 : files) :
  defaults_file fs1 = defaults_file fs2 ->
  config_file fs1 = config_file fs2 ->
  (forall c n h u p,
     txt_to_json (config_file fs1) = Return c ->
     c !! "host_vds_name" = Some n -> c !! "vcenter_fqdn" = Some h ->
     c !! "vcenter_username" = Some u -> c !! "vcenter_password" = Some p ->
     get_vds_uuid vc1 n h u p = get_vds_uuid vc2 n h u p) ->
  vars_document vc1 fs1 = vars_document vc2 fs2
  /\ (generate_vars_file vc1 fs1).1 = (generate_vars_file vc2 fs2).1
  /\ (forall doc,
        vars_document vc1 fs1 = Return doc ->
        vars_file (generate_vars_file vc1 fs1).2 = Some doc
        /\ vars_file (generate_vars_file vc2 fs2).2 = Some doc)
  /\ generate_vars_file vc2 (generate_vars_file vc1 fs1).2
     = generate_vars_file vc1 fs1.
Proof.
  intros Hd Hc H.
  assert (forall fa fb, defaults_file fa = defaults_file fb ->
            config_file fa = config_file fb ->
            config_file fa = config_file fs1 ->
            vars_document vc1 fa = vars_document vc2 fb) as Hdoc.
  { intros fa fb Hda Hca Hc1. unfold vars_document. rewrite <- Hda, <- Hca, Hc1.
    destruct (txt_to_json (defaults_file fa)) as [d| |]; cbn [bind];
      [| reflexivity..].
    destruct (txt_to_json (config_file fs1)) as [c| |] eqn:Ec; cbn [bind];
      [| reflexivity..].
    apply nsx_vars_lookup. intros n h u p. by apply H. }
  pose proof (Hdoc fs1 fs2 Hd Hc eq_refl) as E.
  split; [exact E |]. split; [| split].
  - unfold generate_vars_file. rewrite E.
    by destruct (vars_document vc2 fs2).
  - intros doc Hret. unfold generate_vars_file. rewrite <- E, Hret. by split.
  - assert (vars_document vc2 (generate_vars_file vc1 fs1).2
            = vars_document vc1 fs1) as E2.
    { symmetry. apply Hdoc; [| | reflexivity];
        unfold generate_vars_file; by destruct (vars_document vc1 fs1). }
    unfold generate_vars_file at 1. rewrite E2. unfold generate_vars_file.
    by destruct (vars_document vc1 fs1).
Qed.

Lemma generate_vars_file_deterministic_witness :
  vars_document sample_vc (sample_files sample_config)
  = vars_document
      (fun host _ _ =>
         if String.eqb host "vcenter.mylab.net"
         then Connected [ {| dvs_name := "vds1"; dvs_uuid := "50 2f 01 7c" |};
                          {| dvs_name := "vds2"; dvs_uuid := "50 2f 01 7d" |} ]
         else MethodFault "unknown host")
      {| defaults_file := reset_defaults;
         config_file := sample_config;
         vars_file := Some (JDict []) |}.
Proof.
  apply (generate_vars_file_deterministic sample_vc
           (fun host _ _ =>
              if String.eqb host "vcenter.mylab.net"
              then Connected [ {| dvs_name := "vds1"; dvs_uuid := "50 2f 01 7c" |};
                               {| dvs_name := "vds2"; dvs_uuid := "50 2f 01 7d" |} ]
              else MethodFault "unknown host")
           (sample_files sample_config)
           {| defaults_file := reset_defaults;
              config_file := sample_config;
              vars_file := Some (JDict []) |}).
  - reflexivity.
  - reflexivity.
  - intros c n h u p Hc Hn Hh _ _.
    assert (txt_to_json sample_config = Return (parsed sample_config)) as Hp
      by (apply parsed_Return; vm_compute; reflexivity).
    change (txt_to_json sample_config = Return c) in Hc.
    rewrite Hp in Hc. injection Hc as <-.
    assert (parsed sample_config !! "host_vds_name" = Some "vds1") as Hn'
      by (vm_compute; reflexivity).
    assert (parsed sample_config !! "vcenter_fqdn" = Some "vcenter.mylab.net")
      as Hh' by (vm_compute; reflexivity).
    assert (n = "vds1") as -> by congruence.
    assert (h = "vcenter.mylab.net") as -> by congruence.
    reflexivity.
Defined.

(** ** The blocks, read back *)

Lemma getitem_twice (c : gmap string string) (k x y : string) :
  getitem c k = Return x -> getitem c k = Return y -> x = y.
Proof. congruence. Qed.

Lemma edge_pnics_Return (c : gmap string string) (edge : string) pnics :
  edge_pnics c edge = Return pnics ->
  exists s n,
    c !! (edge +:+ "_number_of_uplinks") = Some s /\ py_int s = Some n
    /\ n <= 2 /\ pnics = edge_pnic <$> py_range (n - 1).
Proof.
  unfold edge_pnics. intros H.
  apply bind_Return in H as (s & Es & H).
  apply bind_Return in H as (n & En & H).
  destruct (Z.gtb_spec n 2) as [Hgt|Hle].
  - apply bind_Return in H as (? & _ & H). discriminate.
  - apply bind_Return in H as (s' & Es' & H).
    apply bind_Return in H as (n' & En' & H).
    pose proof (getitem_twice _ _ _ _ Es Es') as <-.
    assert (n' = n) as -> by congruence.
    injection H as <-. exists s, n.
    by rewrite <- getitem_Return, <- int_of_Return.
Qed.

Lemma host_uplinks_Return (c : gmap string string) uplinks :
  host_uplinks c = Return uplinks ->
  exists s n,
    c !! "host_number_of_uplinks" = Some s /\ py_int s = Some n
    /\ n <= 2 /\ uplinks = host_uplink <$> py_range n.
Proof.
  unfold host_uplinks. intros H.
  apply bind_Return in H as (s & Es & H).
  apply bind_Return in H as (n & En & H).
  destruct (Z.gtb_spec n 2) as [Hgt|Hle].
  - apply bind_Return in H as (? & _ & H). discriminate.
  - apply bind_Return in H as (s' & Es' & H).
    apply bind_Return in H as (n' & En' & H).
    pose proof (getitem_twice _ _ _ _ Es Es') as <-.
    assert (n' = n) as -> by congruence.
    injection H as <-. exists s, n.
    by rewrite <- getitem_Return, <- int_of_Return.
Qed.

Lemma edge_transport_node_Return (d c : gmap string string) (edge : string) e :
  edge_transport_node d c edge = Return e ->
  exists pnics dn,
    edge_pnics c edge = Return pnics
    /\ c !! "edge2_data_network" = Some dn
    /\ jpath pnics_path e = Some (JList pnics)
    /\ jpath data_networks_path e = Some (JList [JStr dn]).
Proof.
  unfold edge_transport_node. intros H. inv_bind H. injection H as <-.
  match goal with
  | Ep : edge_pnics _ _ = Return ?p,
    Ed : getitem _ "edge2_data_network" = Return ?dn |- _ =>
      exists p, dn; apply getitem_Return in Ed
  end.
  split; [assumption |]. split; [assumption |]. split; reflexivity.
Qed.

Lemma edge_transport_nodes_Return (d c : gmap string string) edges :
  edge_transport_nodes d c = Return edges ->
  exists e1 e2,
    edges = JList [e1; e2]
    /\ edge_transport_node d c "edge1" = Return e1
    /\ edge_transport_node d c "edge2" = Return e2.
Proof.
  unfold edge_transport_nodes. intros H. inv_bind H. injection H as <-. eauto.
Qed.

Lemma tier0_gateways_Return (d : gmap string string) t :
  tier0_gateways d = Return t ->
  jpath local_as_num_path t = Some (JStr "1121").
Proof.
  unfold tier0_gateways. intros H. inv_bind H. injection H as <-. reflexivity.
Qed.

Lemma transport_node_profiles_Return (vc : vcenter) (d c : gmap string string) t :
  transport_node_profiles vc d c = Return t ->
  exists uplinks,
    host_uplinks c = Return uplinks
    /\ jpath uplinks_path t = Some (JList uplinks).
Proof.
  unfold transport_node_profiles. intros H. inv_bind H. injection H as <-.
  eexists. split; [eassumption | reflexivity].
Qed.

Lemma additional_node_Return (d c : gmap string string) (node : string) n :
  additional_node d c node = Return n ->
  jget "hostname" n = JStr <$> c !! (node +:+ "_hostname")
  /\ jget "mgmt_ip" n = JStr <$> c !! (node +:+ "_mgmt_ip").
Proof.
  unfold additional_node. intros H. inv_bind H. injection H as <-.
  repeat match goal with
         | E : getitem _ _ = Return _ |- _ => apply getitem_Return in E
         end.
  split; simpl; match goal with E : _ !! _ = Some _ |- _ => by rewrite E end.
Qed.

Lemma additional_nodes_Return (d c : gmap string string) nodes :
  additional_nodes d c = Return nodes ->
  exists node2 node3,
    nodes = JList [node2; node3]
    /\ additional_node d c "node2" = Return node2
    /\ additional_node d c "node3" = Return node3.
Proof.
  unfold additional_nodes. intros H. inv_bind H. injection H as <-. eauto.
Qed.

Lemma compute_managers_Return (d c : gmap string string) cm d' :
  compute_managers d c = Return (cm, d') ->
  exists fq1 fq2 cm1,
    c !! "nsx_vcenter_fqdn" = Some fq1
    /\ c !! "vcenter_fqdn" = Some fq2
    /\ jget "mgmt_ip" cm1 = Some (JStr fq2)
    /\ (fq1 <> fq2 ->
        exists cm2, cm = JList [cm1; cm2]
                    /\ jget "mgmt_ip" cm2 = Some (JStr fq1))
    /\ (fq1 = fq2 -> cm = JList [cm1]).
Proof.
  unfold compute_managers. intros H.
  apply bind_Return in H as (dn & _ & H).
  apply bind_Return in H as (ip & Eip & H).
  apply bind_Return in H as (un & _ & H).
  apply bind_Return in H as (pw & _ & H).
  cbv zeta in H.
  apply bind_Return in H as (fq1 & E1 & H).
  apply bind_Return in H as (fq2 & E2 & H).
  pose proof (getitem_twice _ _ _ _ Eip E2) as ->.
  apply getitem_Return in E1, E2.
  destruct (String.eqb_spec fq1 fq2) as [->|Hne]; cbn [negb] in H.
  - inv_bind H.
    match type of H with
    | Return (JList (?cm1 :: _), _) = _ => exists fq2, fq2, cm1
    end.
    injection H as <- <-. split; [done |]. split; [done |].
    split; [reflexivity |]. split; [done | reflexivity].
  - apply bind_Return in H as (dn2 & _ & H).
    apply bind_Return in H as (ip2 & Eip2 & H).
    apply getitem_Return in Eip2. assert (ip2 = fq1) as -> by congruence.
    inv_bind H.
    match type of H with
    | Return (JList (?cm1 :: _), _) = _ => exists fq1, fq2, cm1
    end.
    injection H as <- <-. split; [done |]. split; [done |].
    split; [reflexivity |]. split; [| done].
    intros _. eexists. split; reflexivity.
Qed.

(** ** Splitting at a separator *)

Lemma str_split_cons (sep : ascii) (s : string) :
  exists p ps, str_split sep s = p :: ps.
Proof.
  destruct s as [|c r]; simpl; [eauto |].
  destruct (Ascii.eqb c sep); [eauto |]. destruct (str_split sep r); eauto.
Qed.

Lemma join_cons_char (sep c : ascii) (p : string) (ps : list string) :
  join sep (String c p :: ps) = String c (join sep (p :: ps)).
Proof. destruct ps; reflexivity. Qed.

Lemma join_str_split (sep : ascii) (s : string) :
  join sep (str_split sep s) = s.
Proof.
  induction s as [|c r IH]; [reflexivity |]. simpl.
  destruct (str_split_cons sep r) as (p & ps & E). rewrite E in *.
  destruct (Ascii.eqb_spec c sep) as [->|Hne].
  - change (join sep ("" :: p :: ps))
      with ("" +:+ String sep (join sep (p :: ps))).
    rewrite IH. reflexivity.
  - rewrite join_cons_char, IH. reflexivity.
Qed.

Lemma str_split_no_sep (sep : ascii) (s : string) :
  Forall (fun e => contains sep e = false) (str_split sep s).
Proof.
  induction s as [|c r IH]; simpl; [by constructor |].
  destruct (Ascii.eqb c sep) eqn:Ec; [by constructor |].
  destruct (str_split sep r) as [|p ps]; [by constructor; simpl; rewrite ?Ec |].
  inversion IH as [|? ? Hp Hps]; subst. constructor; [| done].
  simpl. by rewrite Ec, Hp.
Qed.

Lemma length_str_split (sep : ascii) (s : string) :
  length (str_split sep s) = S (count_char sep s).
Proof.
  induction s as [|c r IH]; [reflexivity |]. simpl.
  destruct (Ascii.eqb c sep); simpl; [by rewrite IH |].
  destruct (str_split sep r); simpl in *; lia.
Qed.

(** ** The transport node collections *)

Lemma tn_collection_Return (d : gmap string string) (e : string) r :
  tn_collection d e = Return r ->
  exists cmn tnp,
    d !! "compute_manager_name" = Some cmn
    /\ d !! "host_tnp_display_name" = Some tnp
    /\ r = tn_record cmn tnp e.
Proof.
  unfold tn_collection. intros H.
  apply bind_Return in H as (cmn & E1 & H).
  apply bind_Return in H as (tnp & E2 & H).
  injection H as <-. apply getitem_Return in E1, E2. eauto.
Qed.

Lemma tn_collections_loop_Return (d : gmap string string) (l : list string)
    records :
  tn_collections_loop d l = Return records ->
  Forall2 (fun e r => exists cmn tnp,
             d !! "compute_manager_name" = Some cmn
             /\ d !! "host_tnp_display_name" = Some tnp
             /\ r = tn_record cmn tnp e) l records.
Proof.
  revert records. induction l as [|e l IH]; intros records H; simpl in H.
  - injection H as <-. constructor.
  - apply bind_Return in H as (r & Er & H).
    apply bind_Return in H as (rs & Ers & H).
    injection H as <-. constructor; [by apply tn_collection_Return | auto].
Qed.

Lemma transport_node_collections_Return (d c : gmap string string) colls :
  transport_node_collections d c = Return colls ->
  exists s cmn tnp,
    c !! "compute_clusters_for_prep" = Some s
    /\ d !! "compute_manager_name" = Some cmn
    /\ d !! "host_tnp_display_name" = Some tnp
    /\ colls = JList (tn_record cmn tnp <$> str_split comma s).
Proof.
  unfold transport_node_collections. intros H.
  apply bind_Return in H as (s & Es & H).
  apply bind_Return in H as (records & Er & H).
  injection H as <-. apply getitem_Return in Es.
  apply tn_collections_loop_Return in Er.
  destruct (str_split_cons comma s) as (p & ps & Esplit).
  rewrite Esplit in *.
  inversion Er as [|? r0 ? rs (cmn & tnp & Hc & Ht & Hr) Hrest]; subst.
  exists s, cmn, tnp. split; [done |]. split; [done |]. split; [done |].
  f_equal. rewrite Esplit. cbn [fmap list_fmap]. f_equal.
  clear -Hrest Hc Ht. induction Hrest as [|e r l rs (cmn' & tnp' & Hc' & Ht' & ->) _ IH];
    [reflexivity |].
  cbn [fmap list_fmap] in *. rewrite IH. f_equal. congruence.
Qed.

(** ** Properties of the generated document *)

Lemma py_range_length (n : Z) : length (py_range n) = Z.to_nat n.
Proof. unfold py_range. by rewrite length_fmap, length_seq. Qed.

Lemma jpath_Key (k : string) (p : list step) (j j' : json) :
  jget k j = Some j' -> jpath (Key k :: p) j = jpath p j'.
Proof. intros H. simpl. by rewrite H. Qed.

(** C5: the document holds one record per comma-separated entry of
    [compute_clusters_for_prep], in the order of the entries; a record
    names the stripped entry as its cluster, ["TNP_"] and the stripped entry
    as display name and description, the two names of the defaults, and the
    state ["present"]. *)
Theorem transport_node_collections_expansion
    (vc : vcenter) (fs : files) (d c : gmap string string) (doc : json) :
  txt_to_json (defaults_file fs) = Return d ->
  txt_to_json (config_file fs) = Return c ->
  vars_document vc fs = Return doc ->
  exists s cmn tnp records,
    c !! "compute_clusters_for_prep" = Some s
    /\ d !! "compute_manager_name" = Some cmn
    /\ d !! "host_tnp_display_name" = Some tnp
    /\ jget "transport_node_collections" doc = Some (JList records)
    /\ join comma (str_split comma s) = s
    /\ Forall (fun e => contains comma e = false) (str_split comma s)
    /\ length records = S (count_char comma s)
    /\ Forall2
         (fun e r =>
            jget "cluster_name" r = Some (JStr (strip e))
            /\ jget "display_name" r = Some (JStr ("TNP_" +:+ strip e))
            /\ jget "description" r = Some (JStr ("TNP_" +:+ strip e))
            /\ jget "compute_manager_name" r = Some (JStr cmn)
            /\ jget "transport_node_profile_name" r = Some (JStr tnp)
            /\ jget "state" r = Some (JStr "present"))
         (str_split comma s) records.
Proof.
  intros Hd Hc Hdoc. rewrite (vars_document_nsx_vars vc fs d c Hd Hc) in Hdoc.
  destruct (nsx_vars_blocks vc d c doc Hdoc).
  destruct (transport_node_collections_Return _ _ _ bl_transport_node_collections)
    as (s & cmn & tnp & Hs & Hcmn & Htnp & ->).
  rewrite (compute_managers_defaults _ _ _ _ bl_compute_managers) in Hcmn, Htnp
    by done.
  exists s, cmn, tnp, (tn_record cmn tnp <$> str_split comma s).
  split; [done |]. split; [done |]. split; [done |]. split; [done |].
  split; [apply join_str_split |]. split; [apply str_split_no_sep |].
  split; [by rewrite length_fmap, length_str_split |].
  apply Forall2_fmap_r, Forall2_same_length_lookup_2; [done |].
  intros i e e' He He'. assert (e' = e) as -> by congruence.
  repeat split; reflexivity.
Qed.

(** C6, as the code has it: a second compute-manager record is in the
    document exactly when [nsx_vcenter_fqdn] differs from [vcenter_fqdn];
    the records of the second and third manager nodes are always in it, and
    the document does not depend on [nsx_manager_cluster]. *)
Theorem secondary_records
    (vc : vcenter) (fs : files) (d c : gmap string string) (doc : json) :
  txt_to_json (defaults_file fs) = Return d ->
  txt_to_json (config_file fs) = Return c ->
  vars_document vc fs = Return doc ->
  (exists fq1 fq2 cm1,
     c !! "nsx_vcenter_fqdn" = Some fq1
     /\ c !! "vcenter_fqdn" = Some fq2
     /\ jget "mgmt_ip" cm1 = Some (JStr fq2)
     /\ (fq1 <> fq2 ->
         exists cm2, jget "compute_managers" doc = Some (JList [cm1; cm2])
                     /\ jget "mgmt_ip" cm2 = Some (JStr fq1))
     /\ (fq1 = fq2 -> jget "compute_managers" doc = Some (JList [cm1])))
  /\ (exists node2 node3,
        jget "additional_nodes" doc = Some (JList [node2; node3])
        /\ jget "hostname" node2 = JStr <$> c !! "node2_hostname"
        /\ jget "hostname" node3 = JStr <$> c !! "node3_hostname")
  /\ (forall fs' c',
        defaults_file fs' = defaults_file fs ->
        txt_to_json (config_file fs') = Return c' ->
        (forall k, k <> "nsx_manager_cluster" -> c' !! k = c !! k) ->
        vars_document vc fs' = Return doc).
Proof.
  intros Hd Hc Hdoc. pose proof Hdoc as Hdoc'.
  rewrite (vars_document_nsx_vars vc fs d c Hd Hc) in Hdoc.
  destruct (nsx_vars_blocks vc d c doc Hdoc).
  split; [| split].
  - destruct (compute_managers_Return _ _ _ _ bl_compute_managers)
      as (fq1 & fq2 & cm1 & H1 & H2 & Hip & Hne & Heq).
    exists fq1, fq2, cm1. split; [done |]. split; [done |]. split; [done |].
    split.
    + intros Hdiff. destruct (Hne Hdiff) as (cm2 & -> & Hip2). eauto.
    + intros Hsame. by rewrite <- (Heq Hsame).
  - destruct (additional_nodes_Return _ _ _ bl_additional_nodes)
      as (node2 & node3 & -> & E2 & E3).
    exists node2, node3. split; [done |].
    split; [apply (additional_node_Return _ _ _ _ E2)
           | apply (additional_node_Return _ _ _ _ E3)].
  - intros fs' c' Hfile Hc' Hagree.
    assert (txt_to_json (defaults_file fs') = Return d) as Hd'
      by (by rewrite Hfile).
    rewrite (vars_document_nsx_vars vc fs' d c' Hd' Hc'), <- Hdoc.
    apply nsx_vars_agree. intros k Hk. apply Hagree.
    intros ->. revert Hk. apply (bool_decide_unpack _). vm_compute. exact I.
Qed.

(** C8: in a generated document an edge configured with [n] uplinks has
    [n - 1] pnics, none when [n] is at most 1 and the single pnic
    [uplink-1] when [n] is 2; the host transport node profile configured
    with [n] uplinks has [n] uplinks. *)
Theorem uplink_lists
    (vc : vcenter) (fs : files) (d c : gmap string string) (doc : json)
    (s1 s2 sh : string) (n1 n2 nh : Z) :
  txt_to_json (defaults_file fs) = Return d ->
  txt_to_json (config_file fs) = Return c ->
  vars_document vc fs = Return doc ->
  c !! "edge1_number_of_uplinks" = Some s1 -> py_int s1 = Some n1 ->
  c !! "edge2_number_of_uplinks" = Some s2 -> py_int s2 = Some n2 ->
  c !! "host_number_of_uplinks" = Some sh -> py_int sh = Some nh ->
  (n1 <= 2 /\ n2 <= 2 /\ nh <= 2)
  /\ (exists pnics,
        jpath (Key "edge_transport_nodes" :: Idx 0 :: pnics_path) doc
        = Some (JList pnics)
        /\ pnics_for n1 pnics)
  /\ (exists pnics,
        jpath (Key "edge_transport_nodes" :: Idx 1 :: pnics_path) doc
        = Some (JList pnics)
        /\ pnics_for n2 pnics)
  /\ (exists uplinks,
        jpath (Key "transport_node_profiles" :: uplinks_path) doc
        = Some (JList uplinks)
        /\ length uplinks = Z.to_nat nh
        /\ (0 <= nh -> Z.of_nat (length uplinks) = nh)).
Proof.
  intros Hd Hc Hdoc H1 P1 H2 P2 Hh Ph.
  rewrite (vars_document_nsx_vars vc fs d c Hd Hc) in Hdoc.
  destruct (nsx_vars_blocks vc d c doc Hdoc).
  destruct (edge_transport_nodes_Return _ _ _ bl_edge_transport_nodes)
    as (e1 & e2 & -> & E1 & E2).
  destruct (edge_transport_node_Return _ _ _ _ E1) as (p1 & ? & Ep1 & _ & Hp1 & _).
  destruct (edge_transport_node_Return _ _ _ _ E2) as (p2 & ? & Ep2 & _ & Hp2 & _).
  destruct (edge_pnics_Return _ _ _ Ep1) as (s1' & n1' & Hs1 & Hn1 & Hle1 & ->).
  destruct (edge_pnics_Return _ _ _ Ep2) as (s2' & n2' & Hs2 & Hn2 & Hle2 & ->).
  destruct (transport_node_profiles_Return _ _ _ _ bl_transport_node_profiles)
    as (ups & Eups & Hups).
  destruct (host_uplinks_Return _ _ Eups) as (sh' & nh' & Hsh & Hnh & Hleh & ->).
  change ("edge1" +:+ "_number_of_uplinks") with "edge1_number_of_uplinks" in Hs1.
  change ("edge2" +:+ "_number_of_uplinks") with "edge2_number_of_uplinks" in Hs2.
  assert (n1' = n1) as -> by congruence.
  assert (n2' = n2) as -> by congruence.
  assert (nh' = nh) as -> by congruence.
  assert (forall n, n <= 2 -> pnics_for n (edge_pnic <$> py_range (n - 1))) as Hfor.
  { intros n Hn. unfold pnics_for.
    split; [by rewrite length_fmap, py_range_length |]. split.
    - intros ->. reflexivity.
    - intros Hn1'. unfold py_range.
      replace (Z.to_nat (n - 1)) with 0%nat by lia. reflexivity. }
  split; [done |]. split; [| split].
  - exists (edge_pnic <$> py_range (n1 - 1)). split; [| by apply Hfor].
    rewrite (jpath_Key _ _ _ _ bl_get_edges). exact Hp1.
  - exists (edge_pnic <$> py_range (n2 - 1)). split; [| by apply Hfor].
    rewrite (jpath_Key _ _ _ _ bl_get_edges). exact Hp2.
  - exists (host_uplink <$> py_range nh). split.
    + rewrite (jpath_Key _ _ _ _ bl_get_host_tnps). exact Hups.
    + rewrite length_fmap, py_range_length. split; [done | lia].
Qed.

(** C9: [edge1_data_network] and [Tier0_BGP_AS_Number] do not reach the
    document: two config files that differ in those two keys at most give
    the same document or the same failure; the first edge's
    [data_networks] holds the value of [edge2_data_network] and the Tier0
    gateway's [local_as_num] is ["1121"]. *)
Theorem data_network_and_as_number_ignored
    (vc : vcenter) (fs1 fs2 : files) (c1 c2 : gmap string string) :
  defaults_file fs1 = defaults_file fs2 ->
  txt_to_json (config_file fs1) = Return c1 ->
  txt_to_json (config_file fs2) = Return c2 ->
  (forall k, k <> "edge1_data_network" -> k <> "Tier0_BGP_AS_Number" ->
             c1 !! k = c2 !! k) ->
  vars_document vc fs1 = vars_document vc fs2
  /\ (forall doc,
        vars_document vc fs1 = Return doc ->
        exists dn,
          c1 !! "edge2_data_network" = Some dn
          /\ jpath (Key "edge_transport_nodes" :: Idx 0 :: data_networks_path) doc
             = Some (JList [JStr dn])
          /\ jpath (Key "tier0_gateways" :: local_as_num_path) doc
             = Some (JStr "1121")).
Proof.
  intros Hfile Hc1 Hc2 Hagree.
  assert (forall k, k ∈ config_keys -> c1 !! k = c2 !! k) as Hkeys.
  { intros k Hk. apply Hagree; intros ->; revert Hk;
      apply (bool_decide_unpack _); vm_compute; exact I. }
  split.
  - unfold vars_document. rewrite <- Hfile, Hc1, Hc2.
    destruct (txt_to_json (defaults_file fs1)) as [d| |]; cbn [bind];
      [| reflexivity..].
    by apply nsx_vars_agree.
  - intros doc Hdoc. unfold vars_document in Hdoc. rewrite Hc1 in Hdoc.
    apply bind_Return in Hdoc as (d & _ & Hdoc). cbn [bind] in Hdoc.
    destruct (nsx_vars_blocks vc d c1 doc Hdoc).
    destruct (edge_transport_nodes_Return _ _ _ bl_edge_transport_nodes)
      as (e1 & e2 & -> & E1 & E2).
    destruct (edge_transport_node_Return _ _ _ _ E1)
      as (? & dn & _ & Hdn & _ & Hpath).
    exists dn. split; [done |]. split.
    + rewrite (jpath_Key _ _ _ _ bl_get_edges). exact Hpath.
    + rewrite (jpath_Key _ _ _ _ bl_get_tier0s).
      by apply (tier0_gateways_Return d').
Qed.

(** ** The sample run *)

Lemma sample_defaults_parse :
  txt_to_json (defaults_file (sample_files sample_config))
  = Return (parsed reset_defaults).
Proof. apply parsed_Return. vm_compute. reflexivity. Qed.

Lemma sample_config_parse :
  txt_to_json (config_file (sample_files sample_config))
  = Return (parsed sample_config).
Proof. apply parsed_Return. vm_compute. reflexivity. Qed.

Lemma sample_doc_generated :
  vars_document sample_vc (sample_files sample_config) = Return sample_doc.
Proof. vm_compute. reflexivity. Qed.

Lemma transport_node_collections_expansion_witness :
  exists s cmn tnp records,
    parsed sample_config !! "compute_clusters_for_prep" = Some s
    /\ parsed reset_defaults !! "compute_manager_name" = Some cmn
    /\ parsed reset_defaults !! "host_tnp_display_name" = Some tnp
    /\ jget "transport_node_collections" sample_doc = Some (JList records)
    /\ join comma (str_split comma s) = s
    /\ Forall (fun e => contains comma e = false) (str_split comma s)
    /\ length records = S (count_char comma s)
    /\ Forall2
         (fun e r =>
            jget "cluster_name" r = Some (JStr (strip e))
            /\ jget "display_name" r = Some (JStr ("TNP_" +:+ strip e))
            /\ jget "description" r = Some (JStr ("TNP_" +:+ strip e))
            /\ jget "compute_manager_name" r = Some (JStr cmn)
            /\ jget "transport_node_profile_name" r = Some (JStr tnp)
            /\ jget "state" r = Some (JStr "present"))
         (str_split comma s) records.
Proof.
  apply (transport_node_collections_expansion sample_vc
           (sample_files sample_config)).
  - exact sample_defaults_parse.
  - exact sample_config_parse.
  - exact sample_doc_generated.
Defined.

Lemma secondary_records_witness :
  exists node2 node3,
    jget "additional_nodes" sample_doc = Some (JList [node2; node3])
    /\ jget "hostname" node2 = JStr <$> parsed sample_config !! "node2_hostname"
    /\ jget "hostname" node3 = JStr <$> parsed sample_config !! "node3_hostname".
Proof.
  apply (secondary_records sample_vc (sample_files sample_config)
           (parsed reset_defaults) (parsed sample_config) sample_doc).
  - exact sample_defaults_parse.
  - exact sample_config_parse.
  - exact sample_doc_generated.
Defined.

(** C6, as stated, fails: with [nsx_manager_cluster] set to no, no cluster
    is asked for, and the document is the one of the sample, with the
    records of the second and third manager nodes in it. *)
Lemma secondary_records_counterexample :
  cluster_requested
    (parsed (sample_config_with [("nsx_manager_cluster", "no")]))
  = Return false
  /\ vars_document sample_vc
       (sample_files (sample_config_with [("nsx_manager_cluster", "no")]))
     = Return sample_doc
  /\ length <$> (jget "additional_nodes" sample_doc ≫= jitems) = Some 2%nat.
Proof.
  split; [vm_compute; reflexivity |].
  split; vm_compute; reflexivity.
Qed.

Lemma uplink_lists_witness :
  exists pnics,
    jpath (Key "edge_transport_nodes" :: Idx 0 :: pnics_path) sample_doc
    = Some (JList pnics)
    /\ pnics_for 2 pnics.
Proof.
  apply (uplink_lists sample_vc (sample_files sample_config)
           (parsed reset_defaults) (parsed sample_config) sample_doc
           "2" "2" "2" 2 2 2).
  - exact sample_defaults_parse.
  - exact sample_config_parse.
  - exact sample_doc_generated.
  - vm_compute. reflexivity.
  - vm_compute. reflexivity.
  - vm_compute. reflexivity.
  - vm_compute. reflexivity.
  - vm_compute. reflexivity.
  - vm_compute. reflexivity.
Defined.

Lemma sample_config_changed_agree :
  forall k, k <> "edge1_data_network" -> k <> "Tier0_BGP_AS_Number" ->
    parsed sample_config !! k
    = parsed (sample_config_with
                [ ("edge1_data_network", "other-dvpg");
                  ("Tier0_BGP_AS_Number", "65000") ]) !! k.
Proof.
  intros k H1 H2.
  rewrite <- (lookup_delete_ne (parsed sample_config) "edge1_data_network" k)
    by done.
  rewrite <- (lookup_delete_ne (delete _ (parsed sample_config))
                "Tier0_BGP_AS_Number" k) by done.
  rewrite <- (lookup_delete_ne (parsed (sample_config_with _))
                "edge1_data_network" k) by done.
  rewrite <- (lookup_delete_ne (delete _ (parsed (sample_config_with _)))
                "Tier0_BGP_AS_Number" k) by done.
  f_equal; try (apply (bool_decide_unpack _); vm_compute; exact I).
Qed.

Lemma data_network_and_as_number_ignored_witness :
  vars_document sample_vc (sample_files sample_config)
  = vars_document sample_vc
      (sample_files
         (sample_config_with
            [ ("edge1_data_network", "other-dvpg");
              ("Tier0_BGP_AS_Number", "65000") ])).
Proof.
  apply (data_network_and_as_number_ignored sample_vc
           (sample_files sample_config)
           (sample_files
              (sample_config_with
                 [ ("edge1_data_network", "other-dvpg");
                   ("Tier0_BGP_AS_Number", "65000") ]))
           (parsed sample_config)
           (parsed (sample_config_with
                      [ ("edge1_data_network", "other-dvpg");
                        ("Tier0_BGP_AS_Number", "65000") ]))).
  - reflexivity.
  - exact sample_config_parse.
  - apply parsed_Return. vm_compute. reflexivity.
  - exact sample_config_changed_agree.
Defined.

(** ** Where a run can stop *)

Lemma bind_Exit {A B : Type} (m : outcome A) (k : A -> outcome B) st msg :
  bind m k = Exit st msg ->
  m = Exit st msg \/ exists a, m = Return a /\ k a = Exit st msg.
Proof. destruct m as [a| |]; simpl; [eauto | intros [= -> ->]; auto | discriminate]. Qed.

Lemma getitem_no_Exit (m : gmap string string) (k : string) st msg :
  getitem m k = Exit st msg -> False.
Proof. unfold getitem. destruct (m !! k); discriminate. Qed.

Lemma int_of_no_Exit (s : string) st msg : int_of s = Exit st msg -> False.
Proof. unfold int_of. destruct (py_int s); discriminate. Qed.

Create HintDb no_exit.
#[local] Hint Resolve getitem_no_Exit int_of_no_Exit : no_exit.

Ltac no_exit H :=
  repeat (apply bind_Exit in H as [H | (? & _ & H)];
          [solve [eauto with no_exit] | cbv beta zeta in H]);
  try discriminate H.

Lemma top_level_vars_no_Exit d c st msg :
  top_level_vars d c = Exit st msg -> False.
Proof. unfold top_level_vars. intros H. no_exit H. Qed.

Lemma nsx_node1_no_Exit c st msg : nsx_node1 c = Exit st msg -> False.
Proof. unfold nsx_node1. intros H. no_exit H. Qed.

Lemma additional_node_no_Exit d c node st msg :
  additional_node d c node = Exit st msg -> False.
Proof. unfold additional_node. intros H. no_exit H. Qed.

#[local] Hint Resolve additional_node_no_Exit : no_exit.

Lemma additional_nodes_no_Exit d c st msg :
  additional_nodes d c = Exit st msg -> False.
Proof. unfold additional_nodes. intros H. no_exit H. Qed.

Lemma compute_managers_no_Exit d c st msg :
  compute_managers d c = Exit st msg -> False.
Proof.
  unfold compute_managers. intros H.
  do 6 (apply bind_Exit in H as [H | (? & _ & H)];
        [solve [eauto with no_exit] | cbv beta zeta in H]).
  destruct (negb _) in H; no_exit H.
Qed.

Lemma nsxt_licenses_no_Exit c st msg : nsxt_licenses c = Exit st msg -> False.
Proof. unfold nsxt_licenses. intros H. no_exit H. Qed.

Lemma transport_zones_no_Exit d st msg :
  transport_zones d = Exit st msg -> False.
Proof. unfold transport_zones. intros H. no_exit H. Qed.

Lemma ip_pool_no_Exit d c pool st msg : ip_pool d c pool = Exit st msg -> False.
Proof. unfold ip_pool. intros H. no_exit H. Qed.

#[local] Hint Resolve ip_pool_no_Exit : no_exit.

Lemma ip_pools_no_Exit d c st msg : ip_pools d c = Exit st msg -> False.
Proof. unfold ip_pools. intros H. no_exit H. Qed.

Lemma edge_clusters_no_Exit d st msg : edge_clusters d = Exit st msg -> False.
Proof. unfold edge_clusters. intros H. no_exit H. Qed.

Lemma tier0_gateways_no_Exit d st msg :
  tier0_gateways d = Exit st msg -> False.
Proof. unfold tier0_gateways. intros H. no_exit H. Qed.

Lemma host_switch_profiles_no_Exit d c st msg :
  host_switch_profiles d c = Exit st msg -> False.
Proof. unfold host_switch_profiles. intros H. no_exit H. Qed.

Lemma tn_collection_no_Exit d e st msg :
  tn_collection d e = Exit st msg -> False.
Proof. unfold tn_collection. intros H. no_exit H. Qed.

#[local] Hint Resolve tn_collection_no_Exit : no_exit.

Lemma tn_collections_loop_no_Exit d l st msg :
  tn_collections_loop d l = Exit st msg -> False.
Proof.
  induction l as [|e l IH]; simpl; intros H; [discriminate |].
  apply bind_Exit in H as [H | (? & _ & H)]; [eauto with no_exit |].
  apply bind_Exit in H as [H | (? & _ & H)]; [auto | discriminate].
Qed.

#[local] Hint Resolve tn_collections_loop_no_Exit : no_exit.

Lemma transport_node_collections_no_Exit d c st msg :
  transport_node_collections d c = Exit st msg -> False.
Proof. unfold transport_node_collections. intros H. no_exit H. Qed.

Lemma edge_pnics_Exit c edge st msg :
  edge = "edge1" \/ edge = "edge2" ->
  edge_pnics c edge = Exit st msg ->
  uplink_exit c (edge +:+ "_number_of_uplinks") st msg.
Proof.
  unfold edge_pnics. intros He H.
  apply bind_Exit in H as [H | (s & Es & H)]; [exfalso; eauto with no_exit |].
  apply bind_Exit in H as [H | (n & En & H)]; [exfalso; eauto with no_exit |].
  destruct (Z.gtb_spec n 2) as [Hgt|Hle]; [| exfalso; no_exit H].
  apply bind_Exit in H as [H | (s' & Es' & H)]; [exfalso; eauto with no_exit |].
  pose proof (getitem_twice _ _ _ _ Es Es') as <-.
  injection H as <- <-. apply getitem_Return in Es. apply int_of_Return in En.
  split; [done |]. exists s, n.
  split; [done |]. split; [done |]. split; [lia |].
  destruct He as [-> | ->]; reflexivity.
Qed.

Ltac exit_step H :=
  apply bind_Exit in H as [H | (? & _ & H)];
  [exfalso; solve [eauto with no_exit] | cbv beta zeta in H].

Lemma edge_transport_node_Exit d c edge st msg :
  edge = "edge1" \/ edge = "edge2" ->
  edge_transport_node d c edge = Exit st msg ->
  uplink_exit c (edge +:+ "_number_of_uplinks") st msg.
Proof.
  unfold edge_transport_node. intros He H.
  do 2 exit_step H.
  apply bind_Exit in H as [H | (? & _ & H)]; [by apply edge_pnics_Exit |].
  exfalso. no_exit H.
Qed.

Lemma edge_transport_nodes_Exit d c st msg :
  edge_transport_nodes d c = Exit st msg ->
  uplink_exit c "edge1_number_of_uplinks" st msg
  \/ uplink_exit c "edge2_number_of_uplinks" st msg.
Proof.
  unfold edge_transport_nodes. intros H.
  apply bind_Exit in H as [H | (? & _ & H)];
    [left; apply (edge_transport_node_Exit d c "edge1"); auto |].
  apply bind_Exit in H as [H | (? & _ & H)];
    [right; apply (edge_transport_node_Exit d c "edge2"); auto |].
  discriminate.
Qed.

Lemma host_uplinks_Exit c st msg :
  host_uplinks c = Exit st msg ->
  uplink_exit c "host_number_of_uplinks" st msg.
Proof.
  unfold host_uplinks. intros H.
  apply bind_Exit in H as [H | (s & Es & H)]; [exfalso; eauto with no_exit |].
  apply bind_Exit in H as [H | (n & En & H)]; [exfalso; eauto with no_exit |].
  destruct (Z.gtb_spec n 2) as [Hgt|Hle]; [| exfalso; no_exit H].
  apply bind_Exit in H as [H | (s' & Es' & H)]; [exfalso; eauto with no_exit |].
  pose proof (getitem_twice _ _ _ _ Es Es') as <-.
  injection H as <- <-. apply getitem_Return in Es. apply int_of_Return in En.
  split; [done |]. exists s, n.
  split; [done |]. split; [done |]. split; [lia | reflexivity].
Qed.

Lemma transport_node_profiles_Exit vc d c st msg :
  transport_node_profiles vc d c = Exit st msg ->
  uplink_exit c "host_number_of_uplinks" st msg
  \/ exists n h u p, get_vds_uuid vc n h u p = Exit st msg.
Proof.
  unfold transport_node_profiles. intros H.
  do 5 exit_step H.
  apply bind_Exit in H as [H | (? & _ & H)]; [right; eauto |].
  exit_step H.
  apply bind_Exit in H as [H | (? & _ & H)]; [left; by apply host_uplinks_Exit |].
  exfalso. no_exit H.
Qed.

Lemma get_vds_uuid_Exit vc n h u p st msg :
  get_vds_uuid vc n h u p = Exit st msg -> st = 2.
Proof.
  unfold get_vds_uuid. intros H.
  destruct (vc h u p) as [?| |view]; [congruence | discriminate |].
  destruct (get_obj view n); congruence.
Qed.

#[local] Hint Resolve top_level_vars_no_Exit nsx_node1_no_Exit
  additional_nodes_no_Exit compute_managers_no_Exit nsxt_licenses_no_Exit
  transport_zones_no_Exit ip_pools_no_Exit edge_clusters_no_Exit
  tier0_gateways_no_Exit host_switch_profiles_no_Exit
  transport_node_collections_no_Exit : no_exit.

Lemma nsx_vars_Exit vc d c st msg :
  nsx_vars vc d c = Exit st msg ->
  (exists k, k ∈ uplink_keys /\ uplink_exit c k st msg)
  \/ exists n h u p, get_vds_uuid vc n h u p = Exit st msg.
Proof.
  unfold nsx_vars. intros H.
  do 7 exit_step H.
  apply bind_Exit in H as [H | (? & _ & H)].
  { left. destruct (edge_transport_nodes_Exit _ _ _ _ H);
      eexists; (split; [| eassumption]); set_solver. }
  do 3 exit_step H.
  apply bind_Exit in H as [H | (? & _ & H)].
  { destruct (transport_node_profiles_Exit _ _ _ _ _ H); [left | by right].
    eexists; (split; [| eassumption]); set_solver. }
  exit_step H. discriminate.
Qed.

(** A count above 2 keeps [nsx_vars] from returning. *)
Lemma nsx_vars_Return_uplinks vc d c doc k s n :
  nsx_vars vc d c = Return doc ->
  k ∈ uplink_keys -> c !! k = Some s -> py_int s = Some n -> n <= 2.
Proof.
  intros Hdoc Hk Hs Hn. destruct (nsx_vars_blocks vc d c doc Hdoc).
  destruct (edge_transport_nodes_Return _ _ _ bl_edge_transport_nodes)
    as (e1 & e2 & -> & E1 & E2).
  destruct (edge_transport_node_Return _ _ _ _ E1) as (p1 & ? & Ep1 & _).
  destruct (edge_transport_node_Return _ _ _ _ E2) as (p2 & ? & Ep2 & _).
  destruct (edge_pnics_Return _ _ _ Ep1) as (s1' & n1' & Hs1 & Hn1 & Hle1 & _).
  destruct (edge_pnics_Return _ _ _ Ep2) as (s2' & n2' & Hs2 & Hn2 & Hle2 & _).
  destruct (transport_node_profiles_Return _ _ _ _ bl_transport_node_profiles)
    as (ups & Eups & _).
  destruct (host_uplinks_Return _ _ Eups) as (sh' & nh' & Hsh & Hnh & Hleh & _).
  change ("edge1" +:+ "_number_of_uplinks") with "edge1_number_of_uplinks" in Hs1.
  change ("edge2" +:+ "_number_of_uplinks") with "edge2_number_of_uplinks" in Hs2.
  unfold uplink_keys in Hk.
  repeat (apply elem_of_cons in Hk as [-> | Hk]; [congruence |]).
  by apply elem_of_nil in Hk.
Qed.

(** ** Runs on well-formed files *)

Lemma present_getitem (keys : list string) (m : gmap string string) (k : string) :
  present keys m -> k ∈ keys -> exists v, getitem m k = Return v.
Proof.
  intros Hp Hk. destruct (Hp k Hk) as [v Hv]. exists v. by apply getitem_Return.
Qed.

Ltac run_getitems Hd Hc :=
  repeat match goal with
         | |- context [getitem ?m ?k] =>
             let v := fresh "v" in
             let E := fresh "E" in
             first
               [ destruct (present_getitem defaults_keys m k Hd
                             ltac:(solve_elem)) as [v E]
               | destruct (present_getitem config_keys m k Hc
                             ltac:(solve_elem)) as [v E] ];
             rewrite E; cbn [bind]
         end.

Ltac returns Hd Hc := run_getitems Hd Hc; eexists; reflexivity.

Section WellFormed.

Variable vc : vcenter.
Variables d c : gmap string string.
Hypothesis Hd : present defaults_keys d.
Hypothesis Hc : present config_keys c.

Lemma top_level_vars_returns : exists x, top_level_vars d c = Return x.
Proof. unfold top_level_vars. returns Hd Hc. Qed.

Lemma nsx_node1_returns : exists x, nsx_node1 c = Return x.
Proof. unfold nsx_node1. returns Hd Hc. Qed.

Lemma additional_nodes_returns : exists x, additional_nodes d c = Return x.
Proof. unfold additional_nodes, additional_node. returns Hd Hc. Qed.

Lemma compute_managers_returns :
  exists cm d', compute_managers d c = Return (cm, d')
                /\ present defaults_keys d'.
Proof.
  unfold compute_managers. run_getitems Hd Hc.
  destruct (negb _); cbn [bind]; eexists _, _; (split; [reflexivity |]);
    [done |].
  intros k Hk. destruct (decide (k = "nsx_vcenter")) as [->|Hne].
  - rewrite lookup_insert_eq. eauto.
  - rewrite lookup_insert_ne by done. auto.
Qed.

Lemma nsxt_licenses_returns : exists x, nsxt_licenses c = Return x.
Proof. unfold nsxt_licenses. returns Hd Hc. Qed.

Lemma transport_zones_returns : exists x, transport_zones d = Return x.
Proof. unfold transport_zones. returns Hd Hc. Qed.

Lemma ip_pools_returns : exists x, ip_pools d c = Return x.
Proof. unfold ip_pools, ip_pool. returns Hd Hc. Qed.

Lemma edge_clusters_returns : exists x, edge_clusters d = Return x.
Proof. unfold edge_clusters. returns Hd Hc. Qed.

Lemma tier0_gateways_returns : exists x, tier0_gateways d = Return x.
Proof. unfold tier0_gateways. returns Hd Hc. Qed.

Lemma host_switch_profiles_returns :
  exists x, host_switch_profiles d c = Return x.
Proof. unfold host_switch_profiles. returns Hd Hc. Qed.

Lemma tn_collections_loop_returns (l : list string) :
  exists x, tn_collections_loop d l = Return x.
Proof.
  induction l as [|e l [x IH]]; simpl; [eauto |].
  unfold tn_collection. run_getitems Hd Hc. rewrite IH. cbn [bind]. eauto.
Qed.

Lemma transport_node_collections_returns :
  exists x, transport_node_collections d c = Return x.
Proof.
  unfold transport_node_collections. run_getitems Hd Hc.
  match goal with
  | |- context [tn_collections_loop d ?l] =>
      destruct (tn_collections_loop_returns l) as [x ->]
  end.
  cbn [bind]. eauto.
Qed.

Lemma edge_pnics_eval (edge s : string) (n : Z) :
  c !! (edge +:+ "_number_of_uplinks") = Some s -> py_int s = Some n ->
  edge_pnics c edge
  = if n >? 2
    then Exit 2 ("ERROR: Max allowed Edge Uplinks: 2. Configured: " +:+ s)
    else Return (edge_pnic <$> py_range (n - 1)).
Proof.
  intros Hs Hn. apply getitem_Return in Hs. apply int_of_Return in Hn.
  unfold edge_pnics. rewrite Hs. cbn [bind]. rewrite Hn. cbn [bind].
  destruct (n >? 2); reflexivity.
Qed.

Lemma host_uplinks_eval (s : string) (n : Z) :
  c !! "host_number_of_uplinks" = Some s -> py_int s = Some n ->
  host_uplinks c
  = if n >? 2
    then Exit 2 ("ERROR: Max allowed Host Uplinks: 2. Configured: " +:+ s)
    else Return (host_uplink <$> py_range n).
Proof.
  intros Hs Hn. apply getitem_Return in Hs. apply int_of_Return in Hn.
  unfold host_uplinks. rewrite Hs. cbn [bind]. rewrite Hn. cbn [bind].
  destruct (n >? 2); reflexivity.
Qed.

Lemma edge_transport_node_eval (edge s : string) (n : Z) :
  edge = "edge1" \/ edge = "edge2" ->
  is_int c (edge +:+ "_mgmt_netmask_prefix") ->
  c !! (edge +:+ "_number_of_uplinks") = Some s -> py_int s = Some n ->
  (2 < n ->
   edge_transport_node d c edge
   = Exit 2 (uplink_error (edge +:+ "_number_of_uplinks") s))
  /\ (n <= 2 -> exists e, edge_transport_node d c edge = Return e).
Proof.
  intros He (sp & np & Hsp & Hnp) Hs Hn.
  apply getitem_Return in Hsp. apply int_of_Return in Hnp.
  unfold edge_transport_node. rewrite (edge_pnics_eval edge s n Hs Hn), Hsp.
  split; intros Hcmp.
  - destruct (Z.gtb_spec n 2); [| lia].
    destruct He as [-> | ->]; run_getitems Hd Hc; reflexivity.
  - destruct (Z.gtb_spec n 2); [lia |].
    destruct He as [-> | ->]; run_getitems Hd Hc; rewrite Hnp; cbn [bind];
      eexists; reflexivity.
Qed.

End WellFormed.

Lemma transport_node_profiles_eval (vc : vcenter) (d c : gmap string string)
    (s : string) (n : Z) :
  present defaults_keys d -> present config_keys c ->
  (forall vn h u p,
     c !! "host_vds_name" = Some vn -> c !! "vcenter_fqdn" = Some h ->
     c !! "vcenter_username" = Some u -> c !! "vcenter_password" = Some p ->
     exists uuid, get_vds_uuid vc vn h u p = Return uuid) ->
  c !! "host_number_of_uplinks" = Some s -> py_int s = Some n ->
  (2 < n ->
   transport_node_profiles vc d c
   = Exit 2 (uplink_error "host_number_of_uplinks" s))
  /\ (n <= 2 -> exists t, transport_node_profiles vc d c = Return t).
Proof.
  intros Hd Hc Hvds Hs Hn.
  unfold transport_node_profiles. rewrite (host_uplinks_eval c s n Hs Hn).
  run_getitems Hd Hc.
  match goal with
  | |- context [get_vds_uuid vc ?vn ?h ?u ?p] =>
      destruct (Hvds vn h u p) as [uuid ->];
      [by apply getitem_Return.. |]
  end.
  cbn [bind]. split; intros Hcmp.
  - destruct (Z.gtb_spec n 2); [reflexivity | lia].
  - destruct (Z.gtb_spec n 2); [lia |]. cbn [bind]. eauto.
Qed.

Lemma nsx_vars_reduced (vc : vcenter) (d c : gmap string string) :
  present defaults_keys d -> present config_keys c ->
  exists d' (K : json -> json -> json),
    present defaults_keys d'
    /\ nsx_vars vc d c
       = (e <-- edge_transport_nodes d' c ;;
          t <-- transport_node_profiles vc d' c ;;
          Return (K e t)).
Proof.
  intros Hd Hc. unfold nsx_vars.
  destruct (top_level_vars_returns d c Hd Hc) as [top ->].
  destruct (nsx_node1_returns c Hc) as [node1 ->].
  destruct (additional_nodes_returns d c Hd Hc) as [nodes ->].
  destruct (compute_managers_returns d c Hd Hc) as (cm & d' & -> & Hd').
  destruct (nsxt_licenses_returns c Hc) as [licenses ->].
  cbn [bind snd fst].
  destruct (transport_zones_returns d' Hd') as [tzs ->].
  destruct (ip_pools_returns d' c Hd' Hc) as [pools ->].
  destruct (edge_clusters_returns d' Hd') as [clusters ->].
  destruct (tier0_gateways_returns d' Hd') as [tier0s ->].
  destruct (host_switch_profiles_returns d' c Hd' Hc) as [hostsps ->].
  destruct (transport_node_collections_returns d' c Hd' Hc) as [colls ->].
  cbn [bind].
  exists d', (fun e t => JDict
    (top ++
     [ ("nsx_node1", node1); ("additional_nodes", nodes);
       ("compute_managers", cm); ("nsxt_licenses", licenses);
       ("transport_zones", tzs); ("ip_pools", pools);
       ("edge_transport_nodes", e); ("edge_clusters", clusters);
       ("tier0_gateways", tier0s); ("host_switch_profiles", hostsps);
       ("transport_node_profiles", t);
       ("transport_node_collections", colls) ])).
  split; [done | reflexivity].
Qed.

Lemma nsx_vars_well_formed (vc : vcenter) (d c : gmap string string)
    (s1 s2 sh : string) (n1 n2 nh : Z) :
  well_formed vc d c ->
  c !! "edge1_number_of_uplinks" = Some s1 -> py_int s1 = Some n1 ->
  c !! "edge2_number_of_uplinks" = Some s2 -> py_int s2 = Some n2 ->
  c !! "host_number_of_uplinks" = Some sh -> py_int sh = Some nh ->
  (2 < n1 ->
   nsx_vars vc d c = Exit 2 (uplink_error "edge1_number_of_uplinks" s1))
  /\ (n1 <= 2 -> 2 < n2 ->
      nsx_vars vc d c = Exit 2 (uplink_error "edge2_number_of_uplinks" s2))
  /\ (n1 <= 2 -> n2 <= 2 -> 2 < nh ->
      nsx_vars vc d c = Exit 2 (uplink_error "host_number_of_uplinks" sh))
  /\ (n1 <= 2 -> n2 <= 2 -> nh <= 2 ->
      exists doc, nsx_vars vc d c = Return doc).
Proof.
  intros (Hd & Hc & Hp1 & Hp2 & _ & Hvds) H1 P1 H2 P2 Hh Ph.
  destruct (nsx_vars_reduced vc d c Hd Hc) as (d' & K & Hd' & ->).
  unfold edge_transport_nodes.
  destruct (edge_transport_node_eval d' c Hd' Hc "edge1" s1 n1)
    as [X1 R1]; [auto | done..|].
  destruct (edge_transport_node_eval d' c Hd' Hc "edge2" s2 n2)
    as [X2 R2]; [auto | done..|].
  destruct (transport_node_profiles_eval vc d' c sh nh Hd' Hc Hvds Hh Ph)
    as [Xh Rh].
  split; [| split; [| split]].
  - intros Hgt. by rewrite (X1 Hgt).
  - intros Hle Hgt. destruct (R1 Hle) as [e1 ->]. cbn [bind].
    by rewrite (X2 Hgt).
  - intros Hle1 Hle2 Hgt. destruct (R1 Hle1) as [e1 ->].
    destruct (R2 Hle2) as [e2 ->]. cbn [bind]. by rewrite (Xh Hgt).
  - intros Hle1 Hle2 Hle. destruct (R1 Hle1) as [e1 ->].
    destruct (R2 Hle2) as [e2 ->]. destruct (Rh Hle) as [t ->].
    cbn [bind]. eauto.
Qed.

(** C2, as the code has it: a count above 2 under one of the three keys
    keeps the variables file from being written, and the run ends by
    [sys.exit (2)] or by an uncaught exception; an exit of
    [generate_vars_file] has status 2 and is either the report of a count
    above 2 or the exit of the switch lookup, so counts of at most 2 pass the
    checks; on well-formed files the first count above 2 is reported with
    status 2, and with no such count the file is written. *)
Theorem uplink_checks
    (vc : vcenter) (fs : files) (d c : gmap string string) :
  txt_to_json (defaults_file fs) = Return d ->
  txt_to_json (config_file fs) = Return c ->
  (forall k s n,
     k ∈ uplink_keys -> c !! k = Some s -> py_int s = Some n -> 2 < n ->
     (generate_vars_file vc fs).2 = fs
     /\ ((exists msg, (generate_vars_file vc fs).1 = Exit 2 msg)
         \/ exists e, (generate_vars_file vc fs).1 = Raise e))
  /\ (forall st msg,
        (generate_vars_file vc fs).1 = Exit st msg ->
        (generate_vars_file vc fs).2 = fs
        /\ st = 2
        /\ ((exists k, k ∈ uplink_keys /\ uplink_exit c k st msg)
            \/ exists n h u p, get_vds_uuid vc n h u p = Exit st msg))
  /\ (well_formed vc d c ->
      forall s1 s2 sh n1 n2 nh,
        c !! "edge1_number_of_uplinks" = Some s1 -> py_int s1 = Some n1 ->
        c !! "edge2_number_of_uplinks" = Some s2 -> py_int s2 = Some n2 ->
        c !! "host_number_of_uplinks" = Some sh -> py_int sh = Some nh ->
        (2 < n1 ->
         (generate_vars_file vc fs).1
         = Exit 2 (uplink_error "edge1_number_of_uplinks" s1))
        /\ (n1 <= 2 -> 2 < n2 ->
            (generate_vars_file vc fs).1
            = Exit 2 (uplink_error "edge2_number_of_uplinks" s2))
        /\ (n1 <= 2 -> n2 <= 2 -> 2 < nh ->
            (generate_vars_file vc fs).1
            = Exit 2 (uplink_error "host_number_of_uplinks" sh))
        /\ (n1 <= 2 -> n2 <= 2 -> nh <= 2 ->
            (generate_vars_file vc fs).1 = Return tt
            /\ exists doc, vars_file (generate_vars_file vc fs).2 = Some doc)).
Proof.
  intros Hd Hc. unfold generate_vars_file.
  rewrite (vars_document_nsx_vars vc fs d c Hd Hc).
  assert (forall st msg, nsx_vars vc d c = Exit st msg -> st = 2) as Hst.
  { intros st msg E. destruct (nsx_vars_Exit _ _ _ _ _ E) as [(k & _ & -> & _) | X];
      [done |]. destruct X as (n & h & u & p & X). by apply get_vds_uuid_Exit in X. }
  split; [| split].
  - intros k s n Hk Hs Hn Hgt.
    destruct (nsx_vars vc d c) as [doc|st msg|e] eqn:E; cbn [fst snd].
    + pose proof (nsx_vars_Return_uplinks _ _ _ _ _ _ _ E Hk Hs Hn). lia.
    + rewrite (Hst st msg eq_refl). eauto.
    + eauto.
  - intros st msg.
    destruct (nsx_vars vc d c) as [doc|st' msg'|e] eqn:E; cbn [fst snd];
      [discriminate | | discriminate].
    intros [= -> ->]. split; [done |]. split; [by apply (Hst st msg) |].
    exact (nsx_vars_Exit _ _ _ _ _ E).
  - intros Hwf s1 s2 sh n1 n2 nh H1 P1 H2 P2 Hh Ph.
    destruct (nsx_vars_well_formed vc d c s1 s2 sh n1 n2 nh Hwf H1 P1 H2 P2 Hh Ph)
      as (X1 & X2 & Xh & R).
    split; [| split; [| split]].
    + intros Hgt. by rewrite (X1 Hgt).
    + intros Hle Hgt. by rewrite (X2 Hle Hgt).
    + intros Hle1 Hle2 Hgt. by rewrite (Xh Hle1 Hle2 Hgt).
    + intros Hle1 Hle2 Hle. destruct (R Hle1 Hle2 Hle) as [doc ->].
      cbn [fst snd vars_file]. eauto.
Qed.

Lemma present_check (keys : list string) (m : gmap string string) :
  forallb (fun k => bool_decide (is_Some (m !! k))) keys = true ->
  present keys m.
Proof.
  intros H k Hk. rewrite forallb_forall in H.
  apply list_elem_of_In in Hk. specialize (H k Hk).
  by apply bool_decide_eq_true in H.
Qed.

Lemma is_int_check (m : gmap string string) (k : string) :
  is_Some (m !! k ≫= py_int) -> is_int m k.
Proof.
  intros [n Hn]. destruct (m !! k) as [s|] eqn:Hs; [| discriminate].
  by exists s, n.
Qed.

Lemma sample_three_uplinks_well_formed :
  well_formed sample_vc (parsed reset_defaults)
    (parsed sample_config_three_uplinks).
Proof.
  split; [apply present_check; vm_compute; reflexivity |].
  split; [apply present_check; vm_compute; reflexivity |].
  split; [apply is_int_check; vm_compute; eauto |].
  split; [apply is_int_check; vm_compute; eauto |].
  split.
  - intros k Hk. unfold uplink_keys in Hk.
    repeat (apply elem_of_cons in Hk as [-> | Hk];
            [apply is_int_check; vm_compute; eauto |]).
    by apply elem_of_nil in Hk.
  - intros n h u p Hn _ _ _. vm_compute in Hn. injection Hn as <-.
    eexists. reflexivity.
Qed.

Lemma uplink_checks_witness :
  (generate_vars_file sample_vc (sample_files sample_config_three_uplinks)).1
  = Exit 2 (uplink_error "edge2_number_of_uplinks" "3").
Proof.
  destruct (uplink_checks sample_vc (sample_files sample_config_three_uplinks)
              (parsed reset_defaults) (parsed sample_config_three_uplinks))
    as (_ & _ & H).
  - apply parsed_Return. vm_compute. reflexivity.
  - apply parsed_Return. vm_compute. reflexivity.
  - destruct (H sample_three_uplinks_well_formed "2" "3" "2" 2 3 2)
      as (_ & X & _); [vm_compute; reflexivity.. |].
    apply X; lia.
Defined.

(** C2, as stated, fails: with three uplinks on the second edge and the
    netmask prefix of the first edge left empty, [generate_vars_file] ends
    by an uncaught [ValueError], not by [sys.exit (2)]. *)
Lemma uplink_checks_counterexample :
  parsed sample_config_no_prefix !! "edge2_number_of_uplinks" = Some "3"
  /\ py_int "3" = Some 3
  /\ generate_vars_file sample_vc (sample_files sample_config_no_prefix)
     = (Raise (ValueError ""), sample_files sample_config_no_prefix).
Proof. repeat split; vm_compute; reflexivity. Qed.

(** ** Parsing a flat file *)

Lemma str_split_text (sep : ascii) (s : string) :
  str_split sep s
  = text_before sep s ::
      match text_after sep s with
      | Some r => str_split sep r
      | None => []
      end.
Proof.
  induction s as [|c r IH]; [reflexivity |]. simpl.
  destruct (Ascii.eqb c sep); [reflexivity |]. by rewrite IH.
Qed.

Lemma text_after_contains (sep : ascii) (s : string) :
  contains sep s = match text_after sep s with Some _ => true | None => false end.
Proof.
  induction s as [|c r IH]; simpl; [done |]. by destruct (Ascii.eqb c sep).
Qed.

Lemma txt_to_json_step_spec (m : gmap string string) (ln : string) :
  txt_to_json_step m ln
  = if key_value_line ln
    then if contains equals (strip ln)
         then Return (<[spec_key ln := spec_value ln]> m)
         else Raise IndexError
    else Return m.
Proof.
  unfold txt_to_json_step, key_value_line, spec_key, spec_value.
  destruct (negb (startswith hash (strip ln)) && negb (String.eqb (strip ln) ""));
    [| reflexivity].
  rewrite text_after_contains, str_split_text.
  destruct (text_after equals (strip ln)) as [r|]; simpl.
  - rewrite str_split_text. reflexivity.
  - reflexivity.
Qed.

Lemma well_formed_line_step (m : gmap string string) (ln : string) :
  well_formed_line ln ->
  txt_to_json_step m ln
  = Return (if key_value_line ln then <[spec_key ln := spec_value ln]> m else m).
Proof.
  intros H. rewrite txt_to_json_step_spec. unfold key_value_line in *.
  destruct H as [H | [H | H]]; rewrite H.
  - reflexivity.
  - reflexivity.
  - by destruct (negb _ && negb _).
Qed.

Lemma ill_formed_line_step (m : gmap string string) (ln : string) :
  ~ well_formed_line ln -> txt_to_json_step m ln = Raise IndexError.
Proof.
  intros H. rewrite txt_to_json_step_spec. unfold key_value_line, well_formed_line in *.
  destruct (String.eqb_spec (strip ln) ""); [tauto |].
  destruct (startswith hash (strip ln)); [tauto |].
  destruct (contains equals (strip ln)); [tauto | reflexivity].
Qed.

Lemma txt_to_json_loop_cases (m : gmap string string) (lns : list string) :
  (exists m', txt_to_json_loop m lns = Return m')
  \/ txt_to_json_loop m lns = Raise IndexError.
Proof.
  revert m. induction lns as [|ln lns IH]; intros m; simpl; [eauto |].
  rewrite txt_to_json_step_spec.
  destruct (key_value_line ln); [destruct (contains _ _) |]; cbn [bind]; auto.
Qed.

Lemma txt_to_json_loop_well_formed (m : gmap string string) (lns : list string) :
  Forall well_formed_line lns ->
  txt_to_json_loop m lns = Return (spec_bindings m lns).
Proof.
  intros H. revert m. induction H as [|ln lns Hln _ IH]; intros m; [reflexivity |].
  simpl. rewrite (well_formed_line_step m ln Hln). cbn [bind]. apply IH.
Qed.

Lemma txt_to_json_loop_ill_formed (m : gmap string string) (lns : list string) :
  Exists (fun ln => ~ well_formed_line ln) lns ->
  txt_to_json_loop m lns = Raise IndexError.
Proof.
  intros H. revert m. induction H as [ln lns Hln | ln lns _ IH]; intros m; simpl.
  - by rewrite (ill_formed_line_step m ln Hln).
  - destruct (txt_to_json_step m ln) as [m'| |e] eqn:E; cbn [bind].
    + apply IH.
    + rewrite txt_to_json_step_spec in E.
      destruct (key_value_line ln); [destruct (contains _ _) |]; discriminate.
    + rewrite txt_to_json_step_spec in E.
      destruct (key_value_line ln); [destruct (contains _ _) |]; congruence.
Qed.

(** C10: when every line of the file is empty, a comment or holds an [=]
    once stripped, [txt_to_json] returns, and what it returns is built from
    the key-value lines in order, each binding the stripped text before the
    first [=] to the stripped, quote-stripped text between the first and
    the second [=]; when some line is none of the three, [txt_to_json]
    ends by [IndexError]. *)
Theorem txt_to_json_safe (contents : string) :
  (Forall well_formed_line (readlines contents) ->
   txt_to_json contents = Return (spec_bindings ∅ (readlines contents)))
  /\ (Exists (fun ln => ~ well_formed_line ln) (readlines contents) ->
      txt_to_json contents = Raise IndexError).
Proof.
  split; intros H.
  - by apply txt_to_json_loop_well_formed.
  - by apply txt_to_json_loop_ill_formed.
Qed.

Lemma well_formed_line_check (ln : string) :
  String.eqb (strip ln) "" || startswith hash (strip ln)
  || contains equals (strip ln) = true ->
  well_formed_line ln.
Proof.
  unfold well_formed_line. intros H.
  destruct (String.eqb_spec (strip ln) ""); [auto |].
  destruct (startswith hash (strip ln)); [auto |].
  destruct (contains equals (strip ln)); [auto | discriminate].
Qed.

Lemma well_formed_lines_check (lns : list string) :
  forallb (fun ln => String.eqb (strip ln) "" || startswith hash (strip ln)
                     || contains equals (strip ln)) lns = true ->
  Forall well_formed_line lns.
Proof.
  intros H. rewrite forallb_forall in H. apply Forall_forall.
  intros ln Hln. apply well_formed_line_check, H. by apply list_elem_of_In.
Qed.

Lemma txt_to_json_safe_witness :
  txt_to_json reset_defaults
  = Return (spec_bindings ∅ (readlines reset_defaults))
  /\ txt_to_json "no separator" = Raise IndexError.
Proof.
  split.
  - apply (txt_to_json_safe reset_defaults).
    apply well_formed_lines_check. vm_compute. reflexivity.
  - apply (txt_to_json_safe "no separator").
    apply Exists_cons_hd. intros [H | [H | H]]; vm_compute in H; discriminate.
Defined.

(** ** Strings: appending, stripping *)

Lemma append_nil_l (b : string) : "" +:+ b = b.
Proof. reflexivity. Qed.

Lemma append_cons (x : ascii) (a b : string) :
  String x a +:+ b = String x (a +:+ b).
Proof. reflexivity. Qed.

Lemma append_nil_r (a : string) : a +:+ "" = a.
Proof. induction a as [|x a IH]; [done |]. by rewrite append_cons, IH. Qed.

Lemma append_assoc (a b c : string) : (a +:+ b) +:+ c = a +:+ b +:+ c.
Proof.
  induction a as [|x a IH]; [done |]. by rewrite !append_cons, IH.
Qed.

Lemma contains_append (c : ascii) (a b : string) :
  contains c (a +:+ b) = contains c a || contains c b.
Proof.
  induction a as [|x a IH]; [done |].
  rewrite append_cons. simpl. by rewrite IH, orb_assoc.
Qed.

Lemma lstrip_by_all (p : ascii -> bool) (w r : string) :
  all_chars p w = true -> lstrip_by p (w +:+ r) = lstrip_by p r.
Proof.
  induction w as [|x w IH]; [done |]. rewrite append_cons. simpl.
  intros [Hx Hw]%andb_true_iff. rewrite Hx. auto.
Qed.

Lemma rstrip_by_all (p : ascii -> bool) (w : string) :
  all_chars p w = true -> rstrip_by p w = "".
Proof.
  induction w as [|x w IH]; simpl; [done |].
  intros [Hx Hw]%andb_true_iff. by rewrite (IH Hw), Hx.
Qed.

Lemma rstrip_by_append_all (p : ascii -> bool) (s w : string) :
  all_chars p w = true -> rstrip_by p (s +:+ w) = rstrip_by p s.
Proof.
  intros Hw. induction s as [|x s IH].
  - by apply rstrip_by_all.
  - rewrite append_cons. simpl. by rewrite IH.
Qed.

Lemma rstrip_by_keep (p : ascii -> bool) (s : string) (c : ascii) :
  p c = false -> rstrip_by p (s +:+ String c "") = s +:+ String c "".
Proof.
  intros Hc. induction s as [|x s IH].
  - simpl. by rewrite Hc.
  - rewrite append_cons. cbn [rstrip_by]. rewrite IH. by destruct s.
Qed.

Lemma rstrip_by_none (p : ascii -> bool) (s : string) :
  all_chars (fun c => negb (p c)) s = true -> rstrip_by p s = s.
Proof.
  induction s as [|x s IH]; simpl; [done |].
  intros [Hx Hs]%andb_true_iff. rewrite (IH Hs).
  destruct s; [| done]. by destruct (p x).
Qed.

Lemma rstrip_by_head (p : ascii -> bool) (c : ascii) (r : string) :
  p c = false -> exists r', rstrip_by p (String c r) = String c r'.
Proof.
  intros Hc. simpl. destruct (rstrip_by p r); [rewrite Hc |]; eauto.
Qed.

Lemma lstrip_by_length (p : ascii -> bool) (s : string) :
  lstrip_by p s = s
  \/ (String.length (lstrip_by p s) < String.length s)%nat.
Proof.
  induction s as [|x s IH]; simpl; [auto |].
  destruct (p x); [right | auto]. destruct IH as [-> | IH]; lia.
Qed.

Lemma rstrip_by_length (p : ascii -> bool) (s : string) :
  (String.length (rstrip_by p s) <= String.length s)%nat.
Proof.
  induction s as [|x s IH]; simpl; [lia |].
  destruct (rstrip_by p s); [destruct (p x) |]; simpl in *; lia.
Qed.

Lemma strip_by_fixed (p : ascii -> bool) (s : string) :
  strip_by p s = s -> lstrip_by p s = s /\ rstrip_by p s = s.
Proof.
  unfold strip_by. intros H.
  destruct (lstrip_by_length p s) as [E | Hlt].
  - by rewrite E in H |- *.
  - pose proof (rstrip_by_length p (lstrip_by p s)) as Hle.
    rewrite H in Hle. lia.
Qed.

Lemma lstrip_by_fixed_head (p : ascii -> bool) (s : string) :
  lstrip_by p s = s -> s <> "" -> exists c r, s = String c r /\ p c = false.
Proof.
  destruct s as [|c r]; [done |]. simpl. intros H _.
  destruct (p c) eqn:Hc; [| eauto].
  destruct (lstrip_by_length p r) as [E | Hlt].
  - rewrite E in H. apply (f_equal String.length) in H. simpl in H. lia.
  - rewrite H in Hlt. simpl in Hlt. lia.
Qed.

(** Stripping [p] off text with none of [p] in it, wrapped in [p]. *)
Lemma strip_by_between (p : ascii -> bool) (w1 v w2 : string) :
  all_chars p w1 = true -> all_chars p w2 = true ->
  all_chars (fun c => negb (p c)) v = true ->
  strip_by p (w1 +:+ v +:+ w2) = v.
Proof.
  intros H1 H2 Hv. unfold strip_by. rewrite (lstrip_by_all p w1 _ H1).
  destruct v as [|c r].
  - rewrite append_nil_l, <- (append_nil_r w2).
    by rewrite (lstrip_by_all p w2 "" H2).
  - pose proof Hv as Hv'. simpl in Hv. apply andb_true_iff in Hv as [Hc Hr].
    rewrite append_cons. cbn [lstrip_by]. destruct (p c); [discriminate |].
    rewrite <- append_cons, (rstrip_by_append_all p _ w2 H2).
    by apply rstrip_by_none.
Qed.

Lemma contains_all_chars (c : ascii) (s : string) :
  contains c s = false ->
  all_chars (fun x => negb (Ascii.eqb c x)) s = true.
Proof.
  induction s as [|x s IH]; simpl; [done |].
  intros [Hx Hs]%orb_false_iff. rewrite (IH Hs), andb_true_r.
  rewrite Ascii.eqb_sym. by rewrite Hx.
Qed.

Lemma text_before_append (sep : ascii) (a r : string) :
  contains sep a = false ->
  text_before sep (a +:+ String sep r) = a
  /\ text_after sep (a +:+ String sep r) = Some r.
Proof.
  induction a as [|x a IH].
  - rewrite append_nil_l. simpl. by rewrite Ascii.eqb_refl.
  - rewrite append_cons. simpl. intros [Hx Ha]%orb_false_iff. rewrite Hx.
    destruct (IH Ha) as [-> ->]. done.
Qed.

Lemma text_before_none (sep : ascii) (s : string) :
  contains sep s = false -> text_before sep s = s.
Proof.
  induction s as [|x s IH]; simpl; [done |].
  intros [Hx Hs]%orb_false_iff. by rewrite Hx, (IH Hs).
Qed.

Lemma readlines_line (a r : string) :
  single_line a ->
  readlines (a +:+ String LF r) = (a +:+ String LF "") :: readlines r.
Proof.
  intros [Hlf Hcr]. induction a as [|x a IH]; [reflexivity |].
  simpl in Hlf, Hcr. apply orb_false_iff in Hlf as [Hx1 Hlf].
  apply orb_false_iff in Hcr as [Hx2 Hcr].
  rewrite !append_cons. cbn [readlines].
  rewrite Hx1, Hx2, (IH Hlf Hcr). reflexivity.
Qed.

(** ** Writing a binding and reading it back *)

Lemma key_line_shape (k v : string) :
  k +:+ " = " +:+ quoted v
  = (k +:+ " ") +:+ String equals (" " +:+ quoted v).
Proof. by rewrite append_assoc. Qed.

Lemma quoted_shape (v : string) :
  quoted v = String dquote "" +:+ v +:+ String dquote "".
Proof. reflexivity. Qed.

Lemma key_line_end (k v : string) :
  k +:+ " = " +:+ quoted v
  = (k +:+ " = " +:+ String dquote v) +:+ String dquote "".
Proof.
  unfold quoted. by rewrite !append_assoc, append_cons.
Qed.

Lemma strip_key_line (k v : string) :
  writable_key k ->
  strip (text_line (k +:+ " = " +:+ quoted v)) = k +:+ " = " +:+ quoted v.
Proof.
  intros (Hne & Hstrip & _).
  destruct (strip_by_fixed _ _ Hstrip) as [Hl _].
  destruct (lstrip_by_fixed_head _ _ Hl Hne) as (c & r & -> & Hc).
  unfold strip, strip_by, text_line.
  rewrite !append_cons. cbn [lstrip_by]. rewrite Hc.
  rewrite <- !append_cons, rstrip_by_append_all by reflexivity.
  rewrite key_line_end. by apply rstrip_by_keep.
Qed.

Lemma strip_key (k : string) : writable_key k -> strip (k +:+ " ") = k.
Proof.
  intros (Hne & Hstrip & _).
  destruct (strip_by_fixed _ _ Hstrip) as [Hl Hr].
  destruct (lstrip_by_fixed_head _ _ Hl Hne) as (c & r & E & Hc).
  unfold strip, strip_by. rewrite E at 1.
  rewrite append_cons. cbn [lstrip_by]. rewrite Hc.
  rewrite <- append_cons, <- E, rstrip_by_append_all by reflexivity.
  exact Hr.
Qed.

Lemma strip_value (v : string) :
  writable_value v ->
  strip_char dquote (strip (" " +:+ quoted v)) = v.
Proof.
  intros (_ & _ & Hdq & _).
  assert (strip (" " +:+ quoted v) = quoted v) as ->.
  { unfold strip, strip_by. rewrite lstrip_by_all by reflexivity.
    unfold quoted. cbn [lstrip_by]. change (is_space dquote) with false.
    cbv iota. rewrite <- append_cons. by apply rstrip_by_keep. }
  unfold strip_char. rewrite quoted_shape.
  apply strip_by_between; [reflexivity.. |].
  by apply contains_all_chars.
Qed.

Lemma key_line_step (m : gmap string string) (k v : string) :
  writable_key k -> writable_value v ->
  txt_to_json_step m (text_line (k +:+ " = " +:+ quoted v))
  = Return (<[k := v]> m).
Proof.
  intros Hk Hv. rewrite txt_to_json_step_spec.
  unfold key_value_line, spec_key, spec_value.
  rewrite (strip_key_line k v Hk).
  destruct Hk as (Hne & Hstrip & Hhash & Heq & Hsl).
  destruct Hv as (Hvstrip & Hveq & Hvdq & Hvsl).
  assert (contains equals (k +:+ " ") = false) as Hka
    by (by rewrite contains_append, Heq).
  assert (contains equals (" " +:+ quoted v) = false) as Hva.
  { unfold quoted. rewrite contains_append. cbn [contains].
    by rewrite contains_append, Hveq. }
  rewrite key_line_shape.
  destruct (text_before_append equals (k +:+ " ") (" " +:+ quoted v) Hka)
    as [-> ->].
  rewrite (text_before_none _ _ Hva).
  rewrite strip_key by done. rewrite strip_value by done.
  rewrite contains_append. cbn [contains]. rewrite Ascii.eqb_refl, orb_true_r.
  destruct k as [|c r]; [done |]. rewrite !append_cons.
  simpl in Hhash. cbn [startswith String.eqb]. rewrite Hhash. reflexivity.
Qed.

Lemma strip_head (c : ascii) (r : string) :
  is_space c = false -> exists r', strip (String c r) = String c r'.
Proof.
  intros Hc. unfold strip, strip_by. cbn [lstrip_by]. rewrite Hc.
  by apply rstrip_by_head.
Qed.

Lemma comment_line_step (m : gmap string string) (text : string) :
  txt_to_json_step m (text_line ("# " +:+ text)) = Return m.
Proof.
  rewrite txt_to_json_step_spec. unfold key_value_line, text_line.
  change (("# " +:+ text) +:+ String LF "")
    with (String "#" ((" " +:+ text) +:+ String LF "")).
  destruct (strip_head "#" ((" " +:+ text) +:+ String LF "")) as [r' ->];
    [reflexivity |].
  reflexivity.
Qed.

Lemma blank_line_step (m : gmap string string) :
  txt_to_json_step m (String LF "") = Return m.
Proof. reflexivity. Qed.

Lemma single_line_append (a b : string) :
  single_line a -> single_line b -> single_line (a +:+ b).
Proof.
  intros [A1 A2] [B1 B2]. split; rewrite contains_append.
  - by rewrite A1, B1.
  - by rewrite A2, B2.
Qed.

Lemma single_line_key_line (k v : string) :
  single_line k -> single_line v -> single_line (k +:+ " = " +:+ quoted v).
Proof.
  intros Hk Hv. rewrite quoted_shape.
  repeat apply single_line_append; try done; by split.
Qed.

Lemma readlines_LF (r : string) :
  readlines (String LF r) = String LF "" :: readlines r.
Proof. by apply (readlines_line "" r). Qed.

Lemma readlines_text_line (a r : string) :
  single_line a -> readlines (text_line a +:+ r) = text_line a :: readlines r.
Proof.
  intros Ha. unfold text_line.
  rewrite append_assoc, append_cons, append_nil_l. by apply readlines_line.
Qed.

Lemma writeln_lines (k v comment example rest : string) :
  k <> "" -> single_line k -> single_line v ->
  single_line comment -> single_line example ->
  readlines (writeln k v comment example +:+ rest)
  = String LF "" :: text_line ("# " +:+ comment)
      :: (if String.eqb example "" then []
          else [text_line ("# Example: " +:+ example)])
      ++ text_line (k +:+ " = " +:+ quoted v) :: readlines rest.
Proof.
  intros Hne Hk Hv Hc He. unfold writeln.
  destruct (String.eqb_spec k ""); [done |].
  pose proof (single_line_key_line k v Hk Hv) as Hbody.
  assert (single_line ("# " +:+ comment)) as Hc'
    by (apply single_line_append; [by split | done]).
  assert (single_line ("# Example: " +:+ example)) as He'
    by (apply single_line_append; [by split | done]).
  remember (k +:+ " = " +:+ quoted v) as body.
  remember ("# " +:+ comment) as c1.
  remember ("# Example: " +:+ example) as e1.
  rewrite !append_cons, readlines_LF, !append_assoc.
  rewrite (readlines_text_line c1) by done.
  destruct (String.eqb example "").
  - rewrite append_nil_l, (readlines_text_line body) by done. reflexivity.
  - rewrite (readlines_text_line e1), (readlines_text_line body) by done.
    reflexivity.
Qed.

Lemma writeln_loop (m : gmap string string) (k v comment example rest : string) :
  writable_key k -> writable_value v ->
  single_line comment -> single_line example ->
  txt_to_json_loop m (readlines (writeln k v comment example +:+ rest))
  = txt_to_json_loop (<[k := v]> m) (readlines rest).
Proof.
  intros Hk Hv Hc He.
  rewrite writeln_lines; [| apply Hk | apply Hk | apply Hv | done | done].
  cbn [txt_to_json_loop]. rewrite blank_line_step. cbn [bind].
  rewrite comment_line_step. cbn [bind].
  destruct (String.eqb example ""); cbn [app txt_to_json_loop].
  - by rewrite key_line_step.
  - change ("# Example: " +:+ example) with ("# " +:+ "Example: " +:+ example).
    rewrite comment_line_step. cbn [bind]. by rewrite key_line_step.
Qed.

Lemma write_calls_loop (m : gmap string string)
    (calls : list (string * string * string)) (rest : string) :
  Forall writable_call calls ->
  txt_to_json_loop m (readlines (write_calls calls +:+ rest))
  = txt_to_json_loop
      (foldl (fun m call => <[call.1.1 := call.1.2]> m) m calls)
      (readlines rest).
Proof.
  intros H. revert m.
  induction H as [|[[k v] c] calls (Hk & Hv & Hc) _ IH]; intros m;
    [reflexivity |].
  cbn [write_calls foldl fst snd]. rewrite append_assoc.
  rewrite writeln_loop; [apply IH | done.. | by split].
Qed.

Lemma reset_defaults_calls_writable : Forall writable_call reset_defaults_calls.
Proof.
  unfold reset_defaults_calls.
  repeat (constructor;
          [repeat split; first [reflexivity | discriminate] |]).
  constructor.
Qed.

Lemma reset_defaults_parse :
  txt_to_json reset_defaults
  = Return (foldl (fun m call => <[call.1.1 := call.1.2]> m) ∅
              reset_defaults_calls).
Proof.
  unfold txt_to_json, reset_defaults.
  change (writeln "" "" (text_line "Defaults") "")
    with (String LF (text_line "# Defaults" +:+ text_line "")).
  rewrite append_cons, readlines_LF, append_assoc.
  rewrite (readlines_text_line "# Defaults") by (by split).
  rewrite <- (append_nil_r (write_calls reset_defaults_calls)).
  rewrite (readlines_text_line "") by (by split).
  cbn [txt_to_json_loop]. rewrite blank_line_step. cbn [bind].
  change (text_line "# Defaults") with (text_line ("# " +:+ "Defaults")).
  rewrite comment_line_step. cbn [bind].
  change (text_line "") with (String LF ""). rewrite blank_line_step.
  cbn [bind]. rewrite write_calls_loop by apply reset_defaults_calls_writable.
  reflexivity.
Qed.

(** C7, as the code has it: a key that is not empty, holds no [=] and no
    line break, does not start with [#] and has no white space at its ends,
    written by [writeln] with a value that holds no [=], no double quote and
    no line break and has no white space at its ends, under a comment and an
    example of one line each, is read back by [txt_to_json] as the binding
    of the key to the value; so the file [reset_defaults] writes is read
    back as a dictionary that binds every key written to its value. *)
Theorem writeln_round_trip
    (k v comment example : string) (m : gmap string string) (rest : string) :
  writable_key k -> writable_value v ->
  single_line comment -> single_line example ->
  txt_to_json (writeln k v comment example) = Return {[ k := v ]}
  /\ txt_to_json_loop m (readlines (writeln k v comment example +:+ rest))
     = txt_to_json_loop (<[k := v]> m) (readlines rest)
  /\ exists defaults,
       txt_to_json reset_defaults = Return defaults
       /\ Forall (fun kv => defaults !! kv.1 = Some kv.2)
            reset_defaults_bindings.
Proof.
  intros Hk Hv Hc He. split; [| split].
  - unfold txt_to_json.
    rewrite <- (append_nil_r (writeln k v comment example)).
    rewrite (writeln_loop ∅ k v comment example "" Hk Hv Hc He).
    by rewrite insert_empty.
  - by apply writeln_loop.
  - eexists. split; [apply reset_defaults_parse |].
    apply Forall_forall. intros kv Hkv. revert kv Hkv. apply Forall_forall.
    unfold reset_defaults_bindings, reset_defaults_calls.
    cbn [fmap list_fmap fst snd].
    repeat (constructor; [vm_compute; reflexivity |]). constructor.
Qed.

Lemma writeln_round_trip_witness :
  txt_to_json (writeln "nsx_username" "admin" "NSX Username" "")
  = Return {[ "nsx_username" := "admin" ]}.
Proof.
  apply (writeln_round_trip "nsx_username" "admin" "NSX Username" "" ∅ "").
  - repeat split; first [reflexivity | discriminate].
  - repeat split; reflexivity.
  - split; reflexivity.
  - split; reflexivity.
Defined.

(** C7, as stated, fails: the key [a=b] is not empty and the value [v] has
    no [=], no double quote and no white space at its ends, and the line
    [writeln] writes for them is read back as the binding of [a] to [b]. *)
Lemma writeln_round_trip_counterexample :
  "a=b" <> ""
  /\ contains equals "v" = false /\ contains dquote "v" = false
  /\ strip "v" = "v"
  /\ is_Return (txt_to_json (writeln "a=b" "v" "comment" "")) = true
  /\ parsed (writeln "a=b" "v" "comment" "") !! "a=b" = None
  /\ parsed (writeln "a=b" "v" "comment" "") !! "a" = Some "b".
Proof. repeat split; first [discriminate | vm_compute; reflexivity]. Qed.


(** * Further properties *)

(** ** What [txt_to_json] binds a key to *)

Lemma txt_to_json_loop_Return (m d : gmap string string) (lns : list string) :
  txt_to_json_loop m lns = Return d -> d = spec_bindings m lns.
Proof.
  revert m. induction lns as [|ln lns IH]; intros m H; simpl in H.
  - by injection H as <-.
  - apply bind_Return in H as (m' & E & H). rewrite txt_to_json_step_spec in E.
    rewrite (IH _ H). unfold spec_bindings at 2. cbn [foldl].
    destruct (key_value_line ln); [destruct (contains _ _) |];
      by simplify_eq.
Qed.

Lemma spec_bindings_lookup (m : gmap string string) (lns : list string)
    (k : string) :
  spec_bindings m lns !! k
  = match last_value k lns with
    | Some v => Some v
    | None => m !! k
    end.
Proof.
  revert m. induction lns as [|ln lns IH]; intros m; [reflexivity |].
  unfold spec_bindings. cbn [foldl last_value]. fold (spec_bindings).
  change (foldl _ ?m0 lns) with (spec_bindings m0 lns). rewrite IH.
  destruct (last_value k lns); [reflexivity |].
  destruct (key_value_line ln); cbn [andb]; [| reflexivity].
  destruct (String.eqb_spec (spec_key ln) k) as [<- | Hne].
  - by rewrite lookup_insert_eq.
  - by rewrite lookup_insert_ne.
Qed.

(** X1: the dictionary [txt_to_json] returns binds a key to the value of
    the last key-value line with that key, and binds nothing else. *)
Theorem txt_to_json_lookup (contents : string) (d : gmap string string)
    (k : string) :
  txt_to_json contents = Return d ->
  d !! k = last_value k (readlines contents).
Proof.
  intros H. apply txt_to_json_loop_Return in H as ->.
  rewrite spec_bindings_lookup. by destruct (last_value _ _).
Qed.

Lemma txt_to_json_lookup_witness :
  parsed (sample_config_with [("nsx_manager_cluster", "no")])
    !! "nsx_manager_cluster"
  = last_value "nsx_manager_cluster"
      (readlines (sample_config_with [("nsx_manager_cluster", "no")])).
Proof.
  apply (txt_to_json_lookup
           (sample_config_with [("nsx_manager_cluster", "no")])).
  apply parsed_Return. vm_compute. reflexivity.
Defined.

(** ** Headings and comments *)

Lemma single_line_rule : single_line rule.
Proof. split; reflexivity. Qed.

Lemma rule_line_step (m : gmap string string) :
  txt_to_json_step m (text_line rule) = Return m.
Proof. reflexivity. Qed.

Lemma writeheader_loop (m : gmap string string) (msg rest : string) :
  single_line msg ->
  txt_to_json_loop m (readlines (writeheader msg +:+ rest))
  = txt_to_json_loop m (readlines rest).
Proof.
  intros Hmsg. unfold writeheader.
  assert (single_line ("# " +:+ msg)) as Hc
    by (apply single_line_append; [by split | done]).
  remember ("# " +:+ msg) as c1.
  rewrite !append_cons, readlines_LF, !append_assoc.
  rewrite (readlines_text_line rule) by apply single_line_rule.
  rewrite (readlines_text_line c1) by done.
  rewrite (readlines_text_line rule) by apply single_line_rule.
  cbn [txt_to_json_loop]. rewrite blank_line_step. cbn [bind].
  rewrite rule_line_step. cbn [bind]. subst c1.
  rewrite comment_line_step. cbn [bind]. rewrite rule_line_step. reflexivity.
Qed.

(** X2: a heading written by [writeheader] is read as comments: it binds
    nothing, whatever follows it in the file. *)
Theorem writeheader_binds_nothing
    (m : gmap string string) (msg rest : string) :
  single_line msg ->
  txt_to_json_loop m (readlines (writeheader msg +:+ rest))
  = txt_to_json_loop m (readlines rest).
Proof. apply writeheader_loop. Qed.

Lemma writeheader_binds_nothing_witness :
  txt_to_json_loop ∅ (readlines (writeheader "NSX License key" +:+ ""))
  = txt_to_json_loop ∅ (readlines "").
Proof.
  apply (writeheader_binds_nothing ∅ "NSX License key" "").
  split; reflexivity.
Defined.

Lemma writeln_heading_loop
    (m : gmap string string) (value comment a example rest : string) :
  single_line a -> comment = a \/ comment = text_line a ->
  single_line example ->
  txt_to_json_loop m (readlines (writeln "" value comment example +:+ rest))
  = txt_to_json_loop m (readlines rest).
Proof.
  intros Ha Hcomment He. unfold writeln. cbn [String.eqb].
  assert (single_line ("# " +:+ a)) as Hc
    by (apply single_line_append; [by split | done]).
  assert (single_line ("# Example: " +:+ example)) as He'
    by (apply single_line_append; [by split | done]).
  remember ("# Example: " +:+ example) as e1.
  assert (forall r, txt_to_json_loop m
            (readlines ((if String.eqb example "" then "" else text_line e1) +:+ r))
          = txt_to_json_loop m (readlines r)) as Hex.
  { intros r. destruct (String.eqb example ""); [by rewrite append_nil_l |].
    rewrite (readlines_text_line e1) by done. cbn [txt_to_json_loop]. subst e1.
    change ("# Example: " +:+ example) with ("# " +:+ "Example: " +:+ example).
    by rewrite comment_line_step. }
  destruct Hcomment as [-> | ->].
  - remember ("# " +:+ a) as c1.
    rewrite !append_cons, readlines_LF, !append_assoc, append_nil_l.
    rewrite (readlines_text_line c1) by done.
    cbn [txt_to_json_loop]. rewrite blank_line_step. cbn [bind].
    subst c1. rewrite comment_line_step. cbn [bind]. apply Hex.
  - assert (text_line ("# " +:+ text_line a)
            = text_line ("# " +:+ a) +:+ text_line "") as ->
      by (unfold text_line; by rewrite !append_assoc).
    remember ("# " +:+ a) as c1.
    rewrite !append_cons, readlines_LF, !append_assoc, append_nil_l.
    rewrite (readlines_text_line c1) by done.
    rewrite (readlines_text_line "") by (by split).
    cbn [txt_to_json_loop]. rewrite blank_line_step. cbn [bind].
    subst c1. rewrite comment_line_step. cbn [bind].
    change (text_line "") with (String LF "").
    rewrite blank_line_step. cbn [bind]. apply Hex.
Qed.

(** X3: [writeln] called without a key writes comments only: with a comment
    of one line, with or without a line break at its end, and an example of
    one line, it binds nothing. *)
Theorem writeln_without_key_binds_nothing
    (m : gmap string string) (value comment a example rest : string) :
  single_line a -> comment = a \/ comment = text_line a ->
  single_line example ->
  txt_to_json_loop m (readlines (writeln "" value comment example +:+ rest))
  = txt_to_json_loop m (readlines rest).
Proof. apply writeln_heading_loop. Qed.

Lemma writeln_without_key_binds_nothing_witness :
  txt_to_json_loop ∅
    (readlines (writeln "" "" (text_line "Defaults") "" +:+ ""))
  = txt_to_json_loop ∅ (readlines "").
Proof.
  apply (writeln_without_key_binds_nothing ∅ "" (text_line "Defaults")
           "Defaults" "" "").
  - split; reflexivity.
  - by right.
  - split; reflexivity.
Defined.


(** ** Lines written by hand *)

Lemma contains_all_space (c : ascii) (w : string) :
  is_space c = false -> all_chars is_space w = true -> contains c w = false.
Proof.
  intros Hc. induction w as [|x w IH]; simpl; [done |].
  intros [Hx Hw]%andb_true_iff. rewrite (IH Hw), orb_false_r.
  destruct (Ascii.eqb_spec x c) as [-> | _]; [congruence | done].
Qed.

Lemma rstrip_by_append_fixed (p : ascii -> bool) (a t : string) :
  rstrip_by p t = t -> t <> "" -> rstrip_by p (a +:+ t) = a +:+ t.
Proof.
  intros Ht Hne. induction a as [|x a IH]; [done |].
  rewrite append_cons. cbn [rstrip_by]. rewrite IH.
  destruct a; [| done]. rewrite append_nil_l. by destruct t.
Qed.

Lemma strip_by_wrapped (p : ascii -> bool) (w1 s w2 : string) :
  all_chars p w1 = true -> all_chars p w2 = true ->
  lstrip_by p s = s -> rstrip_by p s = s ->
  strip_by p (w1 +:+ s +:+ w2) = s.
Proof.
  intros H1 H2 Hl Hr. unfold strip_by. rewrite (lstrip_by_all p w1 _ H1).
  destruct s as [|c r].
  - rewrite append_nil_l, <- (append_nil_r w2).
    by rewrite (lstrip_by_all p w2 "" H2).
  - destruct (lstrip_by_fixed_head p (String c r) Hl) as (c' & r' & [= <- <-] & Hc);
      [done |].
    rewrite append_cons. cbn [lstrip_by]. rewrite Hc.
    by rewrite <- append_cons, (rstrip_by_append_all p _ w2 H2).
Qed.

Lemma strip_by_none (p : ascii -> bool) (v : string) :
  all_chars (fun c => negb (p c)) v = true -> strip_by p v = v.
Proof.
  intros Hv. rewrite <- (append_nil_r v) at 1.
  by apply (strip_by_between p "" v "").
Qed.

Lemma lstrip_by_append_head (p : ascii -> bool) (k a : string) :
  lstrip_by p k = k -> k <> "" -> lstrip_by p (k +:+ a) = k +:+ a.
Proof.
  intros Hl Hne. destruct (lstrip_by_fixed_head p k Hl Hne) as (c & r & -> & Hc).
  rewrite append_cons. cbn [lstrip_by]. by rewrite Hc.
Qed.

(** The body of the loop on a line [key = text], with any white space
    around the key and around the text. *)
Lemma assignment_step (m : gmap string string) (k w1 w2 w3 t w4 : string) :
  writable_key k ->
  all_chars is_space w1 = true -> all_chars is_space w2 = true ->
  all_chars is_space w3 = true -> all_chars is_space w4 = true ->
  t <> "" -> strip t = t -> contains equals t = false ->
  txt_to_json_step m (w1 +:+ k +:+ w2 +:+ String equals (w3 +:+ t +:+ w4))
  = Return (<[k := strip_char dquote t]> m).
Proof.
  intros (Hne & Hstrip & Hhash & Heq & _) H1 H2 H3 H4 Htne Ht Hteq.
  destruct (strip_by_fixed _ _ Hstrip) as [Hkl Hkr].
  destruct (strip_by_fixed _ _ Ht) as [Htl Htr].
  assert (contains equals (k +:+ w2) = false) as Hka.
  { rewrite contains_append, Heq. by apply contains_all_space. }
  assert (contains equals (w3 +:+ t) = false) as Hta.
  { rewrite contains_append, Hteq, orb_false_r. by apply contains_all_space. }
  assert (strip (w1 +:+ k +:+ w2 +:+ String equals (w3 +:+ t +:+ w4))
          = (k +:+ w2) +:+ String equals (w3 +:+ t)) as Hline.
  { replace (w1 +:+ k +:+ w2 +:+ String equals (w3 +:+ t +:+ w4))
      with (w1 +:+ ((k +:+ w2) +:+ String equals (w3 +:+ t)) +:+ w4)
      by (by rewrite !append_assoc, !append_cons, !append_assoc).
    apply strip_by_wrapped; [done | done | |].
    - rewrite append_assoc. by apply lstrip_by_append_head.
    - replace ((k +:+ w2) +:+ String equals (w3 +:+ t))
        with (((k +:+ w2) +:+ String equals w3) +:+ t)
        by (by rewrite !append_assoc, !append_cons).
      by apply rstrip_by_append_fixed. }
  rewrite txt_to_json_step_spec. unfold key_value_line, spec_key, spec_value.
  rewrite Hline.
  destruct (text_before_append equals (k +:+ w2) (w3 +:+ t) Hka) as [-> ->].
  rewrite (text_before_none _ _ Hta).
  assert (strip (k +:+ w2) = k) as ->
    by (rewrite <- (append_nil_l (k +:+ w2)); by apply strip_by_wrapped).
  assert (strip (w3 +:+ t) = t) as ->.
  { rewrite <- (append_nil_r t) at 1. by apply strip_by_wrapped. }
  rewrite contains_append. cbn [contains]. rewrite Ascii.eqb_refl, orb_true_r.
  destruct k as [|c r]; [done |]. rewrite !append_cons.
  simpl in Hhash. cbn [startswith String.eqb]. rewrite Hhash. reflexivity.
Qed.

Lemma strip_quoted (v : string) : strip (quoted v) = quoted v.
Proof.
  unfold strip, strip_by, quoted. cbn [lstrip_by].
  change (is_space dquote) with false. cbv iota.
  rewrite <- append_cons. by apply rstrip_by_keep.
Qed.

Lemma strip_char_quoted (v : string) :
  contains dquote v = false -> strip_char dquote (quoted v) = v.
Proof.
  intros Hv. unfold strip_char. rewrite quoted_shape.
  apply strip_by_between; [reflexivity.. |]. by apply contains_all_chars.
Qed.

Lemma quoted_assignment_step
    (m : gmap string string) (k v w1 w2 w3 w4 : string) :
  writable_key k ->
  all_chars is_space w1 = true -> all_chars is_space w2 = true ->
  all_chars is_space w3 = true -> all_chars is_space w4 = true ->
  contains equals v = false -> contains dquote v = false ->
  txt_to_json_step m
    (w1 +:+ k +:+ w2 +:+ String equals (w3 +:+ quoted v +:+ w4))
  = Return (<[k := v]> m).
Proof.
  intros Hk H1 H2 H3 H4 Heq Hdq.
  rewrite (assignment_step m k w1 w2 w3 (quoted v) w4); try done.
  - by rewrite strip_char_quoted.
  - apply strip_quoted.
  - rewrite quoted_shape, !contains_append, Heq. reflexivity.
Qed.

(** X4: a line written by hand is read like one written by [writeln]:
    white space around the key, around the [=] and at the end of the line
    does not count and the quotes around the value are optional; between
    quotes the value keeps its own white space. *)
Theorem hand_written_line
    (m : gmap string string) (k v w1 w2 w3 w4 : string) :
  writable_key k ->
  all_chars is_space w1 = true -> all_chars is_space w2 = true ->
  all_chars is_space w3 = true -> all_chars is_space w4 = true ->
  contains equals v = false -> contains dquote v = false ->
  txt_to_json_step m
    (w1 +:+ k +:+ w2 +:+ String equals (w3 +:+ quoted v +:+ w4))
  = Return (<[k := v]> m)
  /\ (v <> "" -> strip v = v ->
      txt_to_json_step m (w1 +:+ k +:+ w2 +:+ String equals (w3 +:+ v +:+ w4))
      = Return (<[k := v]> m)).
Proof.
  intros Hk H1 H2 H3 H4 Heq Hdq. split.
  - by apply quoted_assignment_step.
  - intros Hne Hstrip.
    rewrite (assignment_step m k w1 w2 w3 v w4); try done.
    unfold strip_char. rewrite strip_by_none; [done |].
    by apply contains_all_chars.
Qed.

Lemma hand_written_line_witness :
  txt_to_json_step ∅ "  domain=mylab.net " = Return {[ "domain" := "mylab.net" ]}.
Proof.
  destruct (hand_written_line ∅ "domain" "mylab.net" "  " "" "" " ") as [_ H];
    [ repeat split; first [reflexivity | discriminate]
    | reflexivity | reflexivity | reflexivity | reflexivity
    | reflexivity | reflexivity | ].
  rewrite <- insert_empty. apply H; [discriminate | reflexivity].
Defined.

(** ** Values with white space or an equals sign *)

Lemma text_line_shape (k t : string) :
  text_line (k +:+ " = " +:+ t)
  = "" +:+ k +:+ " " +:+ String equals (" " +:+ t +:+ String LF "").
Proof. unfold text_line. by rewrite append_nil_l, !append_assoc. Qed.

Lemma writeln_quoted_loop
    (m : gmap string string) (k v comment example rest : string) :
  writable_key k ->
  contains equals v = false -> contains dquote v = false -> single_line v ->
  single_line comment -> single_line example ->
  txt_to_json_loop m (readlines (writeln k v comment example +:+ rest))
  = txt_to_json_loop (<[k := v]> m) (readlines rest).
Proof.
  intros Hk Heq Hdq Hv Hc He.
  rewrite writeln_lines; [| apply Hk | apply Hk | done..].
  cbn [txt_to_json_loop]. rewrite blank_line_step. cbn [bind].
  rewrite comment_line_step. cbn [bind].
  assert (forall m0, txt_to_json_step m0 (text_line (k +:+ " = " +:+ quoted v))
                     = Return (<[k := v]> m0)) as Hstep.
  { intros m0. rewrite text_line_shape.
    by apply (quoted_assignment_step m0 k v "" " " " " (String LF "")). }
  destruct (String.eqb example ""); cbn [app txt_to_json_loop].
  - by rewrite Hstep.
  - change ("# Example: " +:+ example) with ("# " +:+ "Example: " +:+ example).
    rewrite comment_line_step. cbn [bind]. by rewrite Hstep.
Qed.

(** X5: the quotes [writeln] puts around a value protect its white space:
    a value with no [=], no double quote and no line break is read back as
    it is, leading and trailing white space included. *)
Theorem writeln_keeps_white_space
    (m : gmap string string) (k v comment example rest : string) :
  writable_key k ->
  contains equals v = false -> contains dquote v = false -> single_line v ->
  single_line comment -> single_line example ->
  txt_to_json_loop m (readlines (writeln k v comment example +:+ rest))
  = txt_to_json_loop (<[k := v]> m) (readlines rest)
  /\ txt_to_json (writeln k v comment example) = Return {[ k := v ]}.
Proof.
  intros Hk Heq Hdq Hv Hc He.
  split; [by apply writeln_quoted_loop |]. unfold txt_to_json.
  rewrite <- (append_nil_r (writeln k v comment example)).
  rewrite writeln_quoted_loop by done. by rewrite insert_empty.
Qed.

Lemma writeln_keeps_white_space_witness :
  txt_to_json (writeln "domain" "  my lab  " "Domain name" "mylab.net")
  = Return {[ "domain" := "  my lab  " ]}.
Proof.
  apply (writeln_keeps_white_space ∅ "domain" "  my lab  " "Domain name"
           "mylab.net" "").
  - repeat split; first [reflexivity | discriminate].
  - reflexivity.
  - reflexivity.
  - split; reflexivity.
  - split; reflexivity.
  - split; reflexivity.
Defined.

Lemma rstrip_by_cons (p : ascii -> bool) (c : ascii) (r : string) :
  p c = false -> rstrip_by p (String c r) = String c (rstrip_by p r).
Proof. intros Hc. simpl. destruct (rstrip_by p r); by rewrite ?Hc. Qed.

Lemma cut_value_step (m : gmap string string) (k v1 v2 : string) :
  writable_key k ->
  contains equals v1 = false -> contains dquote v1 = false ->
  rstrip_by is_space v1 = v1 ->
  txt_to_json_step m
    (text_line (k +:+ " = " +:+ quoted (v1 +:+ String equals v2)))
  = Return (<[k := v1]> m).
Proof.
  intros Hk Heq1 Hdq1 Hr1. rewrite txt_to_json_step_spec.
  unfold key_value_line, spec_key, spec_value.
  rewrite (strip_key_line k _ Hk).
  pose proof (strip_key k Hk) as Hkey.
  destruct Hk as (Hne & Hstrip & Hhash & Heq & Hsl).
  assert (contains equals (k +:+ " ") = false) as Hka
    by (by rewrite contains_append, Heq).
  rewrite key_line_shape.
  destruct (text_before_append equals (k +:+ " ")
              (" " +:+ quoted (v1 +:+ String equals v2)) Hka) as [-> ->].
  replace (" " +:+ quoted (v1 +:+ String equals v2))
    with ((" " +:+ String dquote v1) +:+ String equals (v2 +:+ String dquote ""))
    by (unfold quoted;
        repeat rewrite ?append_assoc, ?append_cons, ?append_nil_l; reflexivity).
  assert (contains equals (" " +:+ String dquote v1) = false) as Hva
    by (rewrite contains_append; cbn [contains]; by rewrite Heq1).
  destruct (text_before_append equals (" " +:+ String dquote v1)
              (v2 +:+ String dquote "") Hva) as [-> _].
  rewrite Hkey.
  assert (strip (" " +:+ String dquote v1) = String dquote v1) as ->.
  { rewrite <- (append_nil_r (String dquote v1)) at 1.
    apply strip_by_wrapped; [reflexivity | reflexivity | reflexivity |].
    by rewrite rstrip_by_cons, Hr1. }
  assert (strip_char dquote (String dquote v1) = v1) as ->.
  { unfold strip_char.
    replace (String dquote v1) with (String dquote "" +:+ v1 +:+ "")
      by (by rewrite append_cons, append_nil_l, append_nil_r).
    apply strip_by_between; [reflexivity | reflexivity |].
    by apply contains_all_chars. }
  rewrite contains_append. cbn [contains]. rewrite Ascii.eqb_refl, orb_true_r.
  destruct k as [|c r]; [done |]. rewrite !append_cons.
  simpl in Hhash. cbn [startswith String.eqb]. rewrite Hhash. reflexivity.
Qed.

(** X6: a value is cut at its first [=]: written by [writeln] with an [=]
    in it, it is read back as the text before that [=], and the rest of the
    value is lost without an error. *)
Theorem value_cut_at_equals
    (k v1 v2 comment example : string) :
  writable_key k ->
  contains equals v1 = false -> contains dquote v1 = false ->
  rstrip_by is_space v1 = v1 -> single_line v1 -> single_line v2 ->
  single_line comment -> single_line example ->
  txt_to_json (writeln k (v1 +:+ String equals v2) comment example)
  = Return {[ k := v1 ]}.
Proof.
  intros Hk Heq Hdq Hr Hv1 Hv2 Hc He. unfold txt_to_json.
  assert (single_line (v1 +:+ String equals v2)) as Hv.
  { apply single_line_append; [done |]. destruct Hv2 as [A B].
    split; cbn [contains]; [by rewrite A | by rewrite B]. }
  rewrite <- (append_nil_r (writeln _ _ _ _)).
  rewrite writeln_lines; [| apply Hk | apply Hk | done..].
  cbn [txt_to_json_loop]. rewrite blank_line_step. cbn [bind].
  rewrite comment_line_step. cbn [bind].
  destruct (String.eqb example ""); cbn [app txt_to_json_loop].
  - rewrite cut_value_step by done. cbn [bind readlines txt_to_json_loop].
    by rewrite insert_empty.
  - change ("# Example: " +:+ example) with ("# " +:+ "Example: " +:+ example).
    rewrite comment_line_step. cbn [bind]. rewrite cut_value_step by done.
    cbn [bind readlines txt_to_json_loop]. by rewrite insert_empty.
Qed.

Lemma value_cut_at_equals_witness :
  txt_to_json (writeln "nsx_password" "abc=def!" "Password" "")
  = Return {[ "nsx_password" := "abc" ]}.
Proof.
  apply (value_cut_at_equals "nsx_password" "abc" "def!" "Password" "").
  - repeat split; first [reflexivity | discriminate].
  - reflexivity.
  - reflexivity.
  - reflexivity.
  - split; reflexivity.
  - split; reflexivity.
  - split; reflexivity.
  - split; reflexivity.
Defined.

(** ** The switch lookup *)

Lemma get_obj_Some (view : list dvswitch) (name : string) (sw : dvswitch) :
  get_obj view name = Some sw <->
  exists before after,
    view = before ++ sw :: after
    /\ Forall (fun c => dvs_name c <> name) before
    /\ dvs_name sw = name.
Proof.
  induction view as [|c rest IH]; simpl.
  - split; [discriminate |]. intros (b & a & E & _). by destruct b.
  - destruct (String.eqb_spec (dvs_name c) name) as [Heq|Hne].
    + split.
      * intros [= <-]. exists [], rest. by repeat split.
      * intros (b & a & E & Hb & Hn). destruct b as [|c' b]; simpl in E.
        -- congruence.
        -- injection E as <- _. by inversion Hb.
    + rewrite IH. split.
      * intros (b & a & -> & Hb & Hn). exists (c :: b), a.
        split; [done |]. split; [by constructor | done].
      * intros (b & a & E & Hb & Hn). destruct b as [|c' b]; simpl in E.
        -- injection E as -> _. done.
        -- injection E as <- ->. inversion Hb; subst. eauto.
Qed.

Lemma get_obj_None (view : list dvswitch) (name : string) :
  get_obj view name = None <-> Forall (fun c => dvs_name c <> name) view.
Proof.
  induction view as [|c rest IH]; simpl; [by split |].
  destruct (String.eqb_spec (dvs_name c) name) as [Heq|Hne].
  - split; [discriminate |]. intros H. by inversion H.
  - rewrite IH. split; [by constructor | intros H; by inversion H].
Qed.

(** X7: [get_vds_uuid] returns exactly when the connection gives a view
    holding a switch of that name, and then it returns the uuid of the first
    such switch of the view; when it ends the program the status is 2, and
    either the connection failed with a method fault or no switch of the
    view has the name. *)
Theorem get_vds_uuid_first_match (vc : vcenter) (name host user pwd : string) :
  (forall uuid,
     get_vds_uuid vc name host user pwd = Return uuid <->
     exists before sw after,
       vc host user pwd = Connected (before ++ sw :: after)
       /\ Forall (fun c => dvs_name c <> name) before
       /\ dvs_name sw = name /\ dvs_uuid sw = uuid)
  /\ (forall st msg,
        get_vds_uuid vc name host user pwd = Exit st msg ->
        st = 2
        /\ ((exists fault, vc host user pwd = MethodFault fault)
            \/ exists view, vc host user pwd = Connected view
                 /\ Forall (fun c => dvs_name c <> name) view)).
Proof.
  unfold get_vds_uuid. split.
  - intros uuid. destruct (vc host user pwd) as [fault| |view].
    + split; [discriminate | intros (? & ? & ? & ? & _); discriminate].
    + split; [discriminate | intros (? & ? & ? & ? & _); discriminate].
    + destruct (get_obj view name) as [sw|] eqn:E.
      * apply get_obj_Some in E as (b & a & -> & Hb & Hn). split.
        -- intros [= <-]. by exists b, sw, a.
        -- intros (b' & sw' & a' & [= E'] & Hb' & Hn' & <-). f_equal.
           assert (get_obj (b ++ sw :: a) name = Some sw) as E1
             by (apply get_obj_Some; eauto).
           assert (get_obj (b ++ sw :: a) name = Some sw') as E2
             by (rewrite E'; apply get_obj_Some; eauto).
           congruence.
      * split; [discriminate |].
        intros (b' & sw' & a' & [= ->] & Hb' & Hn' & _).
        assert (get_obj (b' ++ sw' :: a') name = Some sw') as E2
          by (apply get_obj_Some; eauto).
        congruence.
  - intros st msg. destruct (vc host user pwd) as [fault| |view].
    + intros [= <- _]. split; [done |]. left. eauto.
    + discriminate.
    + destruct (get_obj view name) as [sw|] eqn:E; [discriminate |].
      intros [= <- _]. split; [done |]. right. exists view.
      split; [done |]. by apply get_obj_None.
Qed.

Lemma get_vds_uuid_first_match_witness :
  get_vds_uuid sample_vc' "vds1" "vcenter.mylab.net"
    "administrator@vsphere.local" "myPassword1!"
  = Return "50 2f 01 7c".
Proof.
  apply (get_vds_uuid_first_match sample_vc' "vds1" "vcenter.mylab.net"
           "administrator@vsphere.local" "myPassword1!").
  exists [], {| dvs_name := "vds1"; dvs_uuid := "50 2f 01 7c" |},
    [ {| dvs_name := "vds1"; dvs_uuid := "50 2f 01 7d" |} ].
  split; [reflexivity |]. split; [constructor |]. split; reflexivity.
Defined.

(** ** [install_nsx] *)

Lemma call_ansible_no_answer (os_system : shell) (contents : string) (e : exn)
    (trace : list string) :
  (forall h cmd, os_system h cmd = 0) ->
  bind (txt_to_json contents) cluster_requested = Raise e ->
  call_ansible_to_install os_system contents trace
  = (Raise e, trace ++ commands (take 3 playbooks)).
Proof.
  intros Hok He. unfold call_ansible_to_install, seq_run, run_playbook, pure_run.
  do 3 (rewrite Hok; cbn [Z.eqb negb]).
  destruct (txt_to_json contents) as [c| |]; cbn [bind] in He.
  - rewrite He. by rewrite <- !app_assoc.
  - discriminate.
  - injection He as ->. by rewrite <- !app_assoc.
Qed.

(** X8: the answer under [nsx_manager_cluster] is read after the third
    playbook.  With a config file that has all it takes to generate the
    variables file but does not bind [nsx_manager_cluster], [install_nsx]
    writes the variables file, runs the first three playbooks and then stops
    on a [KeyError]. *)
Theorem cluster_answer_read_late
    (os_system : shell) (vc : vcenter) (fs : files) (doc : json)
    (c : gmap string string) (trace : list string) :
  (forall h cmd, os_system h cmd = 0) ->
  vars_document vc fs = Return doc ->
  txt_to_json (config_file fs) = Return c ->
  c !! "nsx_manager_cluster" = None ->
  install_nsx os_system vc fs trace
  = ((Raise (KeyError "nsx_manager_cluster"),
      {| defaults_file := defaults_file fs;
         config_file := config_file fs;
         vars_file := Some doc |}),
     trace ++ commands (take 3 playbooks)).
Proof.
  intros Hok Hdoc Hc Hk. unfold install_nsx.
  rewrite (generate_vars_file_writes vc fs doc Hdoc). cbn [config_file].
  rewrite (call_ansible_no_answer os_system (config_file fs)
             (KeyError "nsx_manager_cluster") trace Hok); [reflexivity |].
  rewrite Hc. cbn [bind]. unfold cluster_requested, getitem. by rewrite Hk.
Qed.

Lemma cluster_answer_read_late_witness :
  install_nsx shell_ok sample_vc
    (sample_files
       (config_text
          (filter (fun b => b.1 <> "nsx_manager_cluster") sample_bindings))) []
  = ((Raise (KeyError "nsx_manager_cluster"),
      {| defaults_file := reset_defaults;
         config_file :=
           config_text
             (filter (fun b => b.1 <> "nsx_manager_cluster") sample_bindings);
         vars_file := Some sample_doc |}),
     [] ++ commands (take 3 playbooks)).
Proof.
  apply (cluster_answer_read_late shell_ok sample_vc
           (sample_files
              (config_text
                 (filter (fun b => b.1 <> "nsx_manager_cluster")
                    sample_bindings)))
           sample_doc
           (parsed
              (config_text
                 (filter (fun b => b.1 <> "nsx_manager_cluster")
                    sample_bindings)))
           []).
  - reflexivity.
  - vm_compute. reflexivity.
  - apply parsed_Return. vm_compute. reflexivity.
  - vm_compute. reflexivity.
Defined.

Lemma plan_prefix_3 (b : bool) :
  commands (take 3 playbooks) `prefix_of` commands (plan b).
Proof.
  destruct b.
  - exists (commands (drop 3 playbooks)). vm_compute. reflexivity.
  - exists (commands (drop 4 playbooks)). vm_compute. reflexivity.
Qed.

Lemma call_ansible_prefix (os_system : shell) (contents : string)
    (trace : list string) :
  exists b ran,
    (call_ansible_to_install os_system contents trace).2 = trace ++ ran
    /\ ran `prefix_of` commands (plan b).
Proof.
  destruct (bind (txt_to_json contents) cluster_requested) as [b|st msg|e] eqn:E.
  - apply bind_Return in E as (c & Hc & Hb).
    destruct (c !! "nsx_manager_cluster") as [a|] eqn:Ha.
    + exists (cluster_answer a).
      rewrite (call_ansible_run_all os_system contents c a trace Hc Ha).
      apply run_all_prefix.
    + unfold cluster_requested, getitem in Hb. rewrite Ha in Hb. discriminate.
  - exfalso. destruct (txt_to_json_loop_cases ∅ (readlines contents))
      as [[m Hm] | Hm]; unfold txt_to_json in E; rewrite Hm in E;
      cbn [bind] in E; [| discriminate].
    unfold cluster_requested, getitem in E.
    destruct (m !! "nsx_manager_cluster"); cbn [bind] in E; [| discriminate].
    destruct (String.eqb _ _); discriminate.
  - exists true.
    unfold call_ansible_to_install, seq_run, run_playbook, pure_run.
    destruct (os_system trace _ =? 0); cbn [negb fst snd];
      [| eexists; split; [reflexivity | eexists; vm_compute; reflexivity]].
    destruct (os_system (trace ++ _) _ =? 0); cbn [negb fst snd];
      [| eexists; split; [by rewrite <- !app_assoc
                         | eexists; vm_compute; reflexivity]].
    destruct (os_system ((trace ++ _) ++ _) _ =? 0); cbn [negb fst snd];
      [| eexists; split; [by rewrite <- !app_assoc
                         | eexists; vm_compute; reflexivity]].
    exists (commands (take 3 playbooks)).
    split; [| apply plan_prefix_3].
    destruct (txt_to_json contents) as [c| |]; cbn [bind] in E.
    + rewrite E. by rewrite <- !app_assoc.
    + discriminate.
    + by rewrite <- !app_assoc.
Qed.

(** X9: what [install_nsx] runs is an initial part of the playbook sequence,
    and it runs nothing unless the variables file was generated: when a
    command was run, the variables file holds the generated document, and
    when the generation did not return, no command is run and the files are
    left as they were. *)
Theorem install_nsx_commands
    (os_system : shell) (vc : vcenter) (fs : files) (trace : list string) :
  exists b ran,
    (install_nsx os_system vc fs trace).2 = trace ++ ran
    /\ ran `prefix_of` commands (plan b)
    /\ (ran <> [] ->
        exists doc,
          vars_document vc fs = Return doc
          /\ vars_file (install_nsx os_system vc fs trace).1.2 = Some doc)
    /\ (is_Return (vars_document vc fs) = false ->
        ran = []
        /\ (install_nsx os_system vc fs trace).1.2 = fs
        /\ (install_nsx os_system vc fs trace).1.1
           = (generate_vars_file vc fs).1).
Proof.
  unfold install_nsx, generate_vars_file.
  destruct (vars_document vc fs) as [doc|st msg|e]; cbn [fst snd config_file].
  - destruct (call_ansible_prefix os_system (config_file fs) trace)
      as (b & ran & E & P).
    exists b, ran. split; [done |]. split; [done |].
    split; [eauto | discriminate].
  - exists true, []. split; [by rewrite app_nil_r |].
    split; [apply prefix_nil |]. split; [done | by intros _].
  - exists true, []. split; [by rewrite app_nil_r |].
    split; [apply prefix_nil |]. split; [done | by intros _].
Qed.

Lemma install_nsx_commands_witness :
  exists b ran,
    (install_nsx shell_fail_02 sample_vc (sample_files sample_config) []).2
    = [] ++ ran
    /\ ran `prefix_of` commands (plan b).
Proof.
  destruct (install_nsx_commands shell_fail_02 sample_vc
              (sample_files sample_config) []) as (b & ran & E & P & _).
  exists b, ran. split; [exact E | exact P].
Defined.

(** ** The playbook sequence *)

Lemma call_ansible_no_answer_prefix (os_system : shell) (contents : string)
    (e : exn) (trace : list string) :
  bind (txt_to_json contents) cluster_requested = Raise e ->
  exists ran,
    (call_ansible_to_install os_system contents trace).2 = trace ++ ran
    /\ ran `prefix_of` commands (take 3 playbooks).
Proof.
  intros E.
  unfold call_ansible_to_install, seq_run, run_playbook, pure_run.
  destruct (os_system trace _ =? 0); cbn [negb fst snd];
    [| eexists; split; [reflexivity | eexists; vm_compute; reflexivity]].
  destruct (os_system (trace ++ _) _ =? 0); cbn [negb fst snd];
    [| eexists; split; [by rewrite <- !app_assoc
                       | eexists; vm_compute; reflexivity]].
  destruct (os_system ((trace ++ _) ++ _) _ =? 0); cbn [negb fst snd];
    [| eexists; split; [by rewrite <- !app_assoc
                       | eexists; vm_compute; reflexivity]].
  exists (commands (take 3 playbooks)). split; [| done].
  destruct (txt_to_json contents) as [c| |]; cbn [bind] in E.
  - rewrite E. by rewrite <- !app_assoc.
  - discriminate.
  - by rewrite <- !app_assoc.
Qed.

Lemma cluster_answer_spec (a : string) :
  cluster_answer a = true <-> lower a = "yes" \/ lower a = "y".
Proof.
  unfold cluster_answer. rewrite orb_true_iff.
  split; (intros [H | H]; [left | right]); by apply String.eqb_eq.
Qed.

(** C3, as the code has it.  The playbooks are started in the fixed order
    01 to 12, none twice and none before the one before it, the fourth
    being part of the sequence exactly when [nsx_manager_cluster] reads yes
    or y in any letter case.  [install_nsx] starts none when the variables
    file is not generated, and otherwise does what
    [call_ansible_to_install] does.  What [call_ansible_to_install] runs
    is an initial part of the sequence, whatever the config file holds.
    When the config file binds [nsx_manager_cluster], it is an initial part
    of the sequence the answer selects and all of it when every playbook
    returns zero.  When the config file cannot be parsed or does not bind
    [nsx_manager_cluster], it is an initial part of the first three
    playbooks, and when these return zero the run stops after them on the
    exception of the parse or the [KeyError] of the lookup. *)
Theorem playbook_sequence
    (os_system : shell) (vc : vcenter) (fs : files) (trace0 : list string) :
  (forall b,
     NoDup (commands (plan b))
     /\ (playbook_cmd "04_deploy_second_third_node.yml" 300
           ∈ commands (plan b) <-> b = true))
  /\ (forall a, cluster_answer a = true <-> lower a = "yes" \/ lower a = "y")
  /\ (exists b ran,
        (call_ansible_to_install os_system (config_file fs) trace0).2
        = trace0 ++ ran
        /\ ran `prefix_of` commands (plan b))
  /\ (forall config a,
        txt_to_json (config_file fs) = Return config ->
        config !! "nsx_manager_cluster" = Some a ->
        (exists ran,
           (call_ansible_to_install os_system (config_file fs) trace0).2
           = trace0 ++ ran
           /\ ran `prefix_of` commands (plan (cluster_answer a)))
        /\ ((forall h cmd, os_system h cmd = 0) ->
            call_ansible_to_install os_system (config_file fs) trace0
            = (Return tt, trace0 ++ commands (plan (cluster_answer a)))))
  /\ (forall e,
        txt_to_json (config_file fs) = Raise e
        \/ (e = KeyError "nsx_manager_cluster"
            /\ exists config,
                 txt_to_json (config_file fs) = Return config
                 /\ config !! "nsx_manager_cluster" = None) ->
        (exists ran,
           (call_ansible_to_install os_system (config_file fs) trace0).2
           = trace0 ++ ran
           /\ ran `prefix_of` commands (take 3 playbooks))
        /\ ((forall h cmd, os_system h cmd = 0) ->
            call_ansible_to_install os_system (config_file fs) trace0
            = (Raise e, trace0 ++ commands (take 3 playbooks))))
  /\ (forall doc,
        vars_document vc fs = Return doc ->
        install_nsx os_system vc fs trace0
        = (((call_ansible_to_install os_system (config_file fs) trace0).1,
            {| defaults_file := defaults_file fs;
               config_file := config_file fs;
               vars_file := Some doc |}),
           (call_ansible_to_install os_system (config_file fs) trace0).2))
  /\ (is_Return (vars_document vc fs) = false ->
      install_nsx os_system vc fs trace0
      = (((generate_vars_file vc fs).1, fs), trace0)).
Proof.
  split.
  { intros b. split.
    - destruct b; apply (bool_decide_unpack _); vm_compute; exact I.
    - destruct b; split; intros H; try done.
      + apply (bool_decide_unpack _); vm_compute; exact I.
      + revert H. apply (bool_decide_unpack _). vm_compute. exact I. }
  split; [exact cluster_answer_spec |].
  split; [apply call_ansible_prefix |].
  split.
  { intros config a Hp Ha.
    rewrite (call_ansible_run_all os_system (config_file fs) config a trace0
               Hp Ha).
    split; [apply run_all_prefix | apply run_all_ok]. }
  split.
  { intros e He.
    assert (bind (txt_to_json (config_file fs)) cluster_requested = Raise e)
      as E.
    { destruct He as [-> | (-> & config & -> & Hk)]; [reflexivity |].
      cbn [bind]. unfold cluster_requested, getitem. by rewrite Hk. }
    split.
    - by apply (call_ansible_no_answer_prefix os_system (config_file fs) e).
    - intros Hok. by apply call_ansible_no_answer. }
  split.
  { intros doc Hdoc. unfold install_nsx.
    by rewrite (generate_vars_file_writes vc fs doc Hdoc). }
  intros Hfail. unfold install_nsx, generate_vars_file.
  by destruct (vars_document vc fs).
Qed.

Lemma playbook_sequence_witness :
  call_ansible_to_install shell_ok sample_config []
  = (Return tt, commands playbooks).
Proof.
  destruct (playbook_sequence shell_ok sample_vc (sample_files sample_config)
              []) as (_ & _ & _ & H & _).
  destruct (H (parsed sample_config) "yes") as [_ Hall].
  - apply parsed_Return. vm_compute. reflexivity.
  - vm_compute. reflexivity.
  - apply Hall. reflexivity.
Defined.

(** C3, as stated, fails: with [nsx_manager_cluster] set to no and every
    playbook returning zero, eleven playbooks are run and the fourth is
    not. *)
Lemma playbook_sequence_counterexample :
  call_ansible_to_install shell_ok
    (sample_config_with [("nsx_manager_cluster", "no")]) []
  = (Return tt, commands (plan false))
  /\ (playbook_cmd "04_deploy_second_third_node.yml" 300 ∉ commands (plan false))
  /\ commands (plan false) <> commands playbooks.
Proof.
  split; [vm_compute; reflexivity |]. split.
  - apply (bool_decide_unpack _). vm_compute. exact I.
  - vm_compute. discriminate.
Qed.

(** ** The sections of the document *)

(** X10: every generated document has the same 26 top-level keys, in the
    same order and none twice, whatever the two files hold. *)
Theorem vars_document_keys (vc : vcenter) (fs : files) (doc : json) :
  vars_document vc fs = Return doc ->
  jkeys doc
  = [ "state"; "nsx_username"; "nsx_password"; "validate_certs";
      "nsx_ova_path"; "nsx_ova"; "domain"; "netmask"; "gateway";
      "dns_server"; "ntp_server"; "nsx_vcenter_fqdn";
      "nsx_vcenter_username"; "nsx_vcenter_password";
      "nsx_node1"; "additional_nodes"; "compute_managers"; "nsxt_licenses";
      "transport_zones"; "ip_pools"; "edge_transport_nodes"; "edge_clusters";
      "tier0_gateways"; "host_switch_profiles"; "transport_node_profiles";
      "transport_node_collections" ]
  /\ NoDup (jkeys doc).
Proof.
  intros H. unfold vars_document in H.
  apply bind_Return in H as (d & _ & H).
  apply bind_Return in H as (c & _ & H).
  unfold nsx_vars in H. inv_bind H. injection H as <-.
  match goal with E : top_level_vars _ _ = Return _ |- _ =>
    apply top_level_vars_keys in E; rename E into Hkeys end.
  cbn [jkeys]. rewrite fmap_app, Hkeys. split; [reflexivity |].
  apply (bool_decide_unpack _). vm_compute. exact I.
Qed.

Lemma vars_document_keys_witness :
  length (jkeys sample_doc) = 26%nat /\ NoDup (jkeys sample_doc).
Proof.
  destruct (vars_document_keys sample_vc (sample_files sample_config)
              sample_doc sample_doc_generated) as [-> H].
  split; [reflexivity | exact H].
Defined.

(** ** The names of the vCenter servers *)

Lemma additional_node_vcenter (d c : gmap string string) (node : string) n nv :
  additional_node d c node = Return n ->
  d !! "nsx_vcenter" = Some nv ->
  jget "vcenter" n = Some (JStr nv).
Proof.
  unfold additional_node. intros H Hnv. inv_bind H. injection H as <-.
  match goal with
  | E : getitem d "nsx_vcenter" = Return _ |- _ =>
      apply getitem_Return in E; rewrite Hnv in E; injection E as <-
  end.
  reflexivity.
Qed.

Lemma edge_transport_node_vc_name (d c : gmap string string) (edge : string) e nv :
  edge_transport_node d c edge = Return e ->
  d !! "nsx_vcenter" = Some nv ->
  jpath vc_name_path e = Some (JStr nv).
Proof.
  unfold edge_transport_node. intros H Hnv. inv_bind H. injection H as <-.
  match goal with
  | E : getitem d "nsx_vcenter" = Return _ |- _ =>
      apply getitem_Return in E; rewrite Hnv in E; injection E as <-
  end.
  reflexivity.
Qed.

Lemma compute_managers_names (d c : gmap string string) cm d' fq1 fq2 nv cmn :
  compute_managers d c = Return (cm, d') ->
  c !! "nsx_vcenter_fqdn" = Some fq1 -> c !! "vcenter_fqdn" = Some fq2 ->
  d !! "nsx_vcenter" = Some nv -> d !! "compute_manager_name" = Some cmn ->
  (fq1 <> fq2 ->
   d' = d
   /\ exists cm1 cm2,
        cm = JList [cm1; cm2]
        /\ jget "display_name" cm1 = Some (JStr cmn)
        /\ jget "display_name" cm2 = Some (JStr nv))
  /\ (fq1 = fq2 ->
      d' = <["nsx_vcenter" := cmn]> d
      /\ exists cm1,
           cm = JList [cm1] /\ jget "display_name" cm1 = Some (JStr cmn)).
Proof.
  unfold compute_managers. intros H H1 H2 Hnv Hcmn.
  apply bind_Return in H as (dn & Edn & H).
  apply bind_Return in H as (ip & _ & H).
  apply bind_Return in H as (un & _ & H).
  apply bind_Return in H as (pw & _ & H).
  cbv zeta in H.
  apply bind_Return in H as (f1 & Ef1 & H).
  apply bind_Return in H as (f2 & Ef2 & H).
  apply getitem_Return in Edn, Ef1, Ef2.
  assert (dn = cmn) as -> by congruence.
  assert (f1 = fq1) as -> by congruence.
  assert (f2 = fq2) as -> by congruence.
  destruct (String.eqb_spec fq1 fq2) as [Heq|Hne]; cbn [negb] in H.
  - apply bind_Return in H as (dn' & Edn' & H). apply getitem_Return in Edn'.
    assert (dn' = cmn) as -> by congruence. injection H as <- <-.
    split; [done |]. intros _. split; [done |]. eexists. split; reflexivity.
  - apply bind_Return in H as (dn2 & Edn2 & H). apply getitem_Return in Edn2.
    assert (dn2 = nv) as -> by congruence.
    apply bind_Return in H as (ip2 & _ & H).
    apply bind_Return in H as (un2 & _ & H).
    apply bind_Return in H as (pw2 & _ & H).
    cbv zeta in H. injection H as <- <-.
    split; [| done]. intros _. split; [done |].
    eexists _, _. split; [reflexivity |]. split; reflexivity.
Qed.

(** X11: the name of the vCenter in the document.  The two additional
    manager nodes always carry the [nsx_vcenter] of the defaults file.  With
    two vCenter servers the edges carry it too and the document lists two
    compute managers, named [compute_manager_name] and [nsx_vcenter]; with
    one vCenter ([nsx_vcenter_fqdn] equal to [vcenter_fqdn]) the document
    lists the single compute manager [compute_manager_name], and the edges
    carry that name while the additional manager nodes still carry
    [nsx_vcenter]. *)
Theorem vcenter_names
    (vc : vcenter) (fs : files) (d c : gmap string string) (doc : json)
    (fq1 fq2 nv cmn : string) :
  txt_to_json (defaults_file fs) = Return d ->
  txt_to_json (config_file fs) = Return c ->
  vars_document vc fs = Return doc ->
  c !! "nsx_vcenter_fqdn" = Some fq1 -> c !! "vcenter_fqdn" = Some fq2 ->
  d !! "nsx_vcenter" = Some nv -> d !! "compute_manager_name" = Some cmn ->
  jpath [Key "additional_nodes"; Idx 0; Key "vcenter"] doc = Some (JStr nv)
  /\ jpath [Key "additional_nodes"; Idx 1; Key "vcenter"] doc = Some (JStr nv)
  /\ (fq1 <> fq2 ->
      jpath (Key "edge_transport_nodes" :: Idx 0 :: vc_name_path) doc
      = Some (JStr nv)
      /\ jpath (Key "edge_transport_nodes" :: Idx 1 :: vc_name_path) doc
         = Some (JStr nv)
      /\ exists cm1 cm2,
           jget "compute_managers" doc = Some (JList [cm1; cm2])
           /\ jget "display_name" cm1 = Some (JStr cmn)
           /\ jget "display_name" cm2 = Some (JStr nv))
  /\ (fq1 = fq2 ->
      jpath (Key "edge_transport_nodes" :: Idx 0 :: vc_name_path) doc
      = Some (JStr cmn)
      /\ jpath (Key "edge_transport_nodes" :: Idx 1 :: vc_name_path) doc
         = Some (JStr cmn)
      /\ exists cm1,
           jget "compute_managers" doc = Some (JList [cm1])
           /\ jget "display_name" cm1 = Some (JStr cmn)).
Proof.
  intros Hd Hc Hdoc H1 H2 Hnv Hcmn.
  rewrite (vars_document_nsx_vars vc fs d c Hd Hc) in Hdoc.
  destruct (nsx_vars_blocks vc d c doc Hdoc).
  destruct (additional_nodes_Return _ _ _ bl_additional_nodes)
    as (n2 & n3 & -> & N2 & N3).
  destruct (edge_transport_nodes_Return _ _ _ bl_edge_transport_nodes)
    as (e1 & e2 & -> & E1 & E2).
  destruct (compute_managers_names d c cm d' fq1 fq2 nv cmn
              bl_compute_managers H1 H2 Hnv Hcmn) as [Hne Heq].
  split.
  { rewrite (jpath_Key _ _ _ _ bl_get_nodes).
    exact (jpath_Key "vcenter" [] n2 _
             (additional_node_vcenter d c "node2" n2 nv N2 Hnv)). }
  split.
  { rewrite (jpath_Key _ _ _ _ bl_get_nodes).
    exact (jpath_Key "vcenter" [] n3 _
             (additional_node_vcenter d c "node3" n3 nv N3 Hnv)). }
  split.
  - intros Hfq. destruct (Hne Hfq) as (-> & cm1 & cm2 & -> & D1 & D2).
    rewrite !(jpath_Key _ _ _ _ bl_get_edges).
    split; [exact (edge_transport_node_vc_name d c "edge1" e1 nv E1 Hnv) |].
    split; [exact (edge_transport_node_vc_name d c "edge2" e2 nv E2 Hnv) |].
    eauto.
  - intros Hfq. destruct (Heq Hfq) as (-> & cm1 & -> & D1).
    rewrite !(jpath_Key _ _ _ _ bl_get_edges).
    assert ((<["nsx_vcenter" := cmn]> d) !! "nsx_vcenter" = Some cmn) as Hnv'
      by apply lookup_insert_eq.
    split; [exact (edge_transport_node_vc_name _ c "edge1" e1 cmn E1 Hnv') |].
    split; [exact (edge_transport_node_vc_name _ c "edge2" e2 cmn E2 Hnv') |].
    eauto.
Qed.

Lemma vcenter_names_witness :
  exists doc,
    vars_document sample_vc
      (sample_files
         (sample_config_with [("nsx_vcenter_fqdn", "vcenter.mylab.net")]))
    = Return doc
    /\ jpath [Key "additional_nodes"; Idx 0; Key "vcenter"] doc
       = Some (JStr "vSphere_NSX_deploy")
    /\ jpath (Key "edge_transport_nodes" :: Idx 0 :: vc_name_path) doc
       = Some (JStr "vcenter").
Proof.
  set (fs := sample_files
               (sample_config_with [("nsx_vcenter_fqdn", "vcenter.mylab.net")])).
  set (doc := match vars_document sample_vc fs with
              | Return doc => doc
              | _ => JDict []
              end).
  assert (vars_document sample_vc fs = Return doc) as E
    by (vm_compute; reflexivity).
  exists doc. split; [exact E |].
  destruct (vcenter_names sample_vc fs (parsed reset_defaults)
              (parsed (config_file fs)) doc
              "vcenter.mylab.net" "vcenter.mylab.net"
              "vSphere_NSX_deploy" "vcenter") as (N2 & _ & _ & Heq).
  - apply parsed_Return. vm_compute. reflexivity.
  - apply parsed_Return. vm_compute. reflexivity.
  - exact E.
  - vm_compute. reflexivity.
  - vm_compute. reflexivity.
  - vm_compute. reflexivity.
  - vm_compute. reflexivity.
  - split; [exact N2 |]. apply (Heq eq_refl).
Defined.

(** ** The exceptions of [generate_vars_file] *)

Lemma bind_Raise {A B : Type} (m : outcome A) (k : A -> outcome B) e :
  bind m k = Raise e ->
  m = Raise e \/ exists a, m = Return a /\ k a = Raise e.
Proof. destruct m as [a| |]; simpl; [eauto | discriminate | intros [= ->]; auto]. Qed.

Lemma getitem_config_cause vc d c (k : string) e :
  k ∈ config_keys -> getitem c k = Raise e -> raise_cause vc d c e.
Proof.
  intros Hk H. destruct (getitem_cases c k) as [(v & _ & E) | [Hn E]];
    rewrite E in H; [discriminate |].
  injection H as <-. by left.
Qed.

Lemma getitem_defaults_cause vc d c (k : string) e :
  k ∈ defaults_keys -> getitem d k = Raise e -> raise_cause vc d c e.
Proof.
  intros Hk H. destruct (getitem_cases d k) as [(v & _ & E) | [Hn E]];
    rewrite E in H; [discriminate |].
  injection H as <-. by right.
Qed.

Lemma int_of_cause vc d c (k s : string) e :
  k ∈ int_keys -> getitem c k = Return s -> int_of s = Raise e ->
  raise_cause vc d c e.
Proof.
  intros Hk Hs H. apply getitem_Return in Hs. unfold int_of in H.
  destruct (py_int s) eqn:Hn; [discriminate |]. injection H as <-.
  by exists k.
Qed.

Lemma get_vds_uuid_cause vc d c n h u p e :
  get_vds_uuid vc n h u p = Raise e -> raise_cause vc d c e.
Proof.
  intros H. assert (e = OtherError) as ->.
  { unfold get_vds_uuid in H. destruct (vc h u p); [discriminate | congruence |].
    destruct (get_obj _ _); discriminate. }
  simpl. eauto.
Qed.

Create HintDb raise_cause.
#[local] Hint Resolve get_vds_uuid_cause : raise_cause.

Ltac cause H :=
  first
    [ refine (getitem_config_cause _ _ _ _ _ _ H); solve_elem
    | refine (getitem_defaults_cause _ _ _ _ _ _ H); solve_elem
    | match goal with
      | E : getitem _ ?k = Return ?s |- _ =>
          refine (int_of_cause _ _ _ k s _ _ E H); solve_elem
      end
    | solve [eauto with raise_cause] ].

Ltac raise_step H :=
  apply bind_Raise in H as [H | (? & ? & H)];
  [solve [cause H] | cbv beta zeta in H].

Ltac raise_steps H :=
  lazymatch type of H with
  | bind _ _ = Raise _ =>
      apply bind_Raise in H as [H | (? & ? & H)];
      [raise_steps H | cbv beta zeta in H; raise_steps H]
  | _ => first [discriminate H | cause H]
  end.

Lemma top_level_vars_cause vc d c e :
  top_level_vars d c = Raise e -> raise_cause vc d c e.
Proof. unfold top_level_vars. intros H. raise_steps H. Qed.

Lemma nsx_node1_cause vc d c e :
  nsx_node1 c = Raise e -> raise_cause vc d c e.
Proof. unfold nsx_node1. intros H. raise_steps H. Qed.

Lemma additional_nodes_cause vc d c e :
  additional_nodes d c = Raise e -> raise_cause vc d c e.
Proof. unfold additional_nodes, additional_node. intros H. raise_steps H. Qed.

Lemma compute_managers_cause vc d c e :
  compute_managers d c = Raise e -> raise_cause vc d c e.
Proof.
  unfold compute_managers. intros H. do 6 raise_step H.
  destruct (negb _); raise_steps H.
Qed.

Lemma nsxt_licenses_cause vc d c e :
  nsxt_licenses c = Raise e -> raise_cause vc d c e.
Proof. unfold nsxt_licenses. intros H. raise_steps H. Qed.

Lemma transport_zones_cause vc d c e :
  transport_zones d = Raise e -> raise_cause vc d c e.
Proof. unfold transport_zones. intros H. raise_steps H. Qed.

Lemma ip_pools_cause vc d c e :
  ip_pools d c = Raise e -> raise_cause vc d c e.
Proof. unfold ip_pools, ip_pool. intros H. raise_steps H. Qed.

Lemma edge_pnics_cause vc d c (edge : string) e :
  edge = "edge1" \/ edge = "edge2" ->
  edge_pnics c edge = Raise e -> raise_cause vc d c e.
Proof.
  unfold edge_pnics. intros [-> | ->] H;
    do 2 raise_step H; destruct (_ >? 2); raise_steps H.
Qed.

Lemma edge_transport_node_cause vc d c (edge : string) e :
  edge = "edge1" \/ edge = "edge2" ->
  edge_transport_node d c edge = Raise e -> raise_cause vc d c e.
Proof.
  unfold edge_transport_node. intros He H.
  pose proof (edge_pnics_cause vc d c edge) as Hp.
  destruct He as [-> | ->];
    (do 2 raise_step H;
     apply bind_Raise in H as [H | (? & ? & H)]; [apply Hp; auto |];
     raise_steps H).
Qed.

Lemma edge_transport_nodes_cause vc d c e :
  edge_transport_nodes d c = Raise e -> raise_cause vc d c e.
Proof.
  unfold edge_transport_nodes. intros H.
  apply bind_Raise in H as [H | (? & ? & H)];
    [apply (edge_transport_node_cause vc d c "edge1"); auto |].
  apply bind_Raise in H as [H | (? & ? & H)];
    [apply (edge_transport_node_cause vc d c "edge2"); auto |].
  discriminate.
Qed.

Lemma edge_clusters_cause vc d c e :
  edge_clusters d = Raise e -> raise_cause vc d c e.
Proof. unfold edge_clusters. intros H. raise_steps H. Qed.

Lemma tier0_gateways_cause vc d c e :
  tier0_gateways d = Raise e -> raise_cause vc d c e.
Proof. unfold tier0_gateways. intros H. raise_steps H. Qed.

Lemma host_switch_profiles_cause vc d c e :
  host_switch_profiles d c = Raise e -> raise_cause vc d c e.
Proof. unfold host_switch_profiles. intros H. raise_steps H. Qed.

Lemma host_uplinks_cause vc d c e :
  host_uplinks c = Raise e -> raise_cause vc d c e.
Proof.
  unfold host_uplinks. intros H.
  do 2 raise_step H; destruct (_ >? 2); raise_steps H.
Qed.

#[local] Hint Resolve host_uplinks_cause : raise_cause.

Lemma transport_node_profiles_cause vc d c e :
  transport_node_profiles vc d c = Raise e -> raise_cause vc d c e.
Proof. unfold transport_node_profiles. intros H. raise_steps H. Qed.

Lemma tn_collections_loop_cause vc d c l e :
  tn_collections_loop d l = Raise e -> raise_cause vc d c e.
Proof.
  induction l as [|x l IH]; simpl; intros H; [discriminate |].
  apply bind_Raise in H as [H | (? & ? & H)].
  - unfold tn_collection in H. raise_steps H.
  - apply bind_Raise in H as [H | (? & ? & H)]; [auto | discriminate].
Qed.

#[local] Hint Resolve tn_collections_loop_cause : raise_cause.

Lemma transport_node_collections_cause vc d c e :
  transport_node_collections d c = Raise e -> raise_cause vc d c e.
Proof. unfold transport_node_collections. intros H. raise_steps H. Qed.

Lemma compute_managers_defaults_None (d c : gmap string string) cm d' k :
  compute_managers d c = Return (cm, d') -> d' !! k = None -> d !! k = None.
Proof.
  unfold compute_managers. intros H Hk. inv_bind H.
  destruct (negb _) in H; inv_bind H; injection H as <- <-; [done |].
  by apply lookup_insert_None in Hk as [? _].
Qed.

Lemma raise_cause_defaults vc (d d' c : gmap string string) cm e :
  compute_managers d c = Return (cm, d') ->
  raise_cause vc d' c e -> raise_cause vc d c e.
Proof.
  intros Hcm. destruct e as [k|s| |]; simpl; [| done..].
  intros [H | [Hk H]]; [by left | right].
  split; [done |]. by apply (compute_managers_defaults_None d c cm d' k).
Qed.

Lemma nsx_vars_cause vc d c e :
  nsx_vars vc d c = Raise e -> raise_cause vc d c e.
Proof.
  unfold nsx_vars. intros H.
  apply bind_Raise in H as [H | (? & _ & H)];
    [by apply top_level_vars_cause |].
  apply bind_Raise in H as [H | (? & _ & H)]; [by apply nsx_node1_cause |].
  apply bind_Raise in H as [H | (? & _ & H)];
    [by apply additional_nodes_cause |].
  apply bind_Raise in H as [H | ([cm d'] & Hcm & H)];
    [by apply compute_managers_cause |].
  cbv zeta in H. cbn [fst snd] in H.
  apply bind_Raise in H as [H | (? & _ & H)]; [by apply nsxt_licenses_cause |].
  apply (raise_cause_defaults vc d d' c cm e Hcm).
  apply bind_Raise in H as [H | (? & _ & H)];
    [by apply transport_zones_cause |].
  apply bind_Raise in H as [H | (? & _ & H)]; [by apply ip_pools_cause |].
  apply bind_Raise in H as [H | (? & _ & H)];
    [by apply edge_transport_nodes_cause |].
  apply bind_Raise in H as [H | (? & _ & H)]; [by apply edge_clusters_cause |].
  apply bind_Raise in H as [H | (? & _ & H)];
    [by apply tier0_gateways_cause |].
  apply bind_Raise in H as [H | (? & _ & H)];
    [by apply host_switch_profiles_cause |].
  apply bind_Raise in H as [H | (? & _ & H)];
    [by apply transport_node_profiles_cause |].
  apply bind_Raise in H as [H | (? & _ & H)];
    [by apply transport_node_collections_cause |].
  discriminate.
Qed.

Lemma generate_vars_file_outcome (vc : vcenter) (fs : files) :
  (generate_vars_file vc fs).1
  = bind (vars_document vc fs) (fun _ => Return tt).
Proof. unfold generate_vars_file. by destruct (vars_document vc fs). Qed.

(** X12: the exceptions of [generate_vars_file] when the two files parse.
    A [KeyError] names a key the script reads that its file does not bind;
    a [ValueError] carries the text bound to one of the five integer keys,
    which [int] refuses; any other exception comes from the connection to
    vCenter; an [IndexError] is not raised. *)
Theorem generate_vars_file_exceptions
    (vc : vcenter) (fs : files) (d c : gmap string string) (e : exn) :
  txt_to_json (defaults_file fs) = Return d ->
  txt_to_json (config_file fs) = Return c ->
  (generate_vars_file vc fs).1 = Raise e ->
  match e with
  | KeyError k =>
      (k ∈ config_keys /\ c !! k = None) \/ (k ∈ defaults_keys /\ d !! k = None)
  | ValueError s =>
      exists k, k ∈ int_keys /\ c !! k = Some s /\ py_int s = None
  | IndexError => False
  | OtherError => exists n h u p, get_vds_uuid vc n h u p = Raise OtherError
  end.
Proof.
  intros Hd Hc H. rewrite generate_vars_file_outcome in H.
  rewrite (vars_document_nsx_vars vc fs d c Hd Hc) in H.
  apply bind_Raise in H as [H | (? & _ & H)]; [| discriminate].
  exact (nsx_vars_cause vc d c e H).
Qed.

Lemma generate_vars_file_exceptions_witness :
  exists k, k ∈ int_keys
            /\ parsed sample_config_no_prefix !! k = Some ""
            /\ py_int "" = None.
Proof.
  apply (generate_vars_file_exceptions sample_vc
           (sample_files sample_config_no_prefix)
           (parsed reset_defaults) (parsed sample_config_no_prefix)
           (ValueError "")).
  - apply parsed_Return. vm_compute. reflexivity.
  - apply parsed_Return. vm_compute. reflexivity.
  - vm_compute. reflexivity.
Defined.

(** X13: the two templates cover what is read.  When the defaults file
    binds every key [reset_defaults] writes and the config file every key
    [reset_config] writes, [generate_vars_file] raises no [KeyError],
    whatever the values are. *)
Theorem templates_cover_keys
    (vc : vcenter) (fs : files) (d c : gmap string string) (k : string) :
  txt_to_json (defaults_file fs) = Return d ->
  txt_to_json (config_file fs) = Return c ->
  present (reset_defaults_bindings.*1) d ->
  present (item_keys reset_config_items) c ->
  (generate_vars_file vc fs).1 <> Raise (KeyError k).
Proof.
  intros Hd Hc Pd Pc H. rewrite generate_vars_file_outcome in H.
  rewrite (vars_document_nsx_vars vc fs d c Hd Hc) in H.
  apply bind_Raise in H as [H | (? & _ & H)]; [| discriminate].
  apply (nsx_vars_cause vc d c) in H. simpl in H.
  destruct H as [[Hk Hn] | [Hk Hn]].
  - assert (Forall (fun k => k ∈ item_keys reset_config_items) config_keys)
      as Hall by (apply (bool_decide_unpack _); vm_compute; exact I).
    rewrite Forall_forall in Hall. pose proof (Hall k Hk) as Hin.
    destruct (Pc k Hin) as [v Hv]. congruence.
  - assert (Forall (fun k => k ∈ reset_defaults_bindings.*1) defaults_keys)
      as Hall by (apply (bool_decide_unpack _); vm_compute; exact I).
    rewrite Forall_forall in Hall. pose proof (Hall k Hk) as Hin.
    destruct (Pd k Hin) as [v Hv]. congruence.
Qed.

Lemma templates_cover_keys_witness :
  (generate_vars_file sample_vc
     {| defaults_file := reset_defaults;
        config_file := reset_config;
        vars_file := None |}).1
  <> Raise (KeyError "nsx_password").
Proof.
  apply (templates_cover_keys sample_vc
           {| defaults_file := reset_defaults;
              config_file := reset_config;
              vars_file := None |}
           (parsed reset_defaults) (parsed reset_config) "nsx_password").
  - apply parsed_Return. vm_compute. reflexivity.
  - apply parsed_Return. vm_compute. reflexivity.
  - apply present_check. vm_compute. reflexivity.
  - apply present_check. vm_compute. reflexivity.
Defined.

(** ** What is read of the defaults file *)

Section AgreeDefaults.

Variable vc : vcenter.
Variables d1 d2 c : gmap string string.
Hypothesis H : forall k, k ∈ defaults_keys -> d1 !! k = d2 !! k.

Lemma top_level_vars_agree_defaults : top_level_vars d1 c = top_level_vars d2 c.
Proof. unfold top_level_vars. agree d1 d2 H. Qed.

Lemma additional_nodes_agree_defaults :
  additional_nodes d1 c = additional_nodes d2 c.
Proof. unfold additional_nodes, additional_node. agree d1 d2 H. Qed.

Lemma transport_zones_agree_defaults : transport_zones d1 = transport_zones d2.
Proof. unfold transport_zones. agree d1 d2 H. Qed.

Lemma ip_pools_agree_defaults : ip_pools d1 c = ip_pools d2 c.
Proof. unfold ip_pools, ip_pool. agree d1 d2 H. Qed.

Lemma edge_transport_nodes_agree_defaults :
  edge_transport_nodes d1 c = edge_transport_nodes d2 c.
Proof. unfold edge_transport_nodes, edge_transport_node. agree d1 d2 H. Qed.

Lemma edge_clusters_agree_defaults : edge_clusters d1 = edge_clusters d2.
Proof. unfold edge_clusters. agree d1 d2 H. Qed.

Lemma tier0_gateways_agree_defaults : tier0_gateways d1 = tier0_gateways d2.
Proof. unfold tier0_gateways. agree d1 d2 H. Qed.

Lemma host_switch_profiles_agree_defaults :
  host_switch_profiles d1 c = host_switch_profiles d2 c.
Proof. unfold host_switch_profiles. agree d1 d2 H. Qed.

Lemma transport_node_profiles_agree_defaults :
  transport_node_profiles vc d1 c = transport_node_profiles vc d2 c.
Proof. unfold transport_node_profiles. agree d1 d2 H. Qed.

Lemma tn_collections_loop_agree_defaults (l : list string) :
  tn_collections_loop d1 l = tn_collections_loop d2 l.
Proof.
  induction l as [|x l IH]; [reflexivity |]. cbn [tn_collections_loop].
  rewrite IH. unfold tn_collection. agree d1 d2 H.
Qed.

Lemma transport_node_collections_agree_defaults :
  transport_node_collections d1 c = transport_node_collections d2 c.
Proof.
  unfold transport_node_collections.
  destruct (getitem c "compute_clusters_for_prep"); cbn [bind]; [| reflexivity..].
  by rewrite tn_collections_loop_agree_defaults.
Qed.

Lemma compute_managers_agree_defaults :
  match compute_managers d1 c, compute_managers d2 c with
  | Return (cm1, d1'), Return (cm2, d2') =>
      cm1 = cm2 /\ forall k, k ∈ defaults_keys -> d1' !! k = d2' !! k
  | Exit st1 msg1, Exit st2 msg2 => st1 = st2 /\ msg1 = msg2
  | Raise e1, Raise e2 => e1 = e2
  | _, _ => False
  end.
Proof.
  unfold compute_managers.
  repeat match goal with
         | |- context [getitem d1 ?k] =>
             rewrite (getitem_agree d1 d2 k) by (apply H; solve_elem)
         end.
  repeat match goal with
         | |- context [bind (getitem ?m ?k) _] =>
             destruct (getitem m k); cbn [bind]; [| done..]
         | |- context [if negb ?b then _ else _] => destruct b; cbn [negb]
         end.
  - split; [reflexivity |]. intros k Hk.
    destruct (decide (k = "nsx_vcenter")) as [-> | Hne].
    + by rewrite !lookup_insert_eq.
    + rewrite !lookup_insert_ne by done. by apply H.
  - split; [reflexivity | exact H].
Qed.

End AgreeDefaults.

Lemma nsx_vars_agree_defaults (vc : vcenter) (d1 d2 c : gmap string string) :
  (forall k, k ∈ defaults_keys -> d1 !! k = d2 !! k) ->
  nsx_vars vc d1 c = nsx_vars vc d2 c.
Proof.
  intros H. unfold nsx_vars.
  rewrite (top_level_vars_agree_defaults d1 d2 c H),
    (additional_nodes_agree_defaults d1 d2 c H).
  destruct (top_level_vars d2 c); cbn [bind]; [| reflexivity..].
  destruct (nsx_node1 c); cbn [bind]; [| reflexivity..].
  destruct (additional_nodes d2 c); cbn [bind]; [| reflexivity..].
  pose proof (compute_managers_agree_defaults d1 d2 c H) as Hcm.
  destruct (compute_managers d1 c) as [[cm1 d1']| |],
    (compute_managers d2 c) as [[cm2 d2']| |]; try done; cbn [bind fst snd].
  - destruct Hcm as [-> H'].
    rewrite (transport_zones_agree_defaults d1' d2' H'),
      (ip_pools_agree_defaults d1' d2' c H'),
      (edge_transport_nodes_agree_defaults d1' d2' c H'),
      (edge_clusters_agree_defaults d1' d2' H'),
      (tier0_gateways_agree_defaults d1' d2' H'),
      (host_switch_profiles_agree_defaults d1' d2' c H'),
      (transport_node_profiles_agree_defaults vc d1' d2' c H'),
      (transport_node_collections_agree_defaults d1' d2' c H').
    reflexivity.
  - by destruct Hcm as [-> ->].
  - by rewrite Hcm.
Qed.

(** X14: [validate_certs] and [edge_cluster_profile_binding] of the defaults
    file are not read.  Two defaults files that differ in those two keys at
    most give the same document or the same failure; the document always
    holds ["False"] under [validate_certs] and the profile
    ["nsx-default-edge-high-availability-profile"] in the edge cluster. *)
Theorem unused_defaults
    (vc : vcenter) (fs1 fs2 : files) (d1 d2 : gmap string string) :
  config_file fs1 = config_file fs2 ->
  txt_to_json (defaults_file fs1) = Return d1 ->
  txt_to_json (defaults_file fs2) = Return d2 ->
  (forall k, k <> "validate_certs" -> k <> "edge_cluster_profile_binding" ->
             d1 !! k = d2 !! k) ->
  vars_document vc fs1 = vars_document vc fs2
  /\ (forall doc,
        vars_document vc fs1 = Return doc ->
        jget "validate_certs" doc = Some (JStr "False")
        /\ jpath [ Key "edge_clusters"; Idx 0; Key "cluster_profile_bindings";
                   Idx 0; Key "profile_name" ] doc
           = Some (JStr "nsx-default-edge-high-availability-profile")).
Proof.
  intros Hfile Hd1 Hd2 Hagree.
  assert (forall k, k ∈ defaults_keys -> d1 !! k = d2 !! k) as Hkeys.
  { intros k Hk. apply Hagree; intros ->; revert Hk;
      apply (bool_decide_unpack _); vm_compute; exact I. }
  split.
  - unfold vars_document. rewrite <- Hfile, Hd1, Hd2. cbn [bind].
    destruct (txt_to_json (config_file fs1)) as [c| |]; cbn [bind];
      [| reflexivity..].
    by apply nsx_vars_agree_defaults.
  - intros doc Hdoc. unfold vars_document in Hdoc. rewrite Hd1 in Hdoc.
    cbn [bind] in Hdoc. apply bind_Return in Hdoc as (c & _ & Hdoc).
    unfold nsx_vars in Hdoc. inv_bind Hdoc. injection Hdoc as <-.
    match goal with E : top_level_vars _ _ = Return _ |- _ =>
      unfold top_level_vars in E; inv_bind E; injection E as <- end.
    match goal with E : edge_clusters _ = Return _ |- _ =>
      unfold edge_clusters in E; inv_bind E; injection E as <- end.
    split; reflexivity.
Qed.

Lemma sample_defaults_changed_agree :
  forall k, k <> "validate_certs" -> k <> "edge_cluster_profile_binding" ->
    parsed reset_defaults !! k
    = parsed (reset_defaults
              +:+ writeln "validate_certs" "true" "Accept self-signed certs" ""
              +:+ writeln "edge_cluster_profile_binding" "my-profile"
                    "Edge Cluster Profile Binding" "") !! k.
Proof.
  intros k H1 H2.
  rewrite <- (lookup_delete_ne (parsed reset_defaults) "validate_certs" k)
    by done.
  rewrite <- (lookup_delete_ne (delete _ (parsed reset_defaults))
                "edge_cluster_profile_binding" k) by done.
  rewrite <- (lookup_delete_ne (parsed (_ +:+ _)) "validate_certs" k) by done.
  rewrite <- (lookup_delete_ne (delete _ (parsed (_ +:+ _)))
                "edge_cluster_profile_binding" k) by done.
  f_equal; try (apply (bool_decide_unpack _); vm_compute; exact I).
Qed.

Lemma unused_defaults_witness :
  vars_document sample_vc (sample_files sample_config)
  = vars_document sample_vc
      {| defaults_file :=
           reset_defaults
           +:+ writeln "validate_certs" "true" "Accept self-signed certs" ""
           +:+ writeln "edge_cluster_profile_binding" "my-profile"
                 "Edge Cluster Profile Binding" "";
         config_file := sample_config;
         vars_file := None |}.
Proof.
  apply (unused_defaults sample_vc (sample_files sample_config)
           {| defaults_file :=
                reset_defaults
                +:+ writeln "validate_certs" "true" "Accept self-signed certs" ""
                +:+ writeln "edge_cluster_profile_binding" "my-profile"
                      "Edge Cluster Profile Binding" "";
              config_file := sample_config;
              vars_file := None |}
           (parsed reset_defaults)
           (parsed (reset_defaults
                    +:+ writeln "validate_certs" "true"
                          "Accept self-signed certs" ""
                    +:+ writeln "edge_cluster_profile_binding" "my-profile"
                          "Edge Cluster Profile Binding" ""))).
  - reflexivity.
  - exact sample_defaults_parse.
  - apply parsed_Return. vm_compute. reflexivity.
  - exact sample_defaults_changed_agree.
Defined.

(** ** The file [reset_config] writes *)

Lemma write_items_loop (m : gmap string string) (items : list config_item)
    (rest : string) :
  Forall writable_item items ->
  txt_to_json_loop m (readlines (write_items items +:+ rest))
  = txt_to_json_loop (item_bindings m items) (readlines rest).
Proof.
  intros H. revert m.
  induction H as [|[msg|k v c e] items Hit _ IH]; intros m;
    [by rewrite append_nil_l | |];
    cbn [write_items item_bindings foldl]; rewrite append_assoc.
  - rewrite writeheader_loop by exact Hit. apply IH.
  - destruct Hit as (Hk & Heq & Hdq & Hv & Hc & He).
    rewrite writeln_quoted_loop by done. apply IH.
Qed.

(** X15: a file made of a title, headings and entries, as [reset_config]
    writes it, is read back by [txt_to_json] as the bindings of its entries:
    the title and the headings bind nothing, every entry binds its key to
    its value, and of two entries with the same key the later one counts. *)
Theorem config_file_round_trip (title : string) (items : list config_item) :
  single_line title -> Forall writable_item items ->
  txt_to_json (writeln "" "" (text_line title) "" +:+ write_items items)
  = Return (item_bindings ∅ items).
Proof.
  intros Ht Hitems. unfold txt_to_json.
  rewrite (writeln_heading_loop ∅ "" (text_line title) title "" _ Ht);
    [| by right | by split].
  rewrite <- (append_nil_r (write_items items)).
  by rewrite write_items_loop.
Qed.

Lemma reset_config_items_writable : Forall writable_item reset_config_items.
Proof.
  unfold reset_config_items.
  repeat (constructor;
          [first [ split; reflexivity
                 | repeat split; first [reflexivity | discriminate] ] |]).
  constructor.
Qed.

Lemma config_file_round_trip_witness :
  txt_to_json reset_config = Return (item_bindings ∅ reset_config_items).
Proof.
  apply (config_file_round_trip "User Configuration" reset_config_items).
  - split; reflexivity.
  - exact reset_config_items_writable.
Defined.

(** ** When the variables file is generated *)

Ltac open_block E := inv_bind E; clear E.

Lemma nsx_vars_reads (vc : vcenter) (d c : gmap string string) (doc : json) :
  nsx_vars vc d c = Return doc -> well_formed vc d c.
Proof.
  unfold nsx_vars. intros H. inv_bind H. clear H.
  match goal with E : compute_managers _ _ = Return ?p |- _ =>
    destruct p as [cm d']; pose proof (compute_managers_defaults d c cm d' E)
      as Hsame end.
  cbn [fst snd] in *.
  repeat match goal with
         | E : edge_transport_nodes _ _ = Return _ |- _ =>
             apply edge_transport_nodes_Return in E as (? & ? & _ & ? & ?)
         | E : additional_nodes _ _ = Return _ |- _ =>
             apply additional_nodes_Return in E as (? & ? & _ & ? & ?)
         end.
  repeat match goal with
         | E : top_level_vars _ _ = Return _ |- _ =>
             unfold top_level_vars in E; open_block E
         | E : nsx_node1 _ = Return _ |- _ => unfold nsx_node1 in E; open_block E
         | E : additional_node _ _ _ = Return _ |- _ =>
             unfold additional_node in E; open_block E
         | E : nsxt_licenses _ = Return _ |- _ =>
             unfold nsxt_licenses in E; open_block E
         | E : transport_zones _ = Return _ |- _ =>
             unfold transport_zones in E; open_block E
         | E : ip_pools _ _ = Return _ |- _ =>
             unfold ip_pools, ip_pool in E; open_block E
         | E : edge_transport_node _ _ _ = Return _ |- _ =>
             unfold edge_transport_node in E; open_block E
         | E : edge_clusters _ = Return _ |- _ =>
             unfold edge_clusters in E; open_block E
         | E : tier0_gateways _ = Return _ |- _ =>
             unfold tier0_gateways in E; open_block E
         | E : host_switch_profiles _ _ = Return _ |- _ =>
             unfold host_switch_profiles in E; open_block E
         | E : transport_node_profiles _ _ _ = Return _ |- _ =>
             unfold transport_node_profiles in E; open_block E
         | E : transport_node_collections _ _ = Return _ |- _ =>
             unfold transport_node_collections in E; open_block E
         | E : edge_pnics _ _ = Return _ |- _ =>
             apply edge_pnics_Return in E as (? & ? & ? & ? & _ & _)
         | E : host_uplinks _ = Return _ |- _ =>
             apply host_uplinks_Return in E as (? & ? & ? & ? & _ & _)
         | E : bind _ _ = Return _ |- _ => open_block E
         end.
  match goal with E : compute_managers _ _ = Return _ |- _ =>
    unfold compute_managers in E;
    do 6 (let a := fresh "x" in
          let E' := fresh "E" in
          apply bind_Return in E as (a & E' & E); cbv beta zeta in E);
    clear E end.
  repeat match goal with
         | E : getitem _ _ = Return _ |- _ => apply getitem_Return in E
         | E : int_of _ = Return _ |- _ => apply int_of_Return in E
         | E : tn_collections_loop _ _ = Return _ |- _ => clear E
         end.
  cbn [String.append] in *.
  assert (present defaults_keys d) as Pd.
  { intros k Hk.
    repeat (apply elem_of_cons in Hk as [-> | Hk]);
      [.. | by apply elem_of_nil in Hk];
      first [ eexists; eassumption
            | rewrite <- Hsame by discriminate; eexists; eassumption ]. }
  assert (present config_keys c) as Pc.
  { intros k Hk.
    repeat (apply elem_of_cons in Hk as [-> | Hk]);
      [.. | by apply elem_of_nil in Hk]; eexists; eassumption. }
  split; [exact Pd |]. split; [exact Pc |].
  split; [eexists _, _; split; eassumption |].
  split; [eexists _, _; split; eassumption |].
  split.
  { intros k Hk.
    repeat (apply elem_of_cons in Hk as [-> | Hk]);
      [.. | by apply elem_of_nil in Hk]; eexists _, _; split; eassumption. }
  intros n h u p Hn Hh Hu Hp.
  match goal with E : get_vds_uuid vc ?n' ?h' ?u' ?p' = Return ?x |- _ =>
    exists x; replace n with n' by congruence; replace h with h' by congruence;
    replace u with u' by congruence; replace p with p' by congruence; exact E
  end.
Qed.

(** X16: when the variables file is generated.  On two files that parse,
    [generate_vars_file] builds the document if and only if every key it
    reads is bound, the two netmask prefixes of the edges and the three
    uplink counts are integers for [int], no uplink count is above 2, and
    the distributed switch is found. *)
Theorem generation_succeeds_iff
    (vc : vcenter) (fs : files) (d c : gmap string string) :
  txt_to_json (defaults_file fs) = Return d ->
  txt_to_json (config_file fs) = Return c ->
  (exists doc, vars_document vc fs = Return doc)
  <-> (well_formed vc d c
       /\ forall k s n, k ∈ uplink_keys -> c !! k = Some s ->
                        py_int s = Some n -> n <= 2).
Proof.
  intros Hd Hc. rewrite (vars_document_nsx_vars vc fs d c Hd Hc). split.
  - intros [doc Hdoc]. split; [by apply (nsx_vars_reads vc d c doc) |].
    intros k s n Hk Hs Hn. by apply (nsx_vars_Return_uplinks vc d c doc k s n).
  - intros [Hwf Hle].
    pose proof Hwf as (_ & _ & _ & _ & Hint & _).
    destruct (Hint "edge1_number_of_uplinks" ltac:(solve_elem))
      as (s1 & n1 & Hs1 & Hn1).
    destruct (Hint "edge2_number_of_uplinks" ltac:(solve_elem))
      as (s2 & n2 & Hs2 & Hn2).
    destruct (Hint "host_number_of_uplinks" ltac:(solve_elem))
      as (sh & nh & Hsh & Hnh).
    destruct (nsx_vars_well_formed vc d c s1 s2 sh n1 n2 nh Hwf
                Hs1 Hn1 Hs2 Hn2 Hsh Hnh) as (_ & _ & _ & Hret).
    apply Hret.
    + apply (Hle "edge1_number_of_uplinks" s1 n1); [solve_elem | done..].
    + apply (Hle "edge2_number_of_uplinks" s2 n2); [solve_elem | done..].
    + apply (Hle "host_number_of_uplinks" sh nh); [solve_elem | done..].
Qed.

Lemma generation_succeeds_iff_witness :
  well_formed sample_vc (parsed reset_defaults) (parsed sample_config)
  /\ forall k s n, k ∈ uplink_keys -> parsed sample_config !! k = Some s ->
                   py_int s = Some n -> n <= 2.
Proof.
  apply (generation_succeeds_iff sample_vc (sample_files sample_config)
           (parsed reset_defaults) (parsed sample_config)
           sample_defaults_parse sample_config_parse).
  exists sample_doc. exact sample_doc_generated.
Defined.

(** ** The flags *)

Lemma generate_vars_file_files (vc : vcenter) (fs : files) :
  defaults_file (generate_vars_file vc fs).2 = defaults_file fs
  /\ config_file (generate_vars_file vc fs).2 = config_file fs
  /\ (vars_file (generate_vars_file vc fs).2 = vars_file fs
      \/ exists doc, vars_document vc fs = Return doc
                     /\ vars_file (generate_vars_file vc fs).2 = Some doc).
Proof.
  unfold generate_vars_file.
  destruct (vars_document vc fs) as [doc| |];
    cbn [snd defaults_file config_file vars_file];
    (split; [done |]); (split; [done |]); [right; eauto | by left..].
Qed.

Lemma install_nsx_files (os_system : shell) (vc : vcenter) (fs : files)
    (trace : list string) :
  (install_nsx os_system vc fs trace).1.2 = (generate_vars_file vc fs).2.
Proof.
  unfold install_nsx.
  by destruct (generate_vars_file vc fs) as [[?| |] fs'].
Qed.

(** X17: what the flags can touch.  Only [--start] runs commands.  The
    defaults file changes only under [--reset-defaults] without [--start],
    and then holds the text of [reset_defaults]; the config file changes
    only under [--reset-config] without the two flags tested before it, and
    then holds the text of [reset_config], so that [--reset-defaults] and
    [--reset-config] given together reset the defaults only.  The variables
    file changes only when [generate_vars_file] built a document. *)
Theorem main_flags
    (os_system : shell) (vc : vcenter) (a : args) (fs : files)
    (trace : list string) :
  (start_install a = false -> (main os_system vc a fs trace).2 = trace)
  /\ (defaults_file (main os_system vc a fs trace).1.2 = defaults_file fs
      \/ (start_install a = false /\ arg_reset_defaults a = true
          /\ defaults_file (main os_system vc a fs trace).1.2 = reset_defaults))
  /\ (config_file (main os_system vc a fs trace).1.2 = config_file fs
      \/ (start_install a = false /\ arg_reset_defaults a = false
          /\ arg_reset_config a = true
          /\ config_file (main os_system vc a fs trace).1.2 = reset_config))
  /\ (vars_file (main os_system vc a fs trace).1.2 = vars_file fs
      \/ ((start_install a = true
           \/ (arg_reset_defaults a = false /\ arg_reset_config a = false
               /\ manual a = true))
          /\ exists doc,
               vars_document vc fs = Return doc
               /\ vars_file (main os_system vc a fs trace).1.2 = Some doc)).
Proof.
  unfold main.
  destruct (generate_vars_file_files vc fs) as (Gd & Gc & Gv).
  destruct (start_install a).
  - rewrite install_nsx_files. split; [discriminate |].
    split; [by left |]. split; [by left |].
    destruct Gv as [Gv | Gv]; [by left | right; eauto].
  - split; [| destruct (arg_reset_defaults a);
               [| destruct (arg_reset_config a); [| destruct (manual a)]]];
      cbn [fst snd defaults_file config_file vars_file].
    + intros _. by destruct (arg_reset_defaults a), (arg_reset_config a),
        (manual a).
    + split; [by right |]. split; by left.
    + split; [by left |]. split; [by right | by left].
    + split; [by left |]. split; [by left |].
      destruct Gv as [Gv | Gv]; [by left | right; eauto].
    + split; [by left |]. split; by left.
Qed.

Lemma main_flags_witness :
  (main shell_ok sample_vc
     {| start_install := false; arg_reset_defaults := true;
        arg_reset_config := true; manual := false |}
     (sample_files sample_config) []).2 = [].
Proof.
  apply (main_flags shell_ok sample_vc
           {| start_install := false; arg_reset_defaults := true;
              arg_reset_config := true; manual := false |}
           (sample_files sample_config) []).
  reflexivity.
Defined.

(** ** The switch of the transport node profile *)

Lemma transport_node_profiles_switch (vc : vcenter) (d c : gmap string string) t :
  transport_node_profiles vc d c = Return t ->
  exists n h u p uuid,
    c !! "host_vds_name" = Some n /\ c !! "vcenter_fqdn" = Some h
    /\ c !! "vcenter_username" = Some u /\ c !! "vcenter_password" = Some p
    /\ get_vds_uuid vc n h u p = Return uuid
    /\ jpath host_switch_id_path t = Some (JStr uuid).
Proof.
  unfold transport_node_profiles. intros H.
  apply bind_Return in H as (dn & _ & H).
  apply bind_Return in H as (n & En & H).
  apply bind_Return in H as (h & Eh & H).
  apply bind_Return in H as (u & Eu & H).
  apply bind_Return in H as (p & Ep & H).
  apply bind_Return in H as (uuid & Euuid & H).
  inv_bind H. injection H as <-.
  apply getitem_Return in En, Eh, Eu, Ep.
  exists n, h, u, p, uuid. by repeat split.
Qed.

(** X18: the switch of the host transport node profile.  In a generated
    document the [host_switch_id] of the profile is the uuid of the first
    switch named [host_vds_name] in the view of the vCenter at
    [vcenter_fqdn], reached with [vcenter_username] and [vcenter_password];
    the vCenter at [nsx_vcenter_fqdn] is not asked. *)
Theorem host_switch_id_lookup
    (vc : vcenter) (fs : files) (d c : gmap string string) (doc : json)
    (n h u p : string) :
  txt_to_json (defaults_file fs) = Return d ->
  txt_to_json (config_file fs) = Return c ->
  vars_document vc fs = Return doc ->
  c !! "host_vds_name" = Some n -> c !! "vcenter_fqdn" = Some h ->
  c !! "vcenter_username" = Some u -> c !! "vcenter_password" = Some p ->
  exists before sw after,
    vc h u p = Connected (before ++ sw :: after)
    /\ Forall (fun s => dvs_name s <> n) before
    /\ dvs_name sw = n
    /\ jpath (Key "transport_node_profiles" :: host_switch_id_path) doc
       = Some (JStr (dvs_uuid sw)).
Proof.
  intros Hd Hc Hdoc Hn Hh Hu Hp.
  rewrite (vars_document_nsx_vars vc fs d c Hd Hc) in Hdoc.
  destruct (nsx_vars_blocks vc d c doc Hdoc).
  destruct (transport_node_profiles_switch vc d' c host_tnps
              bl_transport_node_profiles)
    as (n' & h' & u' & p' & uuid & Hn' & Hh' & Hu' & Hp' & Hget & Hpath).
  assert (n' = n) as -> by congruence. assert (h' = h) as -> by congruence.
  assert (u' = u) as -> by congruence. assert (p' = p) as -> by congruence.
  unfold get_vds_uuid in Hget.
  destruct (vc h u p) as [?| |view]; [discriminate.. |].
  destruct (get_obj view n) as [sw|] eqn:E; [| discriminate].
  injection Hget as <-.
  apply get_obj_Some in E as (before & after & -> & Hb & Hname).
  exists before, sw, after. split; [done |]. split; [done |]. split; [done |].
  rewrite (jpath_Key _ _ _ _ bl_get_host_tnps). exact Hpath.
Qed.

Lemma host_switch_id_lookup_witness :
  exists before sw after,
    sample_vc' "vcenter.mylab.net" "administrator@vsphere.local" "myPassword1!"
    = Connected (before ++ sw :: after)
    /\ Forall (fun s => dvs_name s <> "vds1") before
    /\ dvs_name sw = "vds1"
    /\ jpath (Key "transport_node_profiles" :: host_switch_id_path) sample_doc
       = Some (JStr (dvs_uuid sw)).
Proof.
  apply (host_switch_id_lookup sample_vc' (sample_files sample_config)
           (parsed reset_defaults) (parsed sample_config) sample_doc
           "vds1" "vcenter.mylab.net" "administrator@vsphere.local"
           "myPassword1!").
  - exact sample_defaults_parse.
  - exact sample_config_parse.
  - vm_compute. reflexivity.
  - vm_compute. reflexivity.
  - vm_compute. reflexivity.
  - vm_compute. reflexivity.
  - vm_compute. reflexivity.
Defined.
